(** * bigwig_loader: the batch materialisation scheduler

    A shallow embedding of [bigwig_loader/dataset.py] and of the constructor
    of [bigwig_loader/pytorch.py]: the epoch arithmetic of [__init__], the
    lazily resolved collaborators of [BigWigSuperDataset], and the two
    nested iterators ([BigWigSuperDataset.__next__] fetches a super-batch,
    [BigWigDataset.__next__] slices training batches out of it).

    Python integers are unbounded and are modelled by [Z]; [//] is floor
    division, which is [Z.div]. The reference genome, the position sampler,
    the BigWig collection and the smoothing kernel live outside the two
    modelled files: they are the variables of the section below. *)

From Stdlib Require Import ZArith List Bool Lia.
Import ListNotations.
Local Open Scope Z_scope.

Set Implicit Arguments.

(** ** Python primitives used by the two files *)

(** [x or y] on an optional integer: [None] and [0] are falsy. *)
Definition py_or (x : option Z) (y : Z) : Z :=
  match x with
  | Some v => if v =? 0 then y else v
  | None => y
  end.

(** [math.ceil(a / b)] for [b <> 0]. The source divides in binary64 and
    rounds up; the quotient of two integers is correctly rounded, so the
    result is the exact ceiling as long as the numerator stays below 2^53,
    which is the range this development covers. *)
Definition math_ceil_truediv (a b : Z) : Z := - ((- a) / b).

(** Normalisation of one bound of a slice [l[a:b]] against the length. *)
Definition slice_index (len i : Z) : Z :=
  if i <? 0 then Z.max (i + len) 0 else Z.min i len.

(** [l[a:b]] along the first axis. *)
Definition py_slice {A : Type} (l : list A) (a b : Z) : list A :=
  let len := Z.of_nat (length l) in
  let a' := slice_index len a in
  let b' := slice_index len b in
  firstn (Z.to_nat (b' - a')) (skipn (Z.to_nat a') l).

(** Exceptions that leave the two files. [StopIteration] is not among
    them: it is the end-of-sequence signal of [outcome] below. *)
Inductive exn : Type :=
| AttributeError
| RuntimeError
| TypeError
| ValueError
| ZeroDivisionError.

(** What a call of [__next__] does: it returns a value, signals the end of
    the sequence, or raises. The object's state after the call is kept in
    all three cases, as the fields assigned before a [raise] stay assigned. *)
Inductive outcome (A St : Type) : Type :=
| Yield (a : A) (st : St)
| StopIteration (st : St)
| Raise (e : exn) (st : St).

Arguments Yield {A St} a st.
Arguments StopIteration {A St} st.
Arguments Raise {A St} e st.

(** The state a call leaves behind. *)
Definition state_after {A St : Type} (o : outcome A St) : St :=
  match o with
  | Yield _ st => st
  | StopIteration st => st
  | Raise _ st => st
  end.

(** A keyword argument at a call site. *)
Inductive kwarg (A : Type) : Type :=
| Omitted
| Passed (a : A).

Arguments Omitted {A}.
Arguments Passed {A} a.

Definition kwarg_default {A : Type} (d : A) (k : kwarg A) : A :=
  match k with
  | Omitted => d
  | Passed a => a
  end.

Section Loader.

(** Chromosome names, encoded sequence windows, the signal rows of one
    position, handles of an opened collection and path specifications. *)
Context {Chrom Seq Row Handle PathSpec : Type}.

(** [Genome.get_batch()]: the positions drawn by the sampler and their
    encoded windows. The first argument counts the calls already served
    (the sampler is stateful), the second is the batch size the genome
    was built with. *)
Variable genome_get_batch : nat -> Z -> list (Chrom * Z) * list Seq.

(** [BigWigCollection(path, ...)], [len(collection)] and
    [collection.get_batch(chromosomes, start, end, window_size, out)]. A
    handle stands for the collection object in its current state; [len] of
    a Python object is never negative, hence a natural number. *)
Variable open_collection : PathSpec -> Handle.
Variable collection_len : Handle -> nat.
Variable collection_get_batch :
  Handle -> list Chrom -> list Z -> list Z -> Z -> list Row.

(** [collection.reset_gpu()]: the collection as the call leaves it. *)
Variable collection_reset_gpu : Handle -> Handle.

(** The smoothing kernel behind [moving_average] for windows other than 1. *)
Variable smooth : list Row -> Z -> list Row.

(** Modelled from the spec: [bigwig_loader.cupy_functions.moving_average]
    is imported by dataset.py but its file is absent. The spec (4.3) fixes
    it as the identity at window 1 and as a length-preserving smoothing
    pass delegated to a collaborator otherwise. *)
Definition moving_average (signal : list Row) (n : Z) : list Row :=
  if n =? 1 then signal else smooth signal n.

(** ** Configuration *)

Record Region : Type := {
  chrom : Chrom;
  r_start : Z;
  r_end : Z
}.

(** [(regions["end"] - regions["start"]).sum()]. pandas adds the lengths
    as 64-bit integers; genomic coordinates keep the sum far below 2^63 and
    the model adds them exactly. *)
Definition total_bases (regions : list Region) : Z :=
  fold_right Z.add 0 (map (fun r => r_end r - r_start r) regions).

(** The [collection] argument: a [BigWigCollection], a path (or paths),
    or [None]. *)
Inductive CollectionArg : Type :=
| Collection (h : Handle)
| Paths (p : PathSpec)
| NoCollection.

(** The arguments of the constructors that the scheduler reads, after the
    defaults of the signature have been filled in. The remaining ones
    (genome path, encoder, crawl flags, ...) are handed to the
    collaborators untouched. *)
Record Config : Type := {
  regions_of_interest : list Region;
  collection : CollectionArg;
  sequence_length : Z;
  center_bin_to_predict : option Z;
  window_size : Z;
  moving_average_window_size : Z;
  batch_size : Z;
  super_batch_size : option Z;
  batches_per_epoch : option Z
}.

(** The same arguments as written at a call site. *)
Record Call : Type := {
  call_regions_of_interest : list Region;
  call_collection : CollectionArg;
  call_sequence_length : kwarg Z;
  call_center_bin_to_predict : kwarg (option Z);
  call_window_size : kwarg Z;
  call_moving_average_window_size : kwarg Z;
  call_batch_size : kwarg Z;
  call_super_batch_size : kwarg (option Z);
  call_batches_per_epoch : kwarg (option Z)
}.

(** Signature of [BigWigDataset.__init__] and of
    [BigWigSuperDataset.__init__]: [center_bin_to_predict = None]. *)
Definition dataset_signature (c : Call) : Config :=
  {| regions_of_interest := call_regions_of_interest c;
     collection := call_collection c;
     sequence_length := kwarg_default 1000 (call_sequence_length c);
     center_bin_to_predict := kwarg_default None (call_center_bin_to_predict c);
     window_size := kwarg_default 1 (call_window_size c);
     moving_average_window_size :=
       kwarg_default 1 (call_moving_average_window_size c);
     batch_size := kwarg_default 256 (call_batch_size c);
     super_batch_size := kwarg_default None (call_super_batch_size c);
     batches_per_epoch := kwarg_default None (call_batches_per_epoch c) |}.

(** Signature of [PytorchBigWigDataset.__init__]:
    [center_bin_to_predict = 200]. *)
Definition pytorch_signature (c : Call) : Config :=
  {| regions_of_interest := call_regions_of_interest c;
     collection := call_collection c;
     sequence_length := kwarg_default 1000 (call_sequence_length c);
     center_bin_to_predict :=
       kwarg_default (Some 200) (call_center_bin_to_predict c);
     window_size := kwarg_default 1 (call_window_size c);
     moving_average_window_size :=
       kwarg_default 1 (call_moving_average_window_size c);
     batch_size := kwarg_default 256 (call_batch_size c);
     super_batch_size := kwarg_default None (call_super_batch_size c);
     batches_per_epoch := kwarg_default None (call_batches_per_epoch c) |}.

(** [batches_per_epoch or total // sequence_length // batch_size], the
    expression shared by both constructors. *)
Definition default_batches_per_epoch
    (given : option Z) (regions : list Region) (L B : Z) : Z :=
  py_or given (total_bases regions / L / B).

(** ** BigWigSuperDataset *)

Record BigWigSuperDataset : Type := {
  sd_regions_of_interest : list Region;
  sd_bigwig_collection : option Handle;      (* _bigwig_collection *)
  sd_bigwig_path : option PathSpec;          (* _bigwig_path *)
  sd_sequence_length : Z;
  sd_center_bin_to_predict : Z;
  sd_window_size : Z;
  sd_batch_size : Z;
  sd_batches_per_epoch : Z;
  sd_n : Z;                                  (* _n *)
  sd_genome : option nat;                    (* _genome, with the calls it served *)
  sd_prepared_out : option (Z * Z * Z);      (* _prepared_out, by its shape *)
  sd_moving_average_window_size : Z
}.

Definition BigWigSuperDataset_init (cfg : Config) : BigWigSuperDataset :=
  {| sd_regions_of_interest := regions_of_interest cfg;
     sd_bigwig_collection :=
       match collection cfg with Collection h => Some h | _ => None end;
     sd_bigwig_path :=
       match collection cfg with Paths p => Some p | _ => None end;
     sd_sequence_length := sequence_length cfg;
     sd_center_bin_to_predict :=
       py_or (center_bin_to_predict cfg) (sequence_length cfg);
     sd_window_size := window_size cfg;
     sd_batch_size := batch_size cfg;
     sd_batches_per_epoch :=
       default_batches_per_epoch (batches_per_epoch cfg)
         (regions_of_interest cfg) (sequence_length cfg) (batch_size cfg);
     sd_n := 0;
     sd_genome := None;
     sd_prepared_out := None;
     sd_moving_average_window_size := moving_average_window_size cfg |}.

Definition set_sd_bigwig_collection (h : Handle) (sd : BigWigSuperDataset) :=
  {| sd_regions_of_interest := sd_regions_of_interest sd;
     sd_bigwig_collection := Some h;
     sd_bigwig_path := sd_bigwig_path sd;
     sd_sequence_length := sd_sequence_length sd;
     sd_center_bin_to_predict := sd_center_bin_to_predict sd;
     sd_window_size := sd_window_size sd;
     sd_batch_size := sd_batch_size sd;
     sd_batches_per_epoch := sd_batches_per_epoch sd;
     sd_n := sd_n sd;
     sd_genome := sd_genome sd;
     sd_prepared_out := sd_prepared_out sd;
     sd_moving_average_window_size := sd_moving_average_window_size sd |}.

Definition set_sd_n (n : Z) (sd : BigWigSuperDataset) :=
  {| sd_regions_of_interest := sd_regions_of_interest sd;
     sd_bigwig_collection := sd_bigwig_collection sd;
     sd_bigwig_path := sd_bigwig_path sd;
     sd_sequence_length := sd_sequence_length sd;
     sd_center_bin_to_predict := sd_center_bin_to_predict sd;
     sd_window_size := sd_window_size sd;
     sd_batch_size := sd_batch_size sd;
     sd_batches_per_epoch := sd_batches_per_epoch sd;
     sd_n := n;
     sd_genome := sd_genome sd;
     sd_prepared_out := sd_prepared_out sd;
     sd_moving_average_window_size := sd_moving_average_window_size sd |}.

Definition set_sd_genome (g : nat) (sd : BigWigSuperDataset) :=
  {| sd_regions_of_interest := sd_regions_of_interest sd;
     sd_bigwig_collection := sd_bigwig_collection sd;
     sd_bigwig_path := sd_bigwig_path sd;
     sd_sequence_length := sd_sequence_length sd;
     sd_center_bin_to_predict := sd_center_bin_to_predict sd;
     sd_window_size := sd_window_size sd;
     sd_batch_size := sd_batch_size sd;
     sd_batches_per_epoch := sd_batches_per_epoch sd;
     sd_n := sd_n sd;
     sd_genome := Some g;
     sd_prepared_out := sd_prepared_out sd;
     sd_moving_average_window_size := sd_moving_average_window_size sd |}.

Definition set_sd_prepared_out (b : Z * Z * Z) (sd : BigWigSuperDataset) :=
  {| sd_regions_of_interest := sd_regions_of_interest sd;
     sd_bigwig_collection := sd_bigwig_collection sd;
     sd_bigwig_path := sd_bigwig_path sd;
     sd_sequence_length := sd_sequence_length sd;
     sd_center_bin_to_predict := sd_center_bin_to_predict sd;
     sd_window_size := sd_window_size sd;
     sd_batch_size := sd_batch_size sd;
     sd_batches_per_epoch := sd_batches_per_epoch sd;
     sd_n := sd_n sd;
     sd_genome := sd_genome sd;
     sd_prepared_out := Some b;
     sd_moving_average_window_size := sd_moving_average_window_size sd |}.

(** The [bigwig_collection] property: the handle, opened from the path
    on first access and memoised. *)
Definition bigwig_collection (sd : BigWigSuperDataset)
  : exn + Handle * BigWigSuperDataset :=
  match sd_bigwig_collection sd with
  | Some h => inr (h, sd)
  | None =>
      match sd_bigwig_path sd with
      | Some p =>
          let h := open_collection p in
          inr (h, set_sd_bigwig_collection h sd)
      | None => inl RuntimeError
      end
  end.

(** The [_out] property: the output buffer, allocated on first access.
    The shape is evaluated first, so a window size of 0 raises
    [ZeroDivisionError]; [cp.zeros] then raises [ValueError] when a
    dimension is negative. Running out of device memory is not modelled. *)
Definition prepared_out (sd : BigWigSuperDataset)
  : exn * BigWigSuperDataset + (Z * Z * Z) * BigWigSuperDataset :=
  match sd_prepared_out sd with
  | Some b => inr (b, sd)
  | None =>
      match bigwig_collection sd with
      | inl e => inl (e, sd)
      | inr (h, sd1) =>
          if sd_window_size sd1 =? 0 then inl (ZeroDivisionError, sd1)
          else
            let b := (Z.of_nat (collection_len h), sd_batch_size sd1,
                      sd_center_bin_to_predict sd1 / sd_window_size sd1) in
            if (sd_batch_size sd1 <? 0)
               || (sd_center_bin_to_predict sd1 / sd_window_size sd1 <? 0)
            then inl (ValueError, sd1)
            else inr (b, set_sd_prepared_out b sd1)
      end
  end.

(** The [genome] property followed by [get_batch()]. *)
Definition genome_next (sd : BigWigSuperDataset)
  : (list (Chrom * Z) * list Seq) * BigWigSuperDataset :=
  let served := match sd_genome sd with Some c => c | None => O end in
  (genome_get_batch served (sd_batch_size sd), set_sd_genome (S served) sd).

(** The scoring windows of a super-batch: [start = center - C // 2] and
    [end = start + C]. *)
Definition scoring_window (C center : Z) : Z * Z :=
  let start := center - C / 2 in
  (start, start + C).

(** [self.bigwig_collection.reset_gpu()]: the property is read, which
    resolves the collection, and the collection is reset in place: the
    dataset holds the same object, now in the state the call left it in. *)
Definition BigWigSuperDataset_reset_gpu (sd : BigWigSuperDataset)
  : exn + BigWigSuperDataset :=
  match bigwig_collection sd with
  | inl e => inl e
  | inr (h, sd1) =>
      inr (set_sd_bigwig_collection (collection_reset_gpu h) sd1)
  end.

Definition BigWigSuperDataset_iter (sd : BigWigSuperDataset) :=
  set_sd_n 0 sd.

(** The signal of a super-batch: the scoring windows of the sampled
    positions are read from the collection, then smoothed. *)
Definition scoring_targets (sd : BigWigSuperDataset) (h : Handle)
    (positions : list (Chrom * Z)) : list Row :=
  let chromosomes := map fst positions in
  let center := map snd positions in
  let C := sd_center_bin_to_predict sd in
  let start := map (fun c => fst (scoring_window C c)) center in
  let end_ := map (fun c => snd (scoring_window C c)) center in
  let target :=
    collection_get_batch h chromosomes start end_ (sd_window_size sd) in
  moving_average target (sd_moving_average_window_size sd).

Definition BigWigSuperDataset_next (sd : BigWigSuperDataset)
  : outcome (list Seq * list Row) BigWigSuperDataset :=
  if sd_n sd <? sd_batches_per_epoch sd then
    let sd1 := set_sd_n (sd_n sd + 1) sd in
    let '((positions, sequences), sd2) := genome_next sd1 in
    match positions with
    | [] => Raise ValueError sd2      (* unpacking the empty zip fails *)
    | _ :: _ =>
        match bigwig_collection sd2 with
        | inl e => Raise e sd2
        | inr (h, sd3) =>
            match prepared_out sd3 with
            | inl (e, sd4) => Raise e sd4
            | inr (_, sd4) =>
                Yield (sequences, scoring_targets sd4 h positions) sd4
            end
        end
    end
  else StopIteration sd.

(** ** BigWigDataset *)

Record BigWigDataset : Type := {
  ds_batch_size : Z;
  ds_batches_per_epoch : Z;
  ds_super_dataset : BigWigSuperDataset;               (* _super_dataset *)
  ds_super_batch_sequences : option (list Seq);        (* _super_batch_sequences *)
  ds_super_batch_targets : option (list Row);          (* _super_batch_targets *)
  ds_n : Z;                                            (* _n *)
  ds_offset : Z                                        (* _offset *)
}.

(** The configuration handed to the inner [BigWigSuperDataset]: the
    super-batch size is its batch size, the number of super-batches its
    number of batches per epoch. *)
Definition super_config (cfg : Config) (S_ sbpe : Z) : Config :=
  {| regions_of_interest := regions_of_interest cfg;
     collection := collection cfg;
     sequence_length := sequence_length cfg;
     center_bin_to_predict := center_bin_to_predict cfg;
     window_size := window_size cfg;
     moving_average_window_size := moving_average_window_size cfg;
     batch_size := S_;
     super_batch_size := None;
     batches_per_epoch := Some sbpe |}.

(** [BigWigDataset.__init__]. The true division by a super-batch size of
    0 (only possible with a batch size of 0) raises; which exception it is
    depends on the numeric type of the operands, and the model names it
    [ZeroDivisionError]. *)
Definition BigWigDataset_init (cfg : Config) : exn + BigWigDataset :=
  let B := batch_size cfg in
  let S_ := py_or (super_batch_size cfg) B in
  if S_ <? B then inl AttributeError
  else
    let bpe :=
      default_batches_per_epoch (batches_per_epoch cfg)
        (regions_of_interest cfg) (sequence_length cfg) B in
    if S_ =? 0 then inl ZeroDivisionError
    else
      let super_batches_per_epoch := math_ceil_truediv (B * bpe) S_ in
      inr {| ds_batch_size := B;
             ds_batches_per_epoch := bpe;
             ds_super_dataset :=
               BigWigSuperDataset_init (super_config cfg S_ super_batches_per_epoch);
             ds_super_batch_sequences := None;
             ds_super_batch_targets := None;
             ds_n := 0;
             ds_offset := 0 |}.

(** [PytorchBigWigDataset.__init__] wraps a [BigWigDataset] built from
    its own arguments; its [__iter__], [__next__] and [reset_gpu] forward to
    the wrapped dataset and cast what it yields to tensors. *)
Definition PytorchBigWigDataset_init (c : Call) : exn + BigWigDataset :=
  BigWigDataset_init (pytorch_signature c).

Definition set_ds_super_dataset (sd : BigWigSuperDataset) (ds : BigWigDataset) :=
  {| ds_batch_size := ds_batch_size ds;
     ds_batches_per_epoch := ds_batches_per_epoch ds;
     ds_super_dataset := sd;
     ds_super_batch_sequences := ds_super_batch_sequences ds;
     ds_super_batch_targets := ds_super_batch_targets ds;
     ds_n := ds_n ds;
     ds_offset := ds_offset ds |}.

Definition set_ds_super_batch (seqs : list Seq) (tgts : list Row)
    (ds : BigWigDataset) :=
  {| ds_batch_size := ds_batch_size ds;
     ds_batches_per_epoch := ds_batches_per_epoch ds;
     ds_super_dataset := ds_super_dataset ds;
     ds_super_batch_sequences := Some seqs;
     ds_super_batch_targets := Some tgts;
     ds_n := ds_n ds;
     ds_offset := ds_offset ds |}.

Definition set_ds_n (n : Z) (ds : BigWigDataset) :=
  {| ds_batch_size := ds_batch_size ds;
     ds_batches_per_epoch := ds_batches_per_epoch ds;
     ds_super_dataset := ds_super_dataset ds;
     ds_super_batch_sequences := ds_super_batch_sequences ds;
     ds_super_batch_targets := ds_super_batch_targets ds;
     ds_n := n;
     ds_offset := ds_offset ds |}.

Definition set_ds_offset (o : Z) (ds : BigWigDataset) :=
  {| ds_batch_size := ds_batch_size ds;
     ds_batches_per_epoch := ds_batches_per_epoch ds;
     ds_super_dataset := ds_super_dataset ds;
     ds_super_batch_sequences := ds_super_batch_sequences ds;
     ds_super_batch_targets := ds_super_batch_targets ds;
     ds_n := ds_n ds;
     ds_offset := o |}.

Definition BigWigDataset_reset_gpu (ds : BigWigDataset) : exn + BigWigDataset :=
  match BigWigSuperDataset_reset_gpu (ds_super_dataset ds) with
  | inl e => inl e
  | inr sd => inr (set_ds_super_dataset sd ds)
  end.

Definition BigWigDataset_iter (ds : BigWigDataset) : BigWigDataset :=
  let ds1 := set_ds_n 0 ds in
  let ds2 := set_ds_offset 0 ds1 in
  set_ds_super_dataset (BigWigSuperDataset_iter (ds_super_dataset ds2)) ds2.

(** The three-way test that guards the refill in [__next__]. *)
Definition refill_needed (ds : BigWigDataset) : bool :=
  match ds_super_batch_sequences ds, ds_super_batch_targets ds with
  | Some _, Some _ =>
      ds_offset ds + ds_batch_size ds >? sd_batch_size (ds_super_dataset ds)
  | _, _ => true
  end.

(** The body of that [if]: the next super-batch replaces the current one
    and the offset returns to 0. The end-of-sequence signal and the
    exceptions of the inner iterator pass through. *)
Definition refill (ds : BigWigDataset) : outcome unit BigWigDataset :=
  match BigWigSuperDataset_next (ds_super_dataset ds) with
  | Yield (seqs, tgts) sd =>
      Yield tt (set_ds_offset 0
                  (set_ds_super_batch seqs tgts (set_ds_super_dataset sd ds)))
  | StopIteration sd => StopIteration (set_ds_super_dataset sd ds)
  | Raise e sd => Raise e (set_ds_super_dataset sd ds)
  end.

(** The two slices at the cursor, and the cursor advanced. *)
Definition take_batch (ds : BigWigDataset)
  : outcome (list Seq * list Row) BigWigDataset :=
  match ds_super_batch_sequences ds, ds_super_batch_targets ds with
  | Some seqs, Some tgts =>
      let lo := ds_offset ds in
      let hi := ds_offset ds + ds_batch_size ds in
      Yield (py_slice seqs lo hi, py_slice tgts lo hi)
            (set_ds_offset (ds_offset ds + ds_batch_size ds) ds)
  | _, _ => Raise TypeError ds        (* None is not subscriptable *)
  end.

Definition BigWigDataset_next (ds : BigWigDataset)
  : outcome (list Seq * list Row) BigWigDataset :=
  if ds_n ds <? ds_batches_per_epoch ds then
    let ds1 := set_ds_n (ds_n ds + 1) ds in
    if refill_needed ds1 then
      match refill ds1 with
      | Yield _ ds2 => take_batch ds2
      | StopIteration ds2 => StopIteration ds2
      | Raise e ds2 => Raise e ds2
      end
    else take_batch ds1
  else StopIteration ds.

(** ** One epoch: [for batch in dataset] *)

(** How a [for] loop over the dataset ends. *)
Inductive ending : Type :=
| Exhausted                 (* StopIteration reached the loop *)
| Failed (e : exn)          (* an exception left the loop *)
| Running.                  (* the loop was cut after [fuel] calls *)

(** Calls [__next__] until it stops, at most [fuel] times, collecting what
    it yields. *)
Fixpoint drain (fuel : nat) (ds : BigWigDataset)
  : list (list Seq * list Row) * ending * BigWigDataset :=
  match fuel with
  | O => ([], Running, ds)
  | S fuel' =>
      match BigWigDataset_next ds with
      | Yield b ds' =>
          let '(bs, e, ds'') := drain fuel' ds' in (b :: bs, e, ds'')
      | StopIteration ds' => ([], Exhausted, ds')
      | Raise e ds' => ([], Failed e, ds')
      end
  end.

(** [iter(dataset)] followed by the loop. *)
Definition epoch (fuel : nat) (ds : BigWigDataset) :=
  drain fuel (BigWigDataset_iter ds).

(** Construction followed by a first epoch. *)
Definition build_and_run (fuel : nat) (cfg : Config) :=
  match BigWigDataset_init cfg with
  | inl e => inl e
  | inr ds => inr (epoch fuel ds)
  end.

(** Number of calls of [Genome.get_batch] served so far, that is, of
    super-batches fetched. *)
Definition calls (sd : BigWigSuperDataset) : nat :=
  match sd_genome sd with
  | Some c => c
  | None => O
  end.

Definition fetches (ds : BigWigDataset) : nat := calls (ds_super_dataset ds).

(** The super-batch a dataset holds, once both buffers are in place. *)
Definition loaded (ds : BigWigDataset) : option (list Seq * list Row) :=
  match ds_super_batch_sequences ds, ds_super_batch_targets ds with
  | Some seqs, Some tgts => Some (seqs, tgts)
  | _, _ => None
  end.

(** ** What an epoch is expected to deliver *)

(** The handle the [bigwig_collection] property resolves to. *)
Definition resolved_handle (sd : BigWigSuperDataset) : option Handle :=
  match sd_bigwig_collection sd with
  | Some h => Some h
  | None => option_map open_collection (sd_bigwig_path sd)
  end.

(** The super-batch returned by the fetch that follows [c] earlier ones. *)
Definition fetched (sd : BigWigSuperDataset) (h : Handle) (c : nat)
  : list Seq * list Row :=
  let '(positions, sequences) := genome_get_batch c (sd_batch_size sd) in
  (sequences, scoring_targets sd h positions).

(** The super-batches an epoch reads, in order: the one left in place by
    the previous epoch, if any, then the fetches that follow the [g0]
    already made. *)
Definition nth_super_batch (pre : option (list Seq * list Row))
    (sd : BigWigSuperDataset) (h : Handle) (g0 : nat) (v : nat)
  : list Seq * list Row :=
  match pre, v with
  | Some b, O => b
  | Some _, S v' => fetched sd h (g0 + v')
  | None, _ => fetched sd h (g0 + v)
  end.

(** Batch number [i] of an epoch (from 0): with [k = S // B] batches per
    super-batch, it is the slice at offset [(i mod k) * B] of super-batch
    number [i // k]. *)
Definition nth_batch (B S_ : Z) (pre : option (list Seq * list Row))
    (sd : BigWigSuperDataset) (h : Handle) (g0 : nat) (i : nat)
  : list Seq * list Row :=
  let k := S_ / B in
  let o := (Z.of_nat i mod k) * B in
  let '(seqs, tgts) :=
    nth_super_batch pre sd h g0 (Z.to_nat (Z.of_nat i / k)) in
  (py_slice seqs o (o + B), py_slice tgts o (o + B)).

(** The number of batches an epoch delivers: [bpe] of them, unless the
    [cap] fetches allowed to the inner iterator (plus the super-batch
    already in place, [held] = 1) run out first. *)
Definition delivered (B S_ bpe cap held : Z) : nat :=
  Z.to_nat (Z.min bpe (S_ / B * (Z.max cap 0 + held))).

(** Where batch number [i] is drawn from: the super-batch and the offset. *)
Definition slice_pos (B S_ : Z) (i : nat) : nat * Z :=
  (Z.to_nat (Z.of_nat i / (S_ / B)), (Z.of_nat i mod (S_ / B)) * B).

(** Where each batch of an epoch of [m] batches is drawn from. *)
Definition slices (B S_ : Z) (m : nat) : list (nat * Z) :=
  map (slice_pos B S_) (seq 0 m).

(** The batch drawn from super-batch [fst b] at offset [snd b]. *)
Definition batch_at (B : Z) (pre : option (list Seq * list Row))
    (sd : BigWigSuperDataset) (h : Handle) (g0 : nat) (b : nat * Z)
  : list Seq * list Row :=
  let '(seqs, tgts) := nth_super_batch pre sd h g0 (fst b) in
  (py_slice seqs (snd b) (snd b + B), py_slice tgts (snd b) (snd b + B)).

(** Does the batch drawn at [b] cover row [r] of super-batch [j]? *)
Definition covers (B : Z) (j : nat) (r : Z) (b : nat * Z) : bool :=
  (fst b =? j)%nat && (snd b <=? r) && (r <? snd b + B).

(** Two states of the inner dataset that agree on everything fixed at
    construction. *)
Definition same_plan (sd0 sd : BigWigSuperDataset) : Prop :=
  sd_center_bin_to_predict sd = sd_center_bin_to_predict sd0 /\
  sd_window_size sd = sd_window_size sd0 /\
  sd_batch_size sd = sd_batch_size sd0 /\
  sd_batches_per_epoch sd = sd_batches_per_epoch sd0 /\
  sd_moving_average_window_size sd = sd_moving_average_window_size sd0 /\
  resolved_handle sd = resolved_handle sd0.

(** 1 when an epoch starts with a super-batch in place, else 0. *)
Definition held_by (pre : option (list Seq * list Row)) : Z :=
  match pre with
  | Some _ => 1
  | None => 0
  end.

(** The state of a dataset that has delivered [i] batches of an epoch
    started with [pre] in place, after [g0] fetches, from the inner
    dataset [sd0]. *)
Definition at_batch (B bpe : Z) (pre : option (list Seq * list Row))
    (sd0 : BigWigSuperDataset) (h : Handle) (g0 : nat)
    (i : nat) (ds : BigWigDataset) : Prop :=
  let k := sd_batch_size sd0 / B in
  ds_batch_size ds = B /\
  ds_batches_per_epoch ds = bpe /\
  ds_n ds = Z.of_nat i /\
  same_plan sd0 (ds_super_dataset ds) /\
  match i with
  | O =>
      ds_offset ds = 0 /\
      loaded ds = pre /\
      sd_n (ds_super_dataset ds) = 0 /\
      fetches ds = g0
  | S i' =>
      let v := Z.of_nat i' / k in
      ds_offset ds = (Z.of_nat i' mod k + 1) * B /\
      loaded ds = Some (nth_super_batch pre sd0 h g0 (Z.to_nat v)) /\
      sd_n (ds_super_dataset ds) = v + 1 - held_by pre /\
      Z.of_nat (fetches ds) = Z.of_nat g0 + v + 1 - held_by pre
  end.

(** ** The plan of a configuration *)

(** The super-batch size in effect: [super_batch_size or batch_size]. *)
Definition plan_super_batch_size (cfg : Config) : Z :=
  py_or (super_batch_size cfg) (batch_size cfg).

Definition plan_batches_per_epoch (cfg : Config) : Z :=
  default_batches_per_epoch (batches_per_epoch cfg)
    (regions_of_interest cfg) (sequence_length cfg) (batch_size cfg).

Definition plan_super_batches_per_epoch (cfg : Config) : Z :=
  math_ceil_truediv (batch_size cfg * plan_batches_per_epoch cfg)
    (plan_super_batch_size cfg).

(** The scoring window length in effect:
    [center_bin_to_predict] if given and not 0, else [sequence_length]. *)
Definition plan_center_bin_to_predict (cfg : Config) : Z :=
  py_or (center_bin_to_predict cfg) (sequence_length cfg).

(** The handle a [collection] argument stands for, if any. *)
Definition collection_handle (c : CollectionArg) : option Handle :=
  match c with
  | Collection h => Some h
  | Paths p => Some (open_collection p)
  | NoCollection => None
  end.

(** ** Several epochs, the lazy properties, and collections that answer alike *)

(** [epochs] consecutive [for] loops over the same dataset: what each one
    yields and how it ends, and the dataset they leave. *)
Fixpoint run_epochs (fuel epochs : nat) (ds : BigWigDataset)
  : list (list (list Seq * list Row) * ending) * BigWigDataset :=
  match epochs with
  | O => ([], ds)
  | S n =>
      let '(bs, e, ds1) := epoch fuel ds in
      let '(rest, ds2) := run_epochs fuel n ds1 in
      ((bs, e) :: rest, ds2)
  end.

(** The inner dataset with its collection resolved, as the first access of
    [bigwig_collection] leaves it. *)
Definition memoized (sd : BigWigSuperDataset) : BigWigSuperDataset :=
  match resolved_handle sd with
  | Some h => set_sd_bigwig_collection h sd
  | None => sd
  end.

(** Two collections that answer alike: the same length, and the same
    rows for every request. *)
Definition answer_alike (h h' : Handle) : Prop :=
  collection_len h = collection_len h' /\
  forall cs st en w,
    collection_get_batch h cs st en w = collection_get_batch h' cs st en w.

(** The inner dataset with the field [_bigwig_collection] blanked. *)
Definition without_collection (sd : BigWigSuperDataset) : BigWigSuperDataset :=
  {| sd_regions_of_interest := sd_regions_of_interest sd;
     sd_bigwig_collection := None;
     sd_bigwig_path := sd_bigwig_path sd;
     sd_sequence_length := sd_sequence_length sd;
     sd_center_bin_to_predict := sd_center_bin_to_predict sd;
     sd_window_size := sd_window_size sd;
     sd_batch_size := sd_batch_size sd;
     sd_batches_per_epoch := sd_batches_per_epoch sd;
     sd_n := sd_n sd;
     sd_genome := sd_genome sd;
     sd_prepared_out := sd_prepared_out sd;
     sd_moving_average_window_size := sd_moving_average_window_size sd |}.

(** Two states of the inner dataset that differ at most in the collection
    they hold (resolved or not yet, reset or not), the two collections
    answering alike. *)
Definition alike_sd (sd sd' : BigWigSuperDataset) : Prop :=
  without_collection sd = without_collection sd' /\
  match resolved_handle sd, resolved_handle sd' with
  | Some h, Some h' => answer_alike h h'
  | None, None => True
  | _, _ => False
  end.

(** The same for the dataset: every field of its own is the same. *)
Definition alike (ds ds' : BigWigDataset) : Prop :=
  ds_batch_size ds = ds_batch_size ds' /\
  ds_batches_per_epoch ds = ds_batches_per_epoch ds' /\
  ds_super_batch_sequences ds = ds_super_batch_sequences ds' /\
  ds_super_batch_targets ds = ds_super_batch_targets ds' /\
  ds_n ds = ds_n ds' /\
  ds_offset ds = ds_offset ds' /\
  alike_sd (ds_super_dataset ds) (ds_super_dataset ds').

(** Two outcomes of the same kind, with the same value or exception, and
    states related by [R]. *)
Definition outcome_alike {A St : Type} (R : St -> St -> Prop)
    (o o' : outcome A St) : Prop :=
  match o, o' with
  | Yield a s, Yield a' s' => a = a' /\ R s s'
  | StopIteration s, StopIteration s' => R s s'
  | Raise e s, Raise e' s' => e = e' /\ R s s'
  | _, _ => False
  end.

(** The buffers in place have one row per position of a super-batch and
    the cursor is not negative. *)
Definition rows_in_place (ds : BigWigDataset) : Prop :=
  0 <= ds_offset ds /\
  forall seqs tgts,
    loaded ds = Some (seqs, tgts) ->
    length seqs = Z.to_nat (sd_batch_size (ds_super_dataset ds)) /\
    length tgts = Z.to_nat (sd_batch_size (ds_super_dataset ds)).

(** The state reached after [k] further calls of [__next__]. *)
Definition after_calls (k : nat) (ds : BigWigDataset) : BigWigDataset :=
  Nat.iter k (fun d => state_after (BigWigDataset_next d)) ds.

End Loader.

(** ** The PyTorch adapter

    [PytorchBigWigDataset] holds a [BigWigDataset] and forwards to it; what
    the dataset yields is cast by [torch.FloatTensor] and
    [torch.as_tensor(..., device="cuda")], which are the two variables of
    this section. *)

Section Adapter.

Context {Chrom Seq Row Handle PathSpec SeqTensor TargetTensor : Type}.
Variable genome_get_batch : nat -> Z -> list (Chrom * Z) * list Seq.
Variable open_collection : PathSpec -> Handle.
Variable collection_len : Handle -> nat.
Variable collection_get_batch :
  Handle -> list Chrom -> list Z -> list Z -> Z -> list Row.
Variable collection_reset_gpu : Handle -> Handle.
Variable smooth : list Row -> Z -> list Row.
Variable float_tensor : list Seq -> SeqTensor.
Variable as_tensor_cuda : list Row -> TargetTensor.

Record PytorchBigWigDataset : Type := {
  pt_dataset : @BigWigDataset Chrom Seq Row Handle PathSpec    (* _dataset *)
}.

Definition PytorchBigWigDataset_new (c : Call)
  : exn + PytorchBigWigDataset :=
  match PytorchBigWigDataset_init c with
  | inl e => inl e
  | inr ds => inr {| pt_dataset := ds |}
  end.

Definition PytorchBigWigDataset_iter (pt : PytorchBigWigDataset)
  : PytorchBigWigDataset :=
  {| pt_dataset := BigWigDataset_iter (pt_dataset pt) |}.

(** The two casts of [__next__]. *)
Definition to_tensors (b : list Seq * list Row) : SeqTensor * TargetTensor :=
  let '(sequences, target) := b in
  let target := as_tensor_cuda target in
  let sequences := float_tensor sequences in
  (sequences, target).

Definition PytorchBigWigDataset_next (pt : PytorchBigWigDataset)
  : outcome (SeqTensor * TargetTensor) PytorchBigWigDataset :=
  match BigWigDataset_next genome_get_batch open_collection collection_len
          collection_get_batch smooth (pt_dataset pt) with
  | Yield b ds => Yield (to_tensors b) {| pt_dataset := ds |}
  | StopIteration ds => StopIteration {| pt_dataset := ds |}
  | Raise e ds => Raise e {| pt_dataset := ds |}
  end.

Definition PytorchBigWigDataset_reset_gpu (pt : PytorchBigWigDataset)
  : exn + PytorchBigWigDataset :=
  match BigWigDataset_reset_gpu open_collection collection_reset_gpu
          (pt_dataset pt) with
  | inl e => inl e
  | inr ds => inr {| pt_dataset := ds |}
  end.

(** [for batch in pytorch_dataset], after [iter]. *)
Fixpoint pytorch_drain (fuel : nat) (pt : PytorchBigWigDataset)
  : list (SeqTensor * TargetTensor) * ending * PytorchBigWigDataset :=
  match fuel with
  | O => ([], Running, pt)
  | S fuel' =>
      match PytorchBigWigDataset_next pt with
      | Yield b pt' =>
          let '(bs, e, pt'') := pytorch_drain fuel' pt' in (b :: bs, e, pt'')
      | StopIteration pt' => ([], Exhausted, pt')
      | Raise e pt' => ([], Failed e, pt')
      end
  end.

Definition pytorch_epoch (fuel : nat) (pt : PytorchBigWigDataset) :=
  pytorch_drain fuel (PytorchBigWigDataset_iter pt).

End Adapter.

(** ** A concrete set of collaborators

    Chromosomes, handles and paths are numbers. The genome labels each
    sequence window with the call that produced it and its row in that
    super-batch; the collection answers each position with the scoring
    window it was asked for. *)

Definition demo_genome_get_batch (calls : nat) (size : Z)
  : list (nat * Z) * list (nat * nat) :=
  let rows := seq 0 (Z.to_nat size) in
  (map (fun i => (O, 1000 * Z.of_nat calls + Z.of_nat i)) rows,
   map (fun i => (calls, i)) rows).

Definition demo_open_collection (p : nat) : nat := p.

Definition demo_collection_len (h : nat) : nat := 1.

(** Resetting moves the collection to a new state, which answers as the
    old one did. *)
Definition demo_collection_reset_gpu (h : nat) : nat := S h.

Definition demo_collection_get_batch (h : nat) (chromosomes : list nat)
    (start end_ : list Z) (window : Z) : list (Z * Z) :=
  map (fun i => (nth i start 0, nth i end_ 0)) (seq 0 (length start)).

Definition demo_smooth (signal : list (Z * Z)) (n : Z) : list (Z * Z) := signal.

(** One region of [bases] bases on chromosome 0. *)
Definition demo_regions (bases : Z) : list (@Region nat) :=
  [ {| chrom := O; r_start := 0; r_end := bases |} ].

(** A configuration over 10000 bases with [sequence_length = 1000]. *)
Definition demo_config (coll : @CollectionArg nat nat)
    (B : Z) (S_ bpe : option Z) : @Config nat nat nat :=
  {| regions_of_interest := demo_regions 10000;
     collection := coll;
     sequence_length := 1000;
     center_bin_to_predict := None;
     window_size := 1;
     moving_average_window_size := 1;
     batch_size := B;
     super_batch_size := S_;
     batches_per_epoch := bpe |}.

Definition demo_init (cfg : @Config nat nat nat)
  : exn + @BigWigDataset nat (nat * nat) (Z * Z) nat nat :=
  BigWigDataset_init cfg.

Definition demo_next := BigWigDataset_next demo_genome_get_batch
  demo_open_collection demo_collection_len demo_collection_get_batch demo_smooth.

Definition demo_epoch := epoch demo_genome_get_batch
  demo_open_collection demo_collection_len demo_collection_get_batch demo_smooth.

Definition demo_reset_gpu
    (ds : @BigWigDataset nat (nat * nat) (Z * Z) nat nat) :=
  BigWigDataset_reset_gpu demo_open_collection demo_collection_reset_gpu ds.

(** The dataset a configuration builds (a blank one if it builds none). *)
Definition demo_built (cfg : @Config nat nat nat)
  : @BigWigDataset nat (nat * nat) (Z * Z) nat nat :=
  match demo_init cfg with
  | inr ds => ds
  | inl _ =>
      {| ds_batch_size := 0;
         ds_batches_per_epoch := 0;
         ds_super_dataset := BigWigSuperDataset_init cfg;
         ds_super_batch_sequences := None;
         ds_super_batch_targets := None;
         ds_n := 0;
         ds_offset := 0 |}
  end.

(** The dataset as one epoch leaves it, and as [reset_gpu] then leaves it. *)
Definition demo_after_epoch (cfg : @Config nat nat nat) :=
  snd (demo_epoch 20 (demo_built cfg)).

Definition demo_after_reset (cfg : @Config nat nat nat) :=
  match demo_reset_gpu (demo_after_epoch cfg) with
  | inr ds => ds
  | inl _ => demo_after_epoch cfg
  end.

(** The batches and the ending of the first [epochs] epochs of a dataset,
    and the fetches made by the end of each. *)
Fixpoint demo_epochs (fuel : nat) (epochs : nat)
    (ds : @BigWigDataset nat (nat * nat) (Z * Z) nat nat)
  : list (list (list (nat * nat) * list (Z * Z)) * ending * nat) :=
  match epochs with
  | O => []
  | S k =>
      let '(bs, e, ds') := demo_epoch fuel ds in
      (bs, e, fetches ds') :: demo_epochs fuel k ds'
  end.

Definition demo_run (fuel epochs : nat) (cfg : @Config nat nat nat) :=
  match demo_init cfg with
  | inl e => inl e
  | inr ds => inr (demo_epochs fuel epochs ds)
  end.

(** The same configuration with a [window_size] of one's choice. *)
Definition demo_config_window (w : Z) (coll : @CollectionArg nat nat)
    (B : Z) (S_ bpe : option Z) : @Config nat nat nat :=
  {| regions_of_interest := demo_regions 10000;
     collection := coll;
     sequence_length := 1000;
     center_bin_to_predict := None;
     window_size := w;
     moving_average_window_size := 1;
     batch_size := B;
     super_batch_size := S_;
     batches_per_epoch := bpe |}.

Definition demo_run_epochs := run_epochs demo_genome_get_batch
  demo_open_collection demo_collection_len demo_collection_get_batch demo_smooth.

(** A call that passes the regions and a collection and omits the rest. *)
Definition demo_call : @Call nat nat nat :=
  {| call_regions_of_interest := demo_regions 10000;
     call_collection := Collection 7%nat;
     call_sequence_length := Omitted;
     call_center_bin_to_predict := Omitted;
     call_window_size := Omitted;
     call_moving_average_window_size := Omitted;
     call_batch_size := Omitted;
     call_super_batch_size := Omitted;
     call_batches_per_epoch := Omitted |}.

(** The same call with a batch size. *)
Definition demo_call_with_batch_size (B : Z) : @Call nat nat nat :=
  {| call_regions_of_interest := demo_regions 10000;
     call_collection := Collection 7%nat;
     call_sequence_length := Omitted;
     call_center_bin_to_predict := Omitted;
     call_window_size := Omitted;
     call_moving_average_window_size := Omitted;
     call_batch_size := Passed B;
     call_super_batch_size := Omitted;
     call_batches_per_epoch := Omitted |}.

(** * Properties *)

Unset Implicit Arguments.

(** ** Slices and the epoch arithmetic *)

Lemma py_slice_length (A : Type) (l : list A) (o B : Z) :
  0 <= o -> 0 <= B -> o + B <= Z.of_nat (length l) ->
  length (py_slice l o (o + B)) = Z.to_nat B.
Proof.
  intros Ho HB Hfit. unfold py_slice, slice_index.
  destruct (Z.ltb_spec o 0) as [Hneg | _]; [lia |].
  destruct (Z.ltb_spec (o + B) 0) as [Hneg | _]; [lia |].
  rewrite !Z.min_l by lia.
  rewrite length_firstn, length_skipn. lia.
Qed.

Lemma math_ceil_truediv_spec (a b c : Z) :
  0 < b -> (math_ceil_truediv a b = c <-> (c - 1) * b < a <= c * b).
Proof.
  intros Hb. unfold math_ceil_truediv.
  pose proof (Z.div_mod (- a) b ltac:(lia)) as Hdm.
  pose proof (Z.mod_pos_bound (- a) b Hb) as Hr.
  split; intros H; nia.
Qed.

Lemma math_ceil_truediv_pos (a b : Z) :
  0 < b -> (0 < math_ceil_truediv a b <-> 0 < a).
Proof.
  intros Hb.
  pose proof (proj1 (math_ceil_truediv_spec a b (math_ceil_truediv a b) Hb) eq_refl).
  split; intros; nia.
Qed.

Lemma py_or_nonzero (v d : Z) : v <> 0 -> py_or (Some v) d = v.
Proof.
  intros Hv. unfold py_or. destruct (Z.eqb_spec v 0); [contradiction | reflexivity].
Qed.

(** Projections of the record updates. *)
Ltac fields :=
  cbn [ds_batch_size ds_batches_per_epoch ds_super_dataset
       ds_super_batch_sequences ds_super_batch_targets ds_n ds_offset
       set_ds_n set_ds_offset set_ds_super_batch set_ds_super_dataset
       sd_regions_of_interest sd_bigwig_collection sd_bigwig_path
       sd_sequence_length sd_center_bin_to_predict sd_window_size
       sd_batch_size sd_batches_per_epoch sd_n sd_genome sd_prepared_out
       sd_moving_average_window_size
       set_sd_n set_sd_genome set_sd_prepared_out set_sd_bigwig_collection
       BigWigDataset_iter BigWigSuperDataset_iter] in *.

(** ** The inner iterator *)

Section Scheduler.

Context {Chrom Seq Row Handle PathSpec : Type}.
Variable genome_get_batch : nat -> Z -> list (Chrom * Z) * list Seq.
Variable open_collection : PathSpec -> Handle.
Variable collection_len : Handle -> nat.
Variable collection_get_batch :
  Handle -> list Chrom -> list Z -> list Z -> Z -> list Row.
Variable collection_reset_gpu : Handle -> Handle.
Variable smooth : list Row -> Z -> list Row.

Local Abbreviation SuperDataset := (@BigWigSuperDataset Chrom Handle PathSpec).
Local Abbreviation Dataset := (@BigWigDataset Chrom Seq Row Handle PathSpec).
Local Abbreviation super_next :=
  (BigWigSuperDataset_next genome_get_batch open_collection collection_len
     collection_get_batch smooth).
Local Abbreviation next :=
  (BigWigDataset_next genome_get_batch open_collection collection_len
     collection_get_batch smooth).
Local Abbreviation run :=
  (drain genome_get_batch open_collection collection_len
     collection_get_batch smooth).
Local Abbreviation build_run :=
  (build_and_run genome_get_batch open_collection collection_len
     collection_get_batch smooth).
Local Abbreviation run_epoch :=
  (epoch genome_get_batch open_collection collection_len
     collection_get_batch smooth).
Local Abbreviation super_batch :=
  (fetched genome_get_batch collection_get_batch smooth).
Local Abbreviation batch :=
  (nth_batch genome_get_batch collection_get_batch smooth).
Local Abbreviation batch_from :=
  (batch_at genome_get_batch collection_get_batch smooth).
Local Abbreviation handle_of := (resolved_handle open_collection).
Local Abbreviation same := (same_plan open_collection).
Local Abbreviation standing :=
  (at_batch genome_get_batch open_collection collection_get_batch smooth).

(** The contracts of the collaborators: the genome returns one position
    and one window per requested row, the collection one signal row per
    scoring window, and smoothing keeps the number of rows. *)
Hypothesis genome_positions :
  forall c s, length (fst (genome_get_batch c s)) = Z.to_nat s.
Hypothesis genome_sequences :
  forall c s, length (snd (genome_get_batch c s)) = Z.to_nat s.
Hypothesis collection_rows :
  forall h cs st en w,
    length (collection_get_batch h cs st en w) = length st.
Hypothesis smooth_rows :
  forall l n, length (smooth l n) = length l.

Lemma same_trans (a b c : SuperDataset) : same a b -> same b c -> same a c.
Proof.
  unfold same_plan. intros (?&?&?&?&?&?) (?&?&?&?&?&?).
  repeat split; congruence.
Qed.

Lemma super_batch_same (sd0 sd : SuperDataset) (h : Handle) (c : nat) :
  same sd0 sd -> super_batch sd h c = super_batch sd0 h c.
Proof.
  intros (HC & HW & HS & _ & HM & _).
  unfold fetched, scoring_targets. rewrite HC, HW, HS, HM. reflexivity.
Qed.

(** Below its cap the inner iterator fetches, provided the output buffer
    can be allocated (a window size other than 0, no negative dimension):
    it returns the next super-batch, counts it, and leaves the collection
    resolved and the output buffer allocated. *)
Lemma super_next_fetch (sd : SuperDataset) (h : Handle) :
  sd_n sd < sd_batches_per_epoch sd ->
  0 < sd_batch_size sd ->
  sd_window_size sd <> 0 ->
  0 <= sd_center_bin_to_predict sd / sd_window_size sd ->
  handle_of sd = Some h ->
  exists sd',
    super_next sd = Yield (super_batch sd h (calls sd)) sd' /\
    same sd sd' /\
    sd_n sd' = sd_n sd + 1 /\
    calls sd' = S (calls sd) /\
    sd_bigwig_collection sd' = Some h /\
    sd_prepared_out sd' <> None.
Proof.
  intros Hn HS HW HCW Hh.
  unfold BigWigSuperDataset_next.
  destruct (Z.ltb_spec (sd_n sd) (sd_batches_per_epoch sd)) as [_ | ?]; [| lia].
  unfold genome_next, fetched. cbn [sd_genome sd_batch_size set_sd_n].
  fold (calls sd).
  pose proof (genome_positions (calls sd) (sd_batch_size sd)) as Hlen.
  destruct (genome_get_batch (calls sd) (sd_batch_size sd))
    as [positions sequences] eqn:Hget.
  cbn [fst] in Hlen.
  destruct positions as [| p positions]; [cbn in Hlen; lia |].
  unfold bigwig_collection, prepared_out, bigwig_collection, resolved_handle,
    scoring_targets in *.
  cbn [sd_bigwig_collection sd_bigwig_path set_sd_genome set_sd_n].
  destruct (sd_bigwig_collection sd) as [h0 |] eqn:Hcoll.
  - injection Hh as ->.
    cbn [sd_prepared_out sd_bigwig_collection set_sd_genome set_sd_n].
    destruct (sd_prepared_out sd) as [b |] eqn:Hout.
    + eexists. split; [reflexivity |].
      unfold same_plan, resolved_handle, calls; cbn.
      rewrite Hcoll. repeat split; congruence.
    + rewrite Hcoll. cbn.
      destruct (Z.eqb_spec (sd_window_size sd) 0) as [? | _]; [contradiction |].
      destruct (Z.ltb_spec (sd_batch_size sd) 0) as [? | _]; [lia |].
      destruct (Z.ltb_spec (sd_center_bin_to_predict sd / sd_window_size sd) 0)
        as [? | _]; [lia |].
      cbn [orb].
      eexists. split; [reflexivity |].
      unfold same_plan, resolved_handle, calls; cbn.
      rewrite Hcoll. repeat split; congruence.
  - destruct (sd_bigwig_path sd) as [p0 |] eqn:Hpath; [| discriminate].
    cbn in Hh. injection Hh as <-.
    cbn [sd_prepared_out sd_bigwig_collection set_sd_genome set_sd_n
         set_sd_bigwig_collection].
    destruct (sd_prepared_out sd) as [b |] eqn:Hout.
    + eexists. split; [reflexivity |].
      unfold same_plan, resolved_handle, calls; cbn.
      rewrite Hcoll, Hpath. repeat split; congruence.
    + cbn.
      destruct (Z.eqb_spec (sd_window_size sd) 0) as [? | _]; [contradiction |].
      destruct (Z.ltb_spec (sd_batch_size sd) 0) as [? | _]; [lia |].
      destruct (Z.ltb_spec (sd_center_bin_to_predict sd / sd_window_size sd) 0)
        as [? | _]; [lia |].
      cbn [orb].
      eexists. split; [reflexivity |].
      unfold same_plan, resolved_handle, calls; cbn.
      rewrite Hcoll, Hpath. repeat split; congruence.
Qed.

(** At its cap it signals the end of the sequence and changes nothing. *)
Lemma super_next_stop (sd : SuperDataset) :
  sd_batches_per_epoch sd <= sd_n sd ->
  super_next sd = StopIteration sd.
Proof.
  intros Hn. unfold BigWigSuperDataset_next.
  destruct (Z.ltb_spec (sd_n sd) (sd_batches_per_epoch sd)); [lia | reflexivity].
Qed.

(** ** One call of the outer iterator *)

Lemma loaded_some (ds : Dataset) (seqs : list Seq) (tgts : list Row) :
  loaded ds = Some (seqs, tgts) <->
  ds_super_batch_sequences ds = Some seqs /\ ds_super_batch_targets ds = Some tgts.
Proof.
  unfold loaded.
  destruct (ds_super_batch_sequences ds), (ds_super_batch_targets ds);
    split; intros H; try discriminate; try (destruct H; discriminate).
  - injection H as -> ->. split; reflexivity.
  - destruct H as [H1 H2]. injection H1 as ->. injection H2 as ->. reflexivity.
Qed.

Lemma loaded_none_refill (ds : Dataset) :
  loaded ds = None -> refill_needed ds = true.
Proof.
  unfold loaded, refill_needed.
  destruct (ds_super_batch_sequences ds), (ds_super_batch_targets ds);
    intros H; try discriminate; reflexivity.
Qed.

Lemma succ_wraps (z k : Z) :
  0 <= z -> 0 < k -> z mod k + 1 = k ->
  (z + 1) mod k = 0 /\ (z + 1) / k = z / k + 1.
Proof.
  intros Hz Hk Hw.
  pose proof (Z.div_mod z k ltac:(lia)) as Hdm.
  assert (Heq : z + 1 = 0 + (z / k + 1) * k) by nia.
  split.
  - rewrite Heq. rewrite Z.mod_add by lia. apply Z.mod_0_l. lia.
  - rewrite Heq. rewrite Z.div_add by lia. rewrite Z.div_0_l by lia. lia.
Qed.

Lemma succ_stays (z k : Z) :
  0 <= z -> 0 < k -> z mod k + 1 < k ->
  (z + 1) mod k = z mod k + 1 /\ (z + 1) / k = z / k.
Proof.
  intros Hz Hk Hw.
  pose proof (Z.div_mod z k ltac:(lia)) as Hdm.
  pose proof (Z.mod_pos_bound z k Hk) as Hr.
  assert (Heq : z + 1 = (z mod k + 1) + z / k * k) by nia.
  split.
  - rewrite Heq at 1. rewrite Z.mod_add by lia.
    apply Z.mod_small. lia.
  - rewrite Heq at 1. rewrite Z.div_add by lia.
    rewrite Z.div_small by lia. lia.
Qed.

Lemma refill_needed_spec (ds : Dataset) :
  refill_needed ds = true <->
  ds_super_batch_sequences ds = None \/
  ds_super_batch_targets ds = None \/
  ds_offset ds + ds_batch_size ds > sd_batch_size (ds_super_dataset ds).
Proof.
  unfold refill_needed.
  destruct (ds_super_batch_sequences ds), (ds_super_batch_targets ds);
    try (split; [auto | reflexivity]).
  destruct (Z.gtb_spec (ds_offset ds + ds_batch_size ds)
              (sd_batch_size (ds_super_dataset ds))) as [Hgt | Hle];
    split; intros Hr; try reflexivity; try discriminate.
  - right. right. lia.
  - destruct Hr as [Hr | [Hr | Hr]]; try discriminate. lia.
Qed.

(** The call that finds the epoch complete. *)
Lemma next_done (ds : Dataset) :
  ds_batches_per_epoch ds <= ds_n ds -> next ds = StopIteration ds.
Proof.
  intros Hn. unfold BigWigDataset_next.
  destruct (Z.ltb_spec (ds_n ds) (ds_batches_per_epoch ds)); [lia | reflexivity].
Qed.

(** The call that slices the super-batch in place. *)
Lemma next_slices (ds : Dataset) (seqs : list Seq) (tgts : list Row) :
  ds_n ds < ds_batches_per_epoch ds ->
  ds_super_batch_sequences ds = Some seqs ->
  ds_super_batch_targets ds = Some tgts ->
  ds_offset ds + ds_batch_size ds <= sd_batch_size (ds_super_dataset ds) ->
  next ds =
  Yield (py_slice seqs (ds_offset ds) (ds_offset ds + ds_batch_size ds),
         py_slice tgts (ds_offset ds) (ds_offset ds + ds_batch_size ds))
        (set_ds_offset (ds_offset ds + ds_batch_size ds)
           (set_ds_n (ds_n ds + 1) ds)).
Proof.
  intros Hn Hs Ht Hfit. unfold BigWigDataset_next.
  destruct (Z.ltb_spec (ds_n ds) (ds_batches_per_epoch ds)) as [_ | ?]; [| lia].
  unfold refill_needed, take_batch. cbn. rewrite Hs, Ht.
  destruct (Z.gtb_spec (ds_offset ds + ds_batch_size ds)
              (sd_batch_size (ds_super_dataset ds))); [lia | reflexivity].
Qed.

(** The call that refills: the inner iterator is below its cap, the new
    super-batch replaces the old one and its first rows are returned. *)
Lemma next_refills (ds : Dataset) (h : Handle) :
  ds_n ds < ds_batches_per_epoch ds ->
  refill_needed ds = true ->
  sd_n (ds_super_dataset ds) < sd_batches_per_epoch (ds_super_dataset ds) ->
  0 < sd_batch_size (ds_super_dataset ds) ->
  sd_window_size (ds_super_dataset ds) <> 0 ->
  0 <= sd_center_bin_to_predict (ds_super_dataset ds) /
       sd_window_size (ds_super_dataset ds) ->
  handle_of (ds_super_dataset ds) = Some h ->
  exists sd',
    same (ds_super_dataset ds) sd' /\
    sd_n sd' = sd_n (ds_super_dataset ds) + 1 /\
    calls sd' = S (fetches ds) /\
    sd_prepared_out sd' <> None /\
    let sb := super_batch (ds_super_dataset ds) h (fetches ds) in
    next ds =
    Yield (py_slice (fst sb) 0 (0 + ds_batch_size ds),
           py_slice (snd sb) 0 (0 + ds_batch_size ds))
          (set_ds_offset (0 + ds_batch_size ds)
             (set_ds_offset 0
                (set_ds_super_batch (fst sb) (snd sb)
                   (set_ds_super_dataset sd' (set_ds_n (ds_n ds + 1) ds))))).
Proof.
  intros Hn Hre Hsn HS HW HCW Hh.
  destruct (super_next_fetch (ds_super_dataset ds) h Hsn HS HW HCW Hh)
    as (sd' & Hnext & Hsame & Hn' & Hc' & _ & Hout).
  exists sd'. repeat split; try assumption; try apply Hsame.
  unfold BigWigDataset_next.
  destruct (Z.ltb_spec (ds_n ds) (ds_batches_per_epoch ds)) as [_ | ?]; [| lia].
  replace (refill_needed (set_ds_n (ds_n ds + 1) ds)) with (refill_needed ds)
    by reflexivity.
  rewrite Hre. unfold refill. cbn [ds_super_dataset set_ds_n].
  rewrite Hnext. unfold fetches.
  destruct (super_batch (ds_super_dataset ds) h (calls (ds_super_dataset ds)))
    as [seqs tgts].
  reflexivity.
Qed.

(** The call that needs a refill when the inner iterator is at its cap:
    the batch counter has already advanced, no batch is returned and the
    end-of-sequence signal of the inner iterator ends the outer one. *)
Lemma next_starved (ds : Dataset) :
  ds_n ds < ds_batches_per_epoch ds ->
  refill_needed ds = true ->
  sd_batches_per_epoch (ds_super_dataset ds) <= sd_n (ds_super_dataset ds) ->
  next ds =
  StopIteration
    (set_ds_super_dataset (ds_super_dataset ds) (set_ds_n (ds_n ds + 1) ds)).
Proof.
  intros Hn Hre Hsn. unfold BigWigDataset_next.
  destruct (Z.ltb_spec (ds_n ds) (ds_batches_per_epoch ds)) as [_ | ?]; [| lia].
  replace (refill_needed (set_ds_n (ds_n ds + 1) ds)) with (refill_needed ds)
    by reflexivity.
  rewrite Hre. unfold refill. cbn [ds_super_dataset set_ds_n].
  rewrite (super_next_stop _ Hsn). reflexivity.
Qed.

(** ** A whole epoch *)

Section Epoch.

Variables B bpe : Z.
Variable pre : option (list Seq * list Row).
Variable sd0 : SuperDataset.
Variable h : Handle.
Variable g0 : nat.

Local Abbreviation S_ := (sd_batch_size sd0).
Local Abbreviation cap := (sd_batches_per_epoch sd0).
Local Abbreviation k := (sd_batch_size sd0 / B).
Local Abbreviation held := (held_by pre).
Local Abbreviation planned := (delivered B S_ bpe cap held).

Hypothesis batch_positive : 0 < B.
Hypothesis batch_fits : B <= S_.
Hypothesis window_nonzero : sd_window_size sd0 <> 0.
Hypothesis window_fits :
  0 <= sd_center_bin_to_predict sd0 / sd_window_size sd0.
Hypothesis collection_given : handle_of sd0 = Some h.

Lemma per_super_batch : 1 <= k /\ k * B <= S_ < (k + 1) * B.
Proof.
  pose proof (Z.div_mod S_ B ltac:(lia)) as Hdm.
  pose proof (Z.mod_pos_bound S_ B batch_positive) as Hr.
  assert (1 <= S_ / B) by (apply Z.div_le_lower_bound; lia).
  nia.
Qed.

Lemma held_01 : 0 <= held <= 1.
Proof. unfold held_by. destruct pre; lia. Qed.

Lemma planned_bounds (i : nat) :
  (i < planned)%nat ->
  Z.of_nat i < bpe /\ Z.of_nat i < k * (Z.max cap 0 + held).
Proof. unfold delivered. lia. Qed.

Lemma nth_super_batch_fetched (v : Z) (c : nat) :
  held <= v ->
  Z.of_nat c = Z.of_nat g0 + v - held ->
  nth_super_batch genome_get_batch collection_get_batch smooth
    pre sd0 h g0 (Z.to_nat v) = super_batch sd0 h c.
Proof.
  intros Hv Hc. unfold nth_super_batch, held_by in *.
  destruct pre as [b |].
  - destruct (Z.to_nat v) as [| v'] eqn:Hv'; [lia |].
    f_equal. lia.
  - f_equal. lia.
Qed.

Lemma next_yields (i : nat) (ds : Dataset) :
  standing B bpe pre sd0 h g0 i ds -> (i < planned)%nat ->
  exists ds',
    next ds = Yield (batch B S_ pre sd0 h g0 i) ds' /\
    standing B bpe pre sd0 h g0 (S i) ds'.
Proof.
  intros (HdB & Hdbpe & Hdn & Hsame & Hi) Hlt.
  destruct (planned_bounds i Hlt) as [Hb1 Hb2].
  pose proof per_super_batch as (Hk1 & Hk2 & Hk3).
  pose proof held_01 as Hheld.
  pose proof Hsame as (HsC & HsW & HsS & HsCap & HsM & HsH).
  destruct i as [| i'].
  - destruct Hi as (Hoff & Hload & Hsn & Hf).
    destruct pre as [[s t] |] eqn:Hpre; cbn [held_by] in *.
    + apply loaded_some in Hload as [Hs Ht].
      rewrite (next_slices ds s t) by (try assumption; lia).
      eexists. split.
      * unfold nth_batch. rewrite Hoff, HdB. cbn. reflexivity.
      * unfold at_batch, fetches, loaded in *. fields.
        rewrite ?Hs, ?Ht, ?Hoff, ?HdB, ?Hdn, ?Hsn, ?Hf.
        change (Z.of_nat 0) with 0.
        rewrite ?Z.mod_0_l, ?Z.div_0_l by lia.
        cbn [held_by].
        repeat split; try assumption; try lia; try apply Hsame.
    + assert (Hcap : 0 < cap) by nia.
      destruct (next_refills ds h) as (sd' & Hsame' & Hn' & Hc' & _ & Hnext);
        try (rewrite ?HsC, ?HsS, ?HsW, ?HsCap, ?HsH, ?Hsn; assumption || lia).
      { apply loaded_none_refill. assumption. }
      cbv zeta in Hnext. rewrite Hnext. clear Hnext.
      rewrite (super_batch_same sd0 (ds_super_dataset ds) h _ Hsame), Hf.
      unfold nth_batch, at_batch, fetches, loaded in *. fields.
      change (Z.of_nat 0) with 0. rewrite !Z.mod_0_l, !Z.div_0_l by lia.
      cbn [nth_super_batch Z.to_nat held_by]. rewrite Nat.add_0_r.
      destruct (super_batch sd0 h g0) as [s t].
      rewrite ?HdB, ?Hdn, ?Hn', ?Hsn, ?Hc', ?Hf. cbn [fst snd].
      eexists. split; [reflexivity |]. fields.
      repeat split; try assumption; try lia;
        try (eapply same_trans; eassumption).
  - destruct Hi as (Hoff & Hload & Hsn & Hf).
    set (z := Z.of_nat i') in *.
    assert (Hz : 0 <= z) by (subst z; lia).
    assert (HSi : Z.of_nat (S i') = z + 1) by (subst z; lia).
    pose proof (Z.mod_pos_bound z k ltac:(lia)) as Hr.
    destruct (nth_super_batch genome_get_batch collection_get_batch smooth
                pre sd0 h g0 (Z.to_nat (z / k))) as [s t] eqn:Hsb.
    apply loaded_some in Hload as [Hs Ht].
    destruct (Z.eq_dec (z mod k + 1) k) as [Hwrap | Hstay].
    + destruct (succ_wraps z k Hz ltac:(lia) Hwrap) as [Hm Hd].
      assert (Hq : 0 <= z / k) by (apply Z.div_pos; lia).
      assert (Hfull : z + 1 = k * (z / k + 1)).
      { pose proof (Z.div_mod (z + 1) k ltac:(lia)) as Hdm.
        rewrite Hm, Hd in Hdm. lia. }
      assert (Hroom : z / k + 1 < Z.max cap 0 + held).
      { rewrite HSi, Hfull in Hb2. remember (Z.max cap 0) as M. nia. }
      assert (Hcap : z / k + 1 - held < cap) by lia.
      destruct (next_refills ds h) as (sd' & Hsame' & Hn' & Hc' & _ & Hnext);
        try (rewrite ?HsC, ?HsS, ?HsW, ?HsCap, ?HsH, ?Hsn; assumption || lia).
      { apply refill_needed_spec. right. right. rewrite Hoff, HdB, HsS. nia. }
      cbv zeta in Hnext. rewrite Hnext. clear Hnext.
      rewrite (super_batch_same sd0 (ds_super_dataset ds) h _ Hsame).
      unfold nth_batch, at_batch, fetches, loaded in *. fields.
      fold z. rewrite HSi, Hm, Hd.
      rewrite (nth_super_batch_fetched (z / k + 1) (calls (ds_super_dataset ds)))
        by lia.
      destruct (super_batch sd0 h (calls (ds_super_dataset ds))) as [s' t'].
      rewrite ?HdB, ?Hdn, ?Hn', ?Hsn, ?Hc', ?Hf. cbn [fst snd].
      eexists. split; [reflexivity |]. fields.
      repeat split; try assumption; try lia;
        try (eapply same_trans; eassumption).
    + destruct (succ_stays z k Hz ltac:(lia) ltac:(lia)) as [Hm Hd].
      rewrite (next_slices ds s t); try assumption; try lia.
      2: { rewrite Hoff, HdB, HsS. nia. }
      unfold nth_batch, at_batch, fetches, loaded in *. fields.
      fold z. rewrite HSi, Hm, Hd, Hsb, Hoff, HdB.
      eexists. split; [reflexivity |]. fields.
      rewrite Hs, Ht, Hdn, Hsn.
      repeat split; try assumption; try lia.
Qed.

(** Once the planned batches are out, the next call ends the epoch: the
    batch count is reached, or a refill is due that the inner iterator
    refuses. Neither the buffers nor the number of fetches change. *)
Lemma next_stops (ds : Dataset) :
  standing B bpe pre sd0 h g0 planned ds ->
  exists ds',
    next ds = StopIteration ds' /\
    ds_batch_size ds' = B /\
    ds_batches_per_epoch ds' = bpe /\
    same sd0 (ds_super_dataset ds') /\
    loaded ds' = loaded ds /\
    fetches ds' = fetches ds /\
    ds_offset ds' = ds_offset ds /\
    ds_n ds' = (if bpe <=? Z.of_nat planned then ds_n ds else ds_n ds + 1).
Proof.
  intros (HdB & Hdbpe & Hdn & Hsame & Hi).
  pose proof per_super_batch as (Hk1 & Hk2 & Hk3).
  pose proof held_01 as Hheld.
  pose proof Hsame as (HsC & HsW & HsS & HsCap & HsM & HsH).
  destruct (Z.leb_spec bpe (Z.of_nat planned)) as [Hdone | Hshort].
  - rewrite next_done by lia.
    exists ds. repeat split; assumption.
  - assert (Hp : Z.of_nat planned = k * (Z.max cap 0 + held)).
    { unfold delivered in *. 
      assert (0 <= k * (Z.max cap 0 + held)) by nia. lia. }
    exists (set_ds_super_dataset (ds_super_dataset ds) (set_ds_n (ds_n ds + 1) ds)).
    split; [| repeat split; assumption].
    destruct planned as [| i'].
    + destruct Hi as (Hoff & Hload & Hsn & Hf).
      assert (Hz : Z.max cap 0 + held = 0) by nia.
      assert (Hpre : pre = None).
      { destruct pre; cbn [held_by] in *; [lia | reflexivity]. }
      apply next_starved; [lia | | lia].
      apply loaded_none_refill. congruence.
    + destruct Hi as (Hoff & Hload & Hsn & Hf).
      set (z := Z.of_nat i') in *.
      assert (Hz : 0 <= z) by (subst z; lia).
      assert (HSi : Z.of_nat (S i') = z + 1) by (subst z; lia).
      assert (Hm : z mod k = k - 1 /\ z / k = Z.max cap 0 + held - 1).
      { assert (Heq : z = (k - 1) + (Z.max cap 0 + held - 1) * k) by lia.
        split; rewrite Heq.
        - rewrite Z.mod_add by lia. apply Z.mod_small. lia.
        - rewrite Z.div_add by lia. rewrite Z.div_small by lia. lia. }
      destruct Hm as [Hm Hd].
      apply next_starved; [lia | | lia].
      apply refill_needed_spec. right. right. rewrite Hoff, HdB, HsS, Hm. nia.
Qed.

(** From any point of the epoch, the loop delivers the remaining planned
    batches, in order, and ends with the end-of-sequence signal. *)
Lemma run_from (fuel i : nat) (ds : Dataset) :
  standing B bpe pre sd0 h g0 i ds ->
  (i <= planned)%nat ->
  (planned - i < fuel)%nat ->
  exists ds_end ds',
    standing B bpe pre sd0 h g0 planned ds_end /\
    next ds_end = StopIteration ds' /\
    run fuel ds =
    (map (batch B S_ pre sd0 h g0) (seq i (planned - i)), Exhausted, ds').
Proof.
  revert i ds. induction fuel as [| fuel IH]; intros i ds Hst Hle Hfuel; [lia |].
  destruct (Nat.eq_dec i planned) as [-> | Hne].
  - destruct (next_stops ds Hst) as (ds' & Hnext & _).
    exists ds, ds'. split; [assumption | split; [assumption |]].
    cbn [drain]. rewrite Hnext, Nat.sub_diag. reflexivity.
  - destruct (next_yields i ds Hst ltac:(lia)) as (ds1 & Hnext & Hst1).
    destruct (IH (S i) ds1 Hst1 ltac:(lia) ltac:(lia))
      as (ds_end & ds' & Hend & Hstop & Hrun).
    exists ds_end, ds'. split; [assumption | split; [assumption |]].
    cbn [drain]. rewrite Hnext, Hrun.
    replace (planned - i)%nat with (S (planned - S i)) by lia.
    reflexivity.
Qed.

End Epoch.

(** [iter] puts any dataset at the start of an epoch: the cursor is back
    at zero, the inner counter too, and whatever super-batch was in place
    stays in place. *)
Lemma iter_standing (ds : Dataset) (h : Handle) :
  standing (ds_batch_size ds) (ds_batches_per_epoch ds) (loaded ds)
    (ds_super_dataset ds) h (fetches ds) 0 (BigWigDataset_iter ds).
Proof.
  unfold at_batch, loaded, fetches, calls. fields.
  repeat split.
Qed.

(** The number of fetches an epoch of [m] batches makes. *)
Lemma epoch_spec (fuel : nat) (ds : Dataset) (h : Handle) :
  let B := ds_batch_size ds in
  let bpe := ds_batches_per_epoch ds in
  let sd := ds_super_dataset ds in
  let S_ := sd_batch_size sd in
  let m := delivered B S_ bpe (sd_batches_per_epoch sd) (held_by (loaded ds)) in
  0 < B -> B <= S_ ->
  sd_window_size sd <> 0 ->
  0 <= sd_center_bin_to_predict sd / sd_window_size sd ->
  handle_of sd = Some h ->
  (m < fuel)%nat ->
  exists ds',
    run_epoch fuel ds =
    (map (batch B S_ (loaded ds) sd h (fetches ds)) (seq 0 m), Exhausted, ds') /\
    ds_batch_size ds' = B /\
    ds_batches_per_epoch ds' = bpe /\
    same sd (ds_super_dataset ds') /\
    ds_n ds' = (if bpe <=? Z.of_nat m then Z.of_nat m else Z.of_nat m + 1) /\
    (m = 0%nat -> loaded ds' = loaded ds /\ fetches ds' = fetches ds) /\
    (m <> 0%nat ->
     loaded ds' <> None /\
     Z.of_nat (fetches ds') =
     Z.of_nat (fetches ds) + (Z.of_nat m - 1) / (S_ / B) + 1
       - held_by (loaded ds)).
Proof.
  intros B bpe sd S_ m HB HS HW HCW Hh Hfuel.
  destruct (run_from B bpe (loaded ds) sd h (fetches ds) HB HS HW HCW Hh
              fuel 0 (BigWigDataset_iter ds) (iter_standing ds h)
              ltac:(lia) ltac:(fold S_; fold m; lia))
    as (ds_end & ds' & Hend & Hstop & Hrun).
  destruct (next_stops B bpe (loaded ds) sd h (fetches ds) HB HS ds_end Hend)
    as (ds'' & Hstop' & HB' & Hbpe' & Hsame' & Hl' & Hf' & _ & Hn').
  rewrite Hstop in Hstop'. injection Hstop' as <-.
  exists ds'. unfold epoch. rewrite Hrun, Nat.sub_0_r.
  fold S_ in Hend. fold m in Hend.
  split; [reflexivity |].
  split; [assumption |]. split; [assumption |]. split; [assumption |].
  split.
  { rewrite Hn'. destruct Hend as (_ & _ & -> & _). reflexivity. }
  split; intros Hm.
  - rewrite Hm in Hend.
    destruct Hend as (_ & _ & _ & _ & _ & Hload & _ & Hf).
    split; congruence.
  - destruct m as [| m']; [contradiction |].
    destruct Hend as (_ & _ & _ & _ & _ & Hload & _ & Hf).
    split; [congruence |].
    rewrite Hf', Hf. replace (Z.of_nat (S m') - 1) with (Z.of_nat m') by lia.
    reflexivity.
Qed.


(** ** Construction *)

Lemma init_success (cfg : @Config Chrom Handle PathSpec) :
  batch_size cfg <= plan_super_batch_size cfg ->
  plan_super_batch_size cfg <> 0 ->
  exists ds : Dataset,
    BigWigDataset_init cfg = inr ds /\
    ds_batch_size ds = batch_size cfg /\
    ds_batches_per_epoch ds = plan_batches_per_epoch cfg /\
    ds_super_dataset ds =
      BigWigSuperDataset_init
        (super_config cfg (plan_super_batch_size cfg)
           (plan_super_batches_per_epoch cfg)) /\
    ds_super_batch_sequences ds = None /\
    ds_super_batch_targets ds = None /\
    ds_n ds = 0 /\
    ds_offset ds = 0.
Proof.
  intros HS H0. unfold BigWigDataset_init.
  fold (plan_super_batch_size cfg). fold (plan_batches_per_epoch cfg).
  destruct (Z.ltb_spec (plan_super_batch_size cfg) (batch_size cfg)); [lia |].
  destruct (Z.eqb_spec (plan_super_batch_size cfg) 0); [contradiction |].
  eexists. split; [reflexivity |]. repeat split.
Qed.

Lemma init_inversion (cfg : @Config Chrom Handle PathSpec) (ds : Dataset) :
  BigWigDataset_init cfg = inr ds ->
  batch_size cfg <= plan_super_batch_size cfg /\
  plan_super_batch_size cfg <> 0 /\
  ds_batch_size ds = batch_size cfg /\
  ds_batches_per_epoch ds = plan_batches_per_epoch cfg /\
  ds_super_dataset ds =
    BigWigSuperDataset_init
      (super_config cfg (plan_super_batch_size cfg)
         (plan_super_batches_per_epoch cfg)) /\
  loaded ds = None /\
  ds_n ds = 0 /\
  ds_offset ds = 0.
Proof.
  unfold BigWigDataset_init.
  fold (plan_super_batch_size cfg). fold (plan_batches_per_epoch cfg).
  destruct (Z.ltb_spec (plan_super_batch_size cfg) (batch_size cfg));
    [discriminate |].
  destruct (Z.eqb_spec (plan_super_batch_size cfg) 0); [discriminate |].
  intros Heq. injection Heq as <-. repeat split; assumption.
Qed.

(** The cap of the inner iterator is the number of super-batches computed
    by the outer constructor, unless that number is 0: the inner
    constructor then falls back on its own default. *)
Lemma inner_cap (cfg : @Config Chrom Handle PathSpec) (S_ c : Z) :
  c <> 0 ->
  sd_batches_per_epoch (BigWigSuperDataset_init (super_config cfg S_ c)) = c.
Proof.
  intros Hc. cbn. unfold default_batches_per_epoch. cbn.
  apply py_or_nonzero. assumption.
Qed.

Lemma inner_handle (cfg : @Config Chrom Handle PathSpec) (S_ c : Z) :
  handle_of (BigWigSuperDataset_init (super_config cfg S_ c)) =
  collection_handle open_collection (collection cfg).
Proof.
  unfold resolved_handle, collection_handle. cbn.
  destruct (collection cfg); reflexivity.
Qed.

(** Without a positive batch count nothing is planned, whatever the cap. *)
Lemma delivered_plan (B S_ bpe c cap : Z) :
  0 < B -> B <= S_ ->
  c = math_ceil_truediv (B * bpe) S_ ->
  (c <> 0 -> cap = c) ->
  delivered B S_ bpe cap 0 = Z.to_nat (Z.min bpe (S_ / B * Z.max c 0)).
Proof.
  intros HB HS Hc Hcap. unfold delivered.
  pose proof (proj1 (math_ceil_truediv_spec (B * bpe) S_ c ltac:(lia))
                (eq_sym Hc)) as Hceil.
  destruct (Z.eq_dec c 0) as [-> | Hnz].
  - assert (bpe <= 0) by nia. lia.
  - rewrite (Hcap Hnz). f_equal. f_equal. f_equal. lia.
Qed.

(** ** Rows of a batch *)

Lemma moving_average_rows (signal : list Row) (n : Z) :
  length (moving_average smooth signal n) = length signal.
Proof.
  unfold moving_average. destruct (n =? 1); [reflexivity | apply smooth_rows].
Qed.

(** A fetched super-batch has one row per requested position in both of
    its buffers. *)
Lemma super_batch_rows (sd : SuperDataset) (h : Handle) (c : nat) :
  length (fst (super_batch sd h c)) = Z.to_nat (sd_batch_size sd) /\
  length (snd (super_batch sd h c)) = Z.to_nat (sd_batch_size sd).
Proof.
  unfold fetched, scoring_targets.
  pose proof (genome_positions c (sd_batch_size sd)) as Hp.
  pose proof (genome_sequences c (sd_batch_size sd)) as Hs.
  destruct (genome_get_batch c (sd_batch_size sd)) as [positions sequences].
  cbn [fst snd] in *. split; [assumption |].
  rewrite moving_average_rows, collection_rows, !length_map. assumption.
Qed.

(** Every planned batch has exactly [B] rows of sequence and of signal. *)
Lemma batch_rows (B : Z) (pre : option (list Seq * list Row))
    (sd : SuperDataset) (h : Handle) (g0 i : nat) :
  0 < B -> B <= sd_batch_size sd ->
  (forall s t, pre = Some (s, t) ->
     length s = Z.to_nat (sd_batch_size sd) /\
     length t = Z.to_nat (sd_batch_size sd)) ->
  length (fst (batch B (sd_batch_size sd) pre sd h g0 i)) = Z.to_nat B /\
  length (snd (batch B (sd_batch_size sd) pre sd h g0 i)) = Z.to_nat B.
Proof.
  intros HB HS Hpre. unfold nth_batch.
  pose proof (per_super_batch B sd HB HS) as (Hk1 & Hk2 & Hk3).
  pose proof (Z.mod_pos_bound (Z.of_nat i) (sd_batch_size sd / B) ltac:(lia)).
  set (v := Z.to_nat (Z.of_nat i / (sd_batch_size sd / B))).
  assert (Hlen :
    length (fst (nth_super_batch genome_get_batch collection_get_batch smooth
                   pre sd h g0 v)) = Z.to_nat (sd_batch_size sd) /\
    length (snd (nth_super_batch genome_get_batch collection_get_batch smooth
                   pre sd h g0 v)) = Z.to_nat (sd_batch_size sd)).
  { unfold nth_super_batch. destruct pre as [[s t] |].
    - destruct v; [apply (Hpre s t eq_refl) | apply super_batch_rows].
    - apply super_batch_rows. }
  destruct (nth_super_batch genome_get_batch collection_get_batch smooth
              pre sd h g0 v) as [seqs tgts].
  cbn [fst snd] in *. destruct Hlen as [Hl1 Hl2].
  split; apply py_slice_length; try lia; nia.
Qed.

(** ** The first epoch of a new dataset *)

Lemma first_epoch (cfg : @Config Chrom Handle PathSpec) (ds : Dataset)
    (h : Handle) (fuel : nat) :
  let B := batch_size cfg in
  let S_ := plan_super_batch_size cfg in
  let bpe := plan_batches_per_epoch cfg in
  let c := plan_super_batches_per_epoch cfg in
  let m := Z.to_nat (Z.min bpe (S_ / B * Z.max c 0)) in
  BigWigDataset_init cfg = inr ds ->
  0 < B ->
  window_size cfg <> 0 ->
  0 <= plan_center_bin_to_predict cfg / window_size cfg ->
  collection_handle open_collection (collection cfg) = Some h ->
  (m < fuel)%nat ->
  exists ds',
    run_epoch fuel ds =
    (map (batch B S_ None (ds_super_dataset ds) h 0) (seq 0 m), Exhausted, ds') /\
    ds_n ds' = (if bpe <=? Z.of_nat m then Z.of_nat m else Z.of_nat m + 1) /\
    Z.of_nat (fetches ds') =
      (if Nat.eqb m 0 then 0 else (Z.of_nat m - 1) / (S_ / B) + 1) /\
    (forall b, In b (map (batch B S_ None (ds_super_dataset ds) h 0) (seq 0 m)) ->
       length (fst b) = Z.to_nat B /\ length (snd b) = Z.to_nat B).
Proof.
  intros B S_ bpe c m Hinit HB HW HCW Hh Hfuel.
  destruct (init_inversion cfg ds Hinit)
    as (HS & H0 & HdB & Hdbpe & Hsd & Hload & Hn & Hoff).
  fold B S_ bpe c in HS, H0, HdB, Hdbpe, Hsd.
  assert (HsS : sd_batch_size (ds_super_dataset ds) = S_) by (rewrite Hsd; reflexivity).
  assert (HsW : sd_window_size (ds_super_dataset ds) = window_size cfg)
    by (rewrite Hsd; reflexivity).
  assert (HsC : sd_center_bin_to_predict (ds_super_dataset ds) =
                plan_center_bin_to_predict cfg)
    by (rewrite Hsd; reflexivity).
  assert (HsH : handle_of (ds_super_dataset ds) = Some h)
    by (rewrite Hsd, inner_handle; assumption).
  assert (Hf0 : fetches ds = 0%nat) by (unfold fetches; rewrite Hsd; reflexivity).
  assert (Hm : delivered (ds_batch_size ds) (sd_batch_size (ds_super_dataset ds))
                 (ds_batches_per_epoch ds)
                 (sd_batches_per_epoch (ds_super_dataset ds))
                 (held_by (loaded ds)) = m).
  { rewrite Hload, HdB, Hdbpe, HsS. cbn [held_by].
    apply delivered_plan; try assumption; try reflexivity.
    intros Hc. rewrite Hsd. apply inner_cap. assumption. }
  pose proof (epoch_spec fuel ds h) as Hep. cbv zeta in Hep.
  rewrite Hm, HdB, Hdbpe, HsS, HsW, HsC, Hload, Hf0 in Hep.
  destruct (Hep HB HS HW HCW HsH Hfuel)
    as (ds' & Hrun & _ & _ & _ & Hn' & Hm0 & Hm1).
  exists ds'. split; [assumption |]. split; [assumption |]. split.
  - destruct (Nat.eqb_spec m 0) as [Hz | Hnz].
    + destruct (Hm0 Hz) as [_ ->]. reflexivity.
    + destruct (Hm1 Hnz) as [_ ->]. cbn [held_by]. lia.
  - intros b Hb. apply in_map_iff in Hb as (i & <- & _).
    rewrite <- HsS. apply batch_rows; try discriminate; rewrite ?HsS; assumption.
Qed.

(** * The claims *)

Lemma total_bases_nonneg (regions : list (@Region Chrom)) :
  Forall (fun r => r_start r < r_end r) regions -> 0 <= total_bases regions.
Proof.
  unfold total_bases. induction 1 as [| r rs Hr _ IH]; cbn; lia.
Qed.

(** An epoch with nothing to deliver ends at the first call. *)
Lemma empty_epoch (ds : Dataset) (fuel : nat) :
  ds_batches_per_epoch ds <= 0 ->
  run_epoch (S fuel) ds = ([], Exhausted, BigWigDataset_iter ds).
Proof.
  intros Hbpe. unfold epoch. cbn [drain].
  rewrite next_done; [reflexivity |]. fields. assumption.
Qed.

(** C3 (as amended). [batches_per_epoch] is the value the caller gave
    whenever that value is not 0, in [BigWigDataset] and in
    [BigWigSuperDataset] alike; when none is given, or 0 is given, it is
    [R // L // B], floored at each step, with [R] the summed region
    lengths. Regions covering fewer than [L * B] bases give 0: the
    constructor succeeds and the epoch ends at once, without an error. *)
Theorem C3_batches_per_epoch (cfg : @Config Chrom Handle PathSpec) :
  let B := batch_size cfg in
  let L := sequence_length cfg in
  let R := total_bases (regions_of_interest cfg) in
  0 < B -> 0 < L -> B <= plan_super_batch_size cfg ->
  exists ds : Dataset,
    BigWigDataset_init cfg = inr ds /\
    (forall v, batches_per_epoch cfg = Some v -> v <> 0 ->
       ds_batches_per_epoch ds = v /\
       sd_batches_per_epoch (BigWigSuperDataset_init cfg) = v) /\
    (batches_per_epoch cfg = None \/ batches_per_epoch cfg = Some 0 ->
       ds_batches_per_epoch ds = R / L / B /\
       sd_batches_per_epoch (BigWigSuperDataset_init cfg) = R / L / B /\
       (Forall (fun r => r_start r < r_end r) (regions_of_interest cfg) ->
        R < L * B ->
        ds_batches_per_epoch ds = 0 /\
        forall fuel,
          run_epoch (S fuel) ds = ([], Exhausted, BigWigDataset_iter ds))).
Proof.
  intros B L R HB HL HS.
  destruct (init_success cfg HS ltac:(fold B; lia))
    as (ds & Hinit & _ & Hbpe & _).
  exists ds. split; [assumption |].
  unfold plan_batches_per_epoch, default_batches_per_epoch in Hbpe.
  fold B L R in Hbpe. split.
  - intros v Hv Hnz. rewrite Hbpe. cbn. unfold default_batches_per_epoch.
    rewrite Hv. split; apply py_or_nonzero; assumption.
  - intros Hnone.
    assert (Hdef : py_or (batches_per_epoch cfg) (R / L / B) = R / L / B)
      by (destruct Hnone as [-> | ->]; reflexivity).
    split; [congruence |]. split.
    { cbn. unfold default_batches_per_epoch. fold B L R. assumption. }
    intros Hreg Hsmall.
    pose proof (total_bases_nonneg _ Hreg) as HR. fold R in HR.
    assert (Hzero : R / L / B = 0).
    { rewrite Z.div_div by lia. apply Z.div_small. lia. }
    split; [congruence |].
    intros fuel. apply empty_epoch. rewrite Hbpe, Hdef, Hzero. lia.
Qed.

(** C4 (as amended). A super-batch size in effect (the one given, or the
    batch size when none or 0 is given) below the batch size makes the
    constructor raise [AttributeError], so that no dataset exists to
    produce a batch; in particular every non-zero [super_batch_size] below
    [batch_size] does. Otherwise the number of super-batches per epoch is
    the ceiling of [B * batches_per_epoch / S], which becomes the cap of
    the inner iterator unless it is 0. *)
Theorem C4_super_batch_size (cfg : @Config Chrom Handle PathSpec) :
  let B := batch_size cfg in
  let S_ := plan_super_batch_size cfg in
  let c := plan_super_batches_per_epoch cfg in
  (forall s, super_batch_size cfg = Some s -> s <> 0 -> s < B ->
     BigWigDataset_init cfg = (inl AttributeError : exn + Dataset) /\
     forall fuel, build_run fuel cfg = inl AttributeError) /\
  (S_ < B <-> BigWigDataset_init cfg = (inl AttributeError : exn + Dataset)) /\
  (forall ds : Dataset, BigWigDataset_init cfg = inr ds -> 0 < B ->
     (c - 1) * S_ < B * ds_batches_per_epoch ds <= c * S_ /\
     ds_super_dataset ds = BigWigSuperDataset_init (super_config cfg S_ c) /\
     (c <> 0 -> sd_batches_per_epoch (ds_super_dataset ds) = c)).
Proof.
  intros B S_ c.
  assert (Hraise : S_ < B <->
            BigWigDataset_init cfg = (inl AttributeError : exn + Dataset)).
  { unfold BigWigDataset_init. fold (plan_super_batch_size cfg). fold S_ B.
    destruct (Z.ltb_spec S_ B) as [Hlt | Hge].
    - split; [reflexivity | intros _; assumption].
    - destruct (S_ =? 0); split; intros H; try lia; discriminate. }
  split; [| split; [assumption |]].
  - intros s Hs Hnz Hlt.
    assert (HS : S_ = s).
    { unfold S_, plan_super_batch_size. rewrite Hs. apply py_or_nonzero, Hnz. }
    assert (Hinit : BigWigDataset_init cfg = (inl AttributeError : exn + Dataset))
      by (apply Hraise; lia).
    split; [assumption |].
    intros fuel. unfold build_and_run. rewrite Hinit. reflexivity.
  - intros ds Hinit HB.
    destruct (init_inversion cfg ds Hinit) as (HS & H0 & _ & Hbpe & Hsd & _).
    fold B S_ c in HS, H0, Hsd.
    split; [| split; [assumption |]].
    + rewrite Hbpe. apply math_ceil_truediv_spec; [lia | reflexivity].
    + intros Hc. rewrite Hsd. apply inner_cap, Hc.
Qed.

(** C5. Smoothing with a window of 1 returns its input unchanged, whatever
    the rows of the signal are. *)
Theorem C5_moving_average_identity (signal : list Row) :
  moving_average smooth signal 1 = signal.
Proof. reflexivity. Qed.

(** Without a handle and without a path the first fetch raises
    [RuntimeError], after the genome has served its batch. *)
Lemma super_next_unresolved (sd : SuperDataset) :
  sd_n sd < sd_batches_per_epoch sd ->
  0 < sd_batch_size sd ->
  handle_of sd = None ->
  exists sd', super_next sd = Raise RuntimeError sd'.
Proof.
  intros Hn HS Hh. unfold BigWigSuperDataset_next.
  destruct (Z.ltb_spec (sd_n sd) (sd_batches_per_epoch sd)) as [_ | ?]; [| lia].
  unfold genome_next. fields.
  pose proof (genome_positions (match sd_genome sd with Some c => c | None => O end)
                (sd_batch_size sd)) as Hlen.
  destruct (genome_get_batch _ (sd_batch_size sd)) as [positions sequences].
  cbn [fst] in Hlen.
  destruct positions as [| p positions]; [cbn in Hlen; lia |].
  unfold bigwig_collection, resolved_handle in *. fields.
  destruct (sd_bigwig_collection sd); [discriminate |].
  destruct (sd_bigwig_path sd); [discriminate |].
  eexists. reflexivity.
Qed.

(** C8 (as amended). With neither a collection nor a path the constructor
    still succeeds. [RuntimeError] is raised on the first access of the
    collection: by [reset_gpu], and by the first call of [__next__] of an
    epoch that has a batch to deliver; an epoch with no batch to deliver
    ends without any error. *)
Theorem C8_missing_collection (cfg : @Config Chrom Handle PathSpec) :
  collection cfg = NoCollection ->
  0 < batch_size cfg ->
  batch_size cfg <= plan_super_batch_size cfg ->
  exists ds : Dataset,
    BigWigDataset_init cfg = inr ds /\
    BigWigDataset_reset_gpu open_collection collection_reset_gpu ds =
      inl RuntimeError /\
    (0 < plan_batches_per_epoch cfg ->
     exists ds',
       next (BigWigDataset_iter ds) = Raise RuntimeError ds' /\
       forall fuel, run_epoch (S fuel) ds = ([], Failed RuntimeError, ds')) /\
    (plan_batches_per_epoch cfg <= 0 ->
     forall fuel, run_epoch (S fuel) ds = ([], Exhausted, BigWigDataset_iter ds)).
Proof.
  intros Hnone HB HS.
  destruct (init_success cfg HS ltac:(lia))
    as (ds & Hinit & HdB & Hbpe & Hsd & Hseq & Htgt & Hn & Hoff).
  exists ds. split; [assumption |].
  assert (Hh : handle_of (ds_super_dataset ds) = None).
  { rewrite Hsd, inner_handle, Hnone. reflexivity. }
  split; [| split].
  - unfold BigWigDataset_reset_gpu, BigWigSuperDataset_reset_gpu,
      bigwig_collection, resolved_handle in *.
    destruct (sd_bigwig_collection (ds_super_dataset ds)); [discriminate |].
    destruct (sd_bigwig_path (ds_super_dataset ds)); [discriminate |].
    reflexivity.
  - intros Hpos.
    assert (Hcap : 0 < plan_super_batches_per_epoch cfg).
    { apply math_ceil_truediv_pos; nia. }
    destruct (super_next_unresolved
                (BigWigSuperDataset_iter (ds_super_dataset ds)))
      as (sd' & Hraise).
    { fields. rewrite Hsd, inner_cap; lia. }
    { fields. rewrite Hsd. cbn. lia. }
    { assumption. }
    assert (Hnext : next (BigWigDataset_iter ds) =
                    Raise RuntimeError
                      (set_ds_super_dataset sd'
                         (set_ds_n (0 + 1) (BigWigDataset_iter ds)))).
    { unfold BigWigDataset_next. fields. rewrite Hbpe.
      destruct (Z.ltb_spec 0 (plan_batches_per_epoch cfg)) as [_ | ?]; [| lia].
      unfold refill_needed, refill. fields. rewrite Hseq, Hraise. reflexivity. }
    eexists. split; [exact Hnext |].
    intros fuel. unfold epoch. cbn [drain]. rewrite Hnext. reflexivity.
  - intros Hle fuel. apply empty_epoch. rewrite Hbpe. assumption.
Qed.

(** The default of [center_bin_to_predict] in [BigWigDataset] and
    [BigWigSuperDataset], and the scoring window. When the argument is
    omitted, or passed as [None] or 0, the two classes use the sequence
    length for it. The scoring window of a position starts at
    [center - C // 2], has length exactly [C] and contains the position;
    it is [center - C/2, center + C/2) when [C] is even. *)
Lemma center_bin_default_and_window (call : @Call Chrom Handle PathSpec) :
  call_center_bin_to_predict call = Omitted \/
  call_center_bin_to_predict call = Passed None \/
  call_center_bin_to_predict call = Passed (Some 0) ->
  let cfg := dataset_signature call in
  sd_center_bin_to_predict (BigWigSuperDataset_init cfg) = sequence_length cfg /\
  (forall ds : Dataset, BigWigDataset_init cfg = inr ds ->
     sd_center_bin_to_predict (ds_super_dataset ds) = sequence_length cfg) /\
  (forall C center,
     fst (scoring_window C center) = center - C / 2 /\
     snd (scoring_window C center) - fst (scoring_window C center) = C /\
     (0 < C ->
      fst (scoring_window C center) <= center < snd (scoring_window C center)) /\
     (Z.even C = true ->
      scoring_window C center = (center - C / 2, center + C / 2))).
Proof.
  intros Hc cfg.
  assert (Hdef : py_or (center_bin_to_predict cfg) (sequence_length cfg) =
                 sequence_length cfg).
  { unfold cfg, dataset_signature; cbn.
    destruct Hc as [-> | [-> | ->]]; reflexivity. }
  split; [exact Hdef |]. split.
  - intros ds Hinit.
    destruct (init_inversion cfg ds Hinit) as (_ & _ & _ & _ & -> & _).
    exact Hdef.
  - intros C center. unfold scoring_window. cbn [fst snd].
    split; [reflexivity |]. split; [lia |]. split.
    { intros HC. pose proof (Z.div_lt C 2 HC ltac:(lia)).
      assert (0 <= C / 2) by (apply Z.div_pos; lia). lia. }
    intros Heven. f_equal.
    apply Z.even_spec in Heven. destruct Heven as [q ->].
    rewrite (Z.mul_comm 2 q), Z.div_mul by lia. lia.
Qed.

(** C10. The inner iterator is capped: built by [BigWigDataset], its cap
    is the number of super-batches [ceil(B * batches_per_epoch / S)]
    (whenever that is not 0), and at its cap it signals the end of the
    sequence. [BigWigDataset.__next__] counts the batch before it asks for
    a refill, and lets that signal through. So an epoch in which the
    fetches succeed (a collection is given and the output buffer can be
    allocated: the window size is not 0 and
    [center_bin_to_predict // window_size] is not negative) makes at most
    [cap] fetches, and when the batches they hold run out before the
    planned number is reached, the epoch ends early, by the
    end-of-sequence signal and with the counter one ahead of the batches
    delivered. *)
Theorem C10_inner_cap_ends_epoch (ds : Dataset) (h : Handle) (fuel : nat) :
  let B := ds_batch_size ds in
  let bpe := ds_batches_per_epoch ds in
  let sd := ds_super_dataset ds in
  let S_ := sd_batch_size sd in
  let cap := sd_batches_per_epoch sd in
  let m := delivered B S_ bpe cap (held_by (loaded ds)) in
  0 < B -> B <= S_ ->
  sd_window_size sd <> 0 ->
  0 <= sd_center_bin_to_predict sd / sd_window_size sd ->
  handle_of sd = Some h ->
  (m < fuel)%nat ->
  (forall (cfg : @Config Chrom Handle PathSpec) (d : Dataset),
     BigWigDataset_init cfg = inr d ->
     0 < batch_size cfg ->
     let c :=
       math_ceil_truediv (batch_size cfg * ds_batches_per_epoch d)
         (sd_batch_size (ds_super_dataset d)) in
     (c <> 0 -> sd_batches_per_epoch (ds_super_dataset d) = c) /\
     (c = 0 -> ds_batches_per_epoch d <= 0)) /\
  (forall s : SuperDataset,
     sd_batches_per_epoch s <= sd_n s -> super_next s = StopIteration s) /\
  (forall d : Dataset,
     ds_n d < ds_batches_per_epoch d ->
     refill_needed d = true ->
     sd_batches_per_epoch (ds_super_dataset d) <= sd_n (ds_super_dataset d) ->
     next d =
     StopIteration
       (set_ds_super_dataset (ds_super_dataset d) (set_ds_n (ds_n d + 1) d))) /\
  exists bs ds',
    run_epoch fuel ds = (bs, Exhausted, ds') /\
    length bs = m /\
    Z.of_nat (fetches ds') - Z.of_nat (fetches ds) <= Z.max cap 0 /\
    (bpe <= 0 -> fetches ds' = fetches ds) /\
    (S_ / B * (Z.max cap 0 + held_by (loaded ds)) < bpe ->
     Z.of_nat (length bs) < bpe /\
     ds_n ds' = Z.of_nat (length bs) + 1).
Proof.
  intros B bpe sd S_ cap m HB HS HW HCW Hh Hfuel.
  split; [| split; [| split]].
  - intros cfg d Hinit HcB c.
    destruct (init_inversion cfg d Hinit) as (HcS & _ & _ & Hbpe & Hsd & _).
    assert (Hc : c = plan_super_batches_per_epoch cfg).
    { unfold c. rewrite Hsd, Hbpe. reflexivity. }
    split.
    + intros Hnz. rewrite Hsd. rewrite inner_cap; congruence.
    + intros Hz.
      pose proof (proj1 (math_ceil_truediv_spec
                           (batch_size cfg * plan_batches_per_epoch cfg)
                           (plan_super_batch_size cfg) c ltac:(lia))
                    (eq_sym Hc)) as Hceil.
      rewrite Hbpe. nia.
  - apply super_next_stop.
  - apply next_starved.
  - destruct (epoch_spec fuel ds h HB HS HW HCW Hh Hfuel)
      as (ds' & Hrun & _ & _ & _ & Hn' & Hm0 & Hm1).
    fold B bpe sd S_ cap m in Hrun, Hn', Hm0, Hm1.
    pose proof (per_super_batch B sd HB HS) as (Hk1 & Hk2 & Hk3).
    fold S_ in Hk1, Hk2, Hk3.
    pose proof (held_01 (loaded ds)) as Hheld.
    assert (Hm : Z.of_nat m = Z.max 0 (Z.min bpe (S_ / B * (Z.max cap 0 + held_by (loaded ds))))).
    { unfold m, delivered. lia. }
    eexists. exists ds'. split; [exact Hrun |].
    split; [rewrite length_map, length_seq; reflexivity |].
    rewrite length_map, length_seq. split; [| split].
    + destruct (Nat.eq_dec m 0) as [Hz | Hnz].
      * destruct (Hm0 Hz) as [_ ->]. lia.
      * destruct (Hm1 Hnz) as [_ ->].
        assert ((Z.of_nat m - 1) / (S_ / B) < Z.max cap 0 + held_by (loaded ds)).
        { apply Z.div_lt_upper_bound; nia. }
        lia.
    + intros Hnone. apply Hm0. lia.
    + intros Hshort.
      assert (0 <= S_ / B * (Z.max cap 0 + held_by (loaded ds))) by nia.
      split; [lia |].
      rewrite Hn'. destruct (Z.leb_spec bpe (Z.of_nat m)); lia.
Qed.

(** Once allocated, the output buffer of the inner dataset is never
    replaced: not by a fetch, whatever its outcome, ... *)
Lemma prepared_out_kept (sd : SuperDataset) (b : Z * Z * Z) :
  sd_prepared_out sd = Some b ->
  sd_prepared_out (state_after (super_next sd)) = Some b.
Proof.
  intros Hout. unfold BigWigSuperDataset_next.
  destruct (sd_n sd <? sd_batches_per_epoch sd); [| exact Hout].
  unfold genome_next. fields.
  destruct (genome_get_batch _ (sd_batch_size sd)) as [positions sequences].
  destruct positions as [| p positions]; [exact Hout |].
  unfold bigwig_collection, prepared_out. fields.
  destruct (sd_bigwig_collection sd); fields.
  - rewrite Hout. exact Hout.
  - destruct (sd_bigwig_path sd); fields; [| exact Hout].
    rewrite Hout. exact Hout.
Qed.

(** ... and not by a call of the outer iterator. *)
Lemma next_keeps_prepared_out (ds : Dataset) (b : Z * Z * Z) :
  sd_prepared_out (ds_super_dataset ds) = Some b ->
  sd_prepared_out (ds_super_dataset (state_after (next ds))) = Some b.
Proof.
  intros Hout. unfold BigWigDataset_next.
  destruct (ds_n ds <? ds_batches_per_epoch ds); [| exact Hout].
  assert (Htake : forall d : Dataset,
            sd_prepared_out (ds_super_dataset d) = Some b ->
            sd_prepared_out (ds_super_dataset (state_after (take_batch d))) = Some b).
  { intros d Hd. unfold take_batch.
    destruct (ds_super_batch_sequences d), (ds_super_batch_targets d); exact Hd. }
  destruct (refill_needed (set_ds_n (ds_n ds + 1) ds)).
  - unfold refill. fields.
    pose proof (prepared_out_kept (ds_super_dataset ds) b Hout) as Hkept.
    destruct (super_next (ds_super_dataset ds)) as [[seqs tgts] sd' | sd' | e sd'];
      cbn [state_after] in *; fields; exact Hkept.
  - apply Htake. exact Hout.
Qed.

(** C7 (as amended). Starting a new epoch resets the counters only: the
    output buffer and the super-batch in place persist. With a super-batch
    in place, the first batch of the new epoch is made of its rows
    [0, B), with no fetch: it is drawn from what the previous epoch left.
    The first access fetches only when no super-batch is in place (and
    the fetch succeeds when a collection is given and the output buffer can
    be allocated: the window size is not 0 and
    [center_bin_to_predict // window_size] is not negative). The output
    buffer, once allocated, stays the same through every call. *)
Theorem C7_epoch_boundary (ds : Dataset) (h : Handle) :
  let B := ds_batch_size ds in
  let sd := ds_super_dataset ds in
  let ds0 := BigWigDataset_iter ds in
  0 < B -> B <= sd_batch_size sd ->
  0 < ds_batches_per_epoch ds ->
  0 < sd_batches_per_epoch sd ->
  sd_window_size sd <> 0 ->
  0 <= sd_center_bin_to_predict sd / sd_window_size sd ->
  handle_of sd = Some h ->
  (ds_n ds0 = 0 /\ ds_offset ds0 = 0 /\ loaded ds0 = loaded ds /\
   sd_prepared_out (ds_super_dataset ds0) = sd_prepared_out sd) /\
  (forall seqs tgts, loaded ds = Some (seqs, tgts) ->
     exists ds1,
       next ds0 = Yield (py_slice seqs 0 (0 + B), py_slice tgts 0 (0 + B)) ds1 /\
       fetches ds1 = fetches ds /\
       loaded ds1 = Some (seqs, tgts)) /\
  (loaded ds = None ->
     exists ds1,
       next ds0 =
       Yield (py_slice (fst (super_batch sd h (fetches ds))) 0 (0 + B),
              py_slice (snd (super_batch sd h (fetches ds))) 0 (0 + B)) ds1 /\
       fetches ds1 = S (fetches ds) /\
       loaded ds1 = Some (super_batch sd h (fetches ds))) /\
  (forall (d : Dataset) (b : Z * Z * Z),
     sd_prepared_out (ds_super_dataset d) = Some b ->
     sd_prepared_out (ds_super_dataset (BigWigDataset_iter d)) = Some b /\
     sd_prepared_out (ds_super_dataset (state_after (next d))) = Some b).
Proof.
  intros B sd ds0 HB HS Hbpe Hcap HW HCW Hh. subst B sd ds0.
  split; [repeat split |]. split; [| split].
  - intros seqs tgts Hload.
    apply loaded_some in Hload as [Hs Ht].
    rewrite (next_slices (BigWigDataset_iter ds) seqs tgts); fields;
      try assumption; try lia.
    eexists. split; [reflexivity |].
    unfold fetches, calls, loaded. fields. rewrite Hs, Ht. split; reflexivity.
  - intros Hload.
    destruct (next_refills (BigWigDataset_iter ds) h)
      as (sd' & _ & _ & Hc' & _ & Hnext); fields; try assumption; try lia.
    { apply loaded_none_refill. exact Hload. }
    cbv zeta in Hnext. unfold fetches in *. fields.
    change (calls (BigWigSuperDataset_iter (ds_super_dataset ds)))
      with (calls (ds_super_dataset ds)) in *.
    change (super_batch (BigWigSuperDataset_iter (ds_super_dataset ds)) h
              (calls (ds_super_dataset ds)))
      with (super_batch (ds_super_dataset ds) h (calls (ds_super_dataset ds)))
      in *.
    eexists. split; [exact Hnext |].
    unfold loaded. fields. split; [exact Hc' |].
    destruct (super_batch (ds_super_dataset ds) h (calls (ds_super_dataset ds)));
      reflexivity.
  - intros d b Hout. split; [exact Hout |].
    apply next_keeps_prepared_out. exact Hout.
Qed.

(** ** Which rows the batches of an epoch cover *)

Lemma count_none (p : nat -> bool) (a n : nat) :
  (forall i, (a <= i < a + n)%nat -> p i = false) ->
  filter p (seq a n) = [].
Proof.
  revert a. induction n as [| n IH]; intros a Hp; [reflexivity |].
  cbn [seq filter]. rewrite (Hp a) by lia.
  apply IH. intros i Hi. apply Hp. lia.
Qed.

Lemma count_unique (p : nat -> bool) (a n i0 : nat) :
  (a <= i0 < a + n)%nat ->
  (forall i, (a <= i < a + n)%nat -> (p i = true <-> i = i0)) ->
  filter p (seq a n) = [i0].
Proof.
  revert a. induction n as [| n IH]; intros a Hi0 Hp; [lia |].
  cbn [seq filter]. destruct (p a) eqn:Hpa.
  - apply (Hp a ltac:(lia)) in Hpa as ->.
    f_equal. apply count_none. intros i Hi.
    destruct (p i) eqn:Hpi; [| reflexivity].
    apply (Hp i ltac:(lia)) in Hpi. lia.
  - apply IH.
    + destruct (Nat.eq_dec a i0) as [-> | Hne]; [| lia].
      assert (p i0 = true) by (apply Hp; [lia | reflexivity]). congruence.
    + intros i Hi. apply Hp. lia.
Qed.

Lemma filter_map_seq (A : Type) (p : A -> bool) (f : nat -> A) (l : list nat) :
  filter p (map f l) = map f (filter (fun i => p (f i)) l).
Proof.
  induction l as [| x l IH]; [reflexivity |].
  cbn [map filter]. destruct (p (f x)); cbn [map]; rewrite IH; reflexivity.
Qed.

(** The batches drawn from a super-batch that is used up cover each of its
    first [S - S mod B] rows once, and none of the [S mod B] rows that
    follow. *)
Lemma rows_covered (B S_ : Z) (m j : nat) (r : Z) :
  0 < B -> B <= S_ ->
  Z.of_nat (S j) * (S_ / B) <= Z.of_nat m ->
  0 <= r < S_ ->
  length (filter (covers B j r) (slices B S_ m)) =
  if r <? S_ - S_ mod B then 1%nat else 0%nat.
Proof.
  intros HB HS Hused Hr.
  pose proof (Z.div_mod S_ B ltac:(lia)) as Hdm.
  pose proof (Z.mod_pos_bound S_ B HB) as Hrem.
  assert (Hk : 1 <= S_ / B) by (apply Z.div_le_lower_bound; lia).
  set (k := S_ / B) in *.
  unfold slices. rewrite filter_map_seq, length_map.
  assert (Hcov : forall i : nat,
            covers B j r (slice_pos B S_ i) = true <->
            Z.of_nat i / k = Z.of_nat j /\
            (Z.of_nat i mod k) * B <= r < (Z.of_nat i mod k) * B + B).
  { intros i. unfold covers, slice_pos. cbn [fst snd]. fold k.
    assert (0 <= Z.of_nat i / k) by (apply Z.div_pos; lia).
    rewrite !andb_true_iff, Nat.eqb_eq, Z.leb_le, Z.ltb_lt. split.
    - intros [[Hv Hlo] Hhi]. repeat split; try assumption. lia.
    - intros [Hv [Hlo Hhi]]. repeat split; try assumption. lia. }
  destruct (Z.ltb_spec r (S_ - S_ mod B)) as [Hin | Hout].
  - assert (Hq : 0 <= r / B < k).
    { split; [apply Z.div_pos; lia |].
      apply Z.div_lt_upper_bound; [lia |]. nia. }
    pose proof (Z.div_mod r B ltac:(lia)) as Hrdm.
    pose proof (Z.mod_pos_bound r B HB) as Hrrem.
    rewrite (count_unique _ 0 m (Z.to_nat (Z.of_nat j * k + r / B)));
      [reflexivity | nia |].
    intros i Hi. rewrite Hcov.
    pose proof (Z.div_mod (Z.of_nat i) k ltac:(lia)) as Hidm.
    pose proof (Z.mod_pos_bound (Z.of_nat i) k ltac:(lia)) as Hirem.
    split.
    + intros [Hv [Hlo Hhi]].
      assert (Z.of_nat i mod k = r / B).
      { apply (Z.div_unique r B _ (r - (Z.of_nat i mod k) * B)); lia. }
      nia.
    + intros ->. rewrite Z2Nat.id by nia.
      assert (Hdiv : (Z.of_nat j * k + r / B) / k = Z.of_nat j).
      { symmetry. apply (Z.div_unique _ k _ (r / B)); lia. }
      assert (Hmod : (Z.of_nat j * k + r / B) mod k = r / B).
      { symmetry. apply (Z.mod_unique _ k (Z.of_nat j) (r / B)); lia. }
      rewrite Hdiv, Hmod. split; [reflexivity | nia].
  - rewrite count_none; [reflexivity |].
    intros i Hi. destruct (covers B j r (slice_pos B S_ i)) eqn:Hc; [| reflexivity].
    apply Hcov in Hc as [_ [Hlo Hhi]].
    pose proof (Z.mod_pos_bound (Z.of_nat i) k ltac:(lia)) as Hirem.
    nia.
Qed.

(** C2 (as amended). A refill is triggered exactly when a buffer is
    missing or [offset + batch_size > super_batch_size]. In consequence
    the batches of an epoch are the consecutive slices of [B] rows of the
    super-batches it reads, and every super-batch that is used up, as the
    one in place at each refill is, has each of its first [S - S mod B]
    rows in exactly one batch of the epoch and its last [S mod B] rows in
    none: nothing is lost when [S mod B = 0]. The super-batch in place
    when the epoch ends may be left partly unread. The epoch is one whose
    fetches succeed: a collection is given and the output buffer can be
    allocated, that is, the window size is not 0 and
    [center_bin_to_predict // window_size] is not negative. *)
Theorem C2_refill_policy (ds : Dataset) (h : Handle) (fuel : nat) :
  let B := ds_batch_size ds in
  let bpe := ds_batches_per_epoch ds in
  let sd := ds_super_dataset ds in
  let S_ := sd_batch_size sd in
  let m := delivered B S_ bpe (sd_batches_per_epoch sd) (held_by (loaded ds)) in
  0 < B -> B <= S_ ->
  sd_window_size sd <> 0 ->
  0 <= sd_center_bin_to_predict sd / sd_window_size sd ->
  handle_of sd = Some h ->
  (m < fuel)%nat ->
  (forall d : Dataset,
     refill_needed d = true <->
     ds_super_batch_sequences d = None \/
     ds_super_batch_targets d = None \/
     ds_offset d + ds_batch_size d > sd_batch_size (ds_super_dataset d)) /\
  (exists ds',
     run_epoch fuel ds =
     (map (batch_from B (loaded ds) sd h (fetches ds)) (slices B S_ m),
      Exhausted, ds')) /\
  (forall (j : nat) (r : Z),
     Z.of_nat (S j) * (S_ / B) <= Z.of_nat m ->
     0 <= r < S_ ->
     length (filter (covers B j r) (slices B S_ m)) =
     if r <? S_ - S_ mod B then 1%nat else 0%nat).
Proof.
  intros B bpe sd S_ m HB HS HW HCW Hh Hfuel.
  split; [apply refill_needed_spec |]. split.
  - destruct (epoch_spec fuel ds h HB HS HW HCW Hh Hfuel) as (ds' & Hrun & _).
    exists ds'. rewrite Hrun. unfold slices. rewrite map_map. reflexivity.
  - intros j r Hused Hr. apply rows_covered; assumption.
Qed.

(** When the batch size divides the super-batch size, the first epoch of
    a new dataset delivers every planned batch. *)
Lemma epoch_complete_when_divisible (cfg : @Config Chrom Handle PathSpec)
    (ds : Dataset) (h : Handle) (fuel : nat) :
  BigWigDataset_init cfg = inr ds ->
  0 < batch_size cfg ->
  window_size cfg <> 0 ->
  0 <= plan_center_bin_to_predict cfg / window_size cfg ->
  collection_handle open_collection (collection cfg) = Some h ->
  plan_super_batch_size cfg mod batch_size cfg = 0 ->
  (Z.to_nat (plan_batches_per_epoch cfg) < fuel)%nat ->
  exists bs ds',
    run_epoch fuel ds = (bs, Exhausted, ds') /\
    length bs = Z.to_nat (plan_batches_per_epoch cfg) /\
    forall b, In b bs ->
      length (fst b) = Z.to_nat (batch_size cfg) /\
      length (snd b) = Z.to_nat (batch_size cfg).
Proof.
  intros Hinit HB HW HCW Hh Hdiv Hfuel.
  destruct (init_inversion cfg ds Hinit) as (HS & H0 & _).
  set (B := batch_size cfg) in *.
  set (S_ := plan_super_batch_size cfg) in *.
  set (bpe := plan_batches_per_epoch cfg) in *.
  pose proof (Z.div_mod S_ B ltac:(lia)) as Hdm. rewrite Hdiv in Hdm.
  assert (Hk : 1 <= S_ / B) by (apply Z.div_le_lower_bound; lia).
  pose proof (proj1 (math_ceil_truediv_spec (B * bpe) S_
                       (plan_super_batches_per_epoch cfg) ltac:(lia))
                eq_refl) as Hceil.
  set (c := plan_super_batches_per_epoch cfg) in *.
  assert (Hm : Z.to_nat (Z.min bpe (S_ / B * Z.max c 0)) = Z.to_nat bpe).
  { destruct (Z.le_gt_cases bpe 0) as [Hneg | Hpos]; [lia |].
    assert (bpe <= S_ / B * c) by nia.
    f_equal. nia. }
  destruct (first_epoch cfg ds h fuel Hinit HB HW HCW Hh)
    as (ds' & Hrun & _ & _ & Hrows).
  { fold B S_ bpe c. lia. }
  fold B S_ bpe c in Hrun, Hrows. rewrite Hm in Hrun, Hrows.
  eexists. exists ds'. split; [exact Hrun |].
  split; [rewrite length_map, length_seq; reflexivity | exact Hrows].
Qed.

(** * Further properties of the two iterators *)

(** ** Counting *)

Lemma take_batch_counts (d : Dataset) :
  ds_batch_size (state_after (take_batch d)) = ds_batch_size d /\
  ds_batches_per_epoch (state_after (take_batch d)) = ds_batches_per_epoch d /\
  forall b d', take_batch d = Yield b d' -> ds_n d' = ds_n d.
Proof.
  unfold take_batch.
  destruct (ds_super_batch_sequences d), (ds_super_batch_targets d);
    cbn [state_after]; fields;
    (split; [reflexivity | split; [reflexivity |]]);
    intros b d' Heq; try discriminate.
  injection Heq as _ <-. reflexivity.
Qed.

(** A call that yields was below the planned count and advances the
    counter by one; no call changes the batch size or the planned count. *)
Lemma next_counts (ds : Dataset) :
  ds_batch_size (state_after (next ds)) = ds_batch_size ds /\
  ds_batches_per_epoch (state_after (next ds)) = ds_batches_per_epoch ds /\
  forall b ds', next ds = Yield b ds' ->
    ds_n ds < ds_batches_per_epoch ds /\ ds_n ds' = ds_n ds + 1.
Proof.
  unfold BigWigDataset_next.
  destruct (Z.ltb_spec (ds_n ds) (ds_batches_per_epoch ds)) as [Hlt | Hge].
  - destruct (refill_needed (set_ds_n (ds_n ds + 1) ds)).
    + unfold refill. fields.
      destruct (super_next (ds_super_dataset ds))
        as [[seqs tgts] sd' | sd' | e sd'].
      * destruct (take_batch_counts (set_ds_offset 0
                    (set_ds_super_batch seqs tgts
                       (set_ds_super_dataset sd' (set_ds_n (ds_n ds + 1) ds)))))
          as (H1 & H2 & H3).
        fields. split; [exact H1 | split; [exact H2 |]].
        intros b d' Heq. split; [exact Hlt |]. exact (H3 b d' Heq).
      * cbn [state_after]. fields. split; [reflexivity | split; [reflexivity |]].
        intros b d' Heq. discriminate.
      * cbn [state_after]. fields. split; [reflexivity | split; [reflexivity |]].
        intros b d' Heq. discriminate.
    + destruct (take_batch_counts (set_ds_n (ds_n ds + 1) ds)) as (H1 & H2 & H3).
      fields. split; [exact H1 | split; [exact H2 |]].
      intros b d' Heq. split; [exact Hlt |]. exact (H3 b d' Heq).
  - cbn [state_after]. split; [reflexivity | split; [reflexivity |]].
    intros b d' Heq. discriminate.
Qed.

(** However the collaborators behave, a loop that starts with the counter
    at [n] yields at most [batches_per_epoch - n] batches, and it is over
    after one call more than that. *)
Theorem loop_bounded (fuel : nat) (ds : Dataset) :
  (length (fst (fst (run fuel ds))) <=
   Z.to_nat (ds_batches_per_epoch ds - ds_n ds))%nat /\
  ((Z.to_nat (ds_batches_per_epoch ds - ds_n ds) < fuel)%nat ->
   snd (fst (run fuel ds)) <> Running).
Proof.
  revert ds. induction fuel as [| fuel IH]; intros ds.
  - cbn. split; lia.
  - cbn [drain].
    destruct (next_counts ds) as (_ & Hbpe & Hyield).
    destruct (next ds) as [b ds' | ds' | e ds'] eqn:Hnext.
    + destruct (Hyield b ds' eq_refl) as [Hlt Hn].
      cbn [state_after] in Hbpe.
      specialize (IH ds'). rewrite Hbpe, Hn in IH.
      destruct (run fuel ds') as [[bs e] ds''].
      cbn [fst snd length] in *. destruct IH as [IH1 IH2].
      split; [lia |]. intros Hfuel. apply IH2. lia.
    + cbn. split; [lia | discriminate].
    + cbn. split; [lia | discriminate].
Qed.

(** X1: An epoch never yields more than [batches_per_epoch] batches, and with
    more fuel than that it always comes to an end. *)
Corollary epoch_bounded (fuel : nat) (ds : Dataset) :
  (length (fst (fst (epoch genome_get_batch open_collection collection_len
                       collection_get_batch smooth fuel ds))) <=
   Z.to_nat (ds_batches_per_epoch ds))%nat /\
  ((Z.to_nat (ds_batches_per_epoch ds) < fuel)%nat ->
   snd (fst (epoch genome_get_batch open_collection collection_len
               collection_get_batch smooth fuel ds)) <> Running).
Proof.
  unfold epoch.
  pose proof (loop_bounded fuel (BigWigDataset_iter ds)) as H.
  fields. rewrite Z.sub_0_r in H. exact H.
Qed.

(** ** Exhaustion is final *)

(** The inner iterator signals the end only at its cap, and changes
    nothing then. *)
Lemma super_next_stop_inv (sd sd' : SuperDataset) :
  super_next sd = StopIteration sd' ->
  sd' = sd /\ sd_batches_per_epoch sd <= sd_n sd.
Proof.
  unfold BigWigSuperDataset_next.
  destruct (Z.ltb_spec (sd_n sd) (sd_batches_per_epoch sd)) as [Hlt | Hge].
  - unfold genome_next. fields.
    destruct (genome_get_batch _ (sd_batch_size sd)) as [positions sequences].
    destruct positions as [| p positions]; [discriminate |].
    destruct (bigwig_collection open_collection _) as [e | [h sd3]];
      [discriminate |].
    destruct (prepared_out open_collection collection_len sd3)
      as [[e sd4] | [b sd4]]; discriminate.
  - intros Heq. injection Heq as <-. split; [reflexivity | exact Hge].
Qed.

(** Once [__next__] has signalled the end of the sequence, the next call
    signals it again. *)
Lemma stop_again (ds ds' : Dataset) :
  next ds = StopIteration ds' ->
  exists ds'', next ds' = StopIteration ds''.
Proof.
  intros Hstop.
  destruct (Z.ltb_spec (ds_n ds) (ds_batches_per_epoch ds)) as [Hlt | Hge].
  - unfold BigWigDataset_next in Hstop.
    destruct (Z.ltb_spec (ds_n ds) (ds_batches_per_epoch ds)) as [_ | ?];
      [| lia].
    destruct (refill_needed (set_ds_n (ds_n ds + 1) ds)) eqn:Hre.
    + unfold refill in Hstop. fields.
      destruct (super_next (ds_super_dataset ds))
        as [[seqs tgts] sd' | sd' | e sd'] eqn:Hsuper.
      * unfold take_batch in Hstop. fields. discriminate.
      * injection Hstop as <-.
        apply super_next_stop_inv in Hsuper as [-> Hcap].
        destruct (Z.ltb_spec (ds_n ds + 1) (ds_batches_per_epoch ds))
          as [Hmore | Hdone].
        -- eexists. apply next_starved; fields; assumption.
        -- eexists. apply next_done. fields. exact Hdone.
      * discriminate.
    + unfold take_batch in Hstop.
      destruct (ds_super_batch_sequences (set_ds_n (ds_n ds + 1) ds)),
               (ds_super_batch_targets (set_ds_n (ds_n ds + 1) ds));
        discriminate.
  - rewrite next_done in Hstop by exact Hge.
    injection Hstop as <-. eexists. apply next_done. exact Hge.
Qed.

(** X2: Exhaustion is final: after the end-of-sequence signal every further
    call of [__next__] signals it again, until [__iter__] is called; no
    batch and no exception can follow. *)
Theorem exhausted_stays_exhausted (ds ds' : Dataset) (k : nat) :
  next ds = StopIteration ds' ->
  exists ds'',
    next (after_calls genome_get_batch open_collection collection_len
            collection_get_batch smooth k ds') = StopIteration ds''.
Proof.
  intros Hstop. induction k as [| k IH].
  - exact (stop_again ds ds' Hstop).
  - destruct IH as (d & Hd). unfold after_calls in *.
    rewrite Nat.iter_succ, Hd. cbn [state_after].
    exact (stop_again _ d Hd).
Qed.

(** ** Rows *)

(** No outcome of a fetch changes the super-batch size, and a fetch that
    returns gives that many rows of sequence and of signal. *)
Lemma super_next_rows (sd : SuperDataset) :
  sd_batch_size (state_after (super_next sd)) = sd_batch_size sd /\
  forall seqs tgts sd', super_next sd = Yield (seqs, tgts) sd' ->
    length seqs = Z.to_nat (sd_batch_size sd) /\
    length tgts = Z.to_nat (sd_batch_size sd).
Proof.
  destruct sd as [regions coll path L C W S_ bpe n genome out mw].
  unfold BigWigSuperDataset_next, genome_next. fields.
  destruct (n <? bpe).
  2: { cbn [state_after]. fields. split; [reflexivity |]. intros; discriminate. }
  pose proof (genome_positions (match genome with Some c => c | None => O end) S_)
    as Hp.
  pose proof (genome_sequences (match genome with Some c => c | None => O end) S_)
    as Hs.
  destruct (genome_get_batch _ S_) as [positions sequences].
  cbn [fst snd] in Hp, Hs.
  destruct positions as [| p positions].
  { cbn [state_after]. fields. split; [reflexivity |]. intros; discriminate. }
  assert (Hrows : forall (s : SuperDataset) (h : Handle),
            length (scoring_targets collection_get_batch smooth s h
                      (p :: positions)) = Z.to_nat S_).
  { intros s h. unfold scoring_targets.
    rewrite moving_average_rows, collection_rows, !length_map. exact Hp. }
  unfold bigwig_collection, prepared_out, bigwig_collection. fields.
  destruct coll as [h |], path as [pth |], out as [b |]; fields;
    try (destruct (W =? 0)); try (destruct ((S_ <? 0) || (C / W <? 0)));
    cbn [state_after]; fields;
    (split; [reflexivity |]); intros seqs tgts sd' Heq;
    try discriminate;
    injection Heq as <- <- _; (split; [exact Hs | apply Hrows]).
Qed.

Lemma take_batch_rows (d : Dataset) (b : list Seq * list Row) (d' : Dataset) :
  rows_in_place d ->
  0 < ds_batch_size d ->
  ds_offset d + ds_batch_size d <= sd_batch_size (ds_super_dataset d) ->
  take_batch d = Yield b d' ->
  length (fst b) = Z.to_nat (ds_batch_size d) /\
  length (snd b) = Z.to_nat (ds_batch_size d) /\
  rows_in_place d' /\
  sd_batch_size (ds_super_dataset d') = sd_batch_size (ds_super_dataset d).
Proof.
  intros [Hoff Hlen] HB Hfit. unfold take_batch.
  destruct (ds_super_batch_sequences d) as [seqs |] eqn:Hs; [| discriminate].
  destruct (ds_super_batch_targets d) as [tgts |] eqn:Ht; [| discriminate].
  destruct (Hlen seqs tgts) as [Hl1 Hl2].
  { unfold loaded. rewrite Hs, Ht. reflexivity. }
  intros Heq. injection Heq as <- <-. cbn [fst snd].
  split; [apply py_slice_length; lia |].
  split; [apply py_slice_length; lia |].
  split; [| reflexivity].
  unfold rows_in_place, loaded. fields. rewrite Hs, Ht.
  split; [lia |].
  intros s t Heq. injection Heq as <- <-. split; assumption.
Qed.

(** One call keeps the buffers in shape, whatever its outcome; and what
    it yields has exactly [batch_size] rows of sequence and of signal. *)
Lemma next_rows (ds : Dataset) :
  rows_in_place ds ->
  0 < ds_batch_size ds ->
  ds_batch_size ds <= sd_batch_size (ds_super_dataset ds) ->
  rows_in_place (state_after (next ds)) /\
  sd_batch_size (ds_super_dataset (state_after (next ds))) =
    sd_batch_size (ds_super_dataset ds) /\
  forall b ds', next ds = Yield b ds' ->
    length (fst b) = Z.to_nat (ds_batch_size ds) /\
    length (snd b) = Z.to_nat (ds_batch_size ds).
Proof.
  intros Hrows HB HS. pose proof Hrows as [Hoff Hlen].
  unfold BigWigDataset_next.
  destruct (ds_n ds <? ds_batches_per_epoch ds).
  2: { cbn [state_after]. split; [exact Hrows | split; [reflexivity |]].
       intros; discriminate. }
  destruct (refill_needed (set_ds_n (ds_n ds + 1) ds)) eqn:Hre.
  - unfold refill. fields.
    destruct (super_next_rows (ds_super_dataset ds)) as [HS' Hfetch].
    destruct (super_next (ds_super_dataset ds))
      as [[seqs tgts] sd' | sd' | e sd']; cbn [state_after] in *.
    + destruct (Hfetch seqs tgts sd' eq_refl) as [Hl1 Hl2].
      set (d := set_ds_offset 0
                  (set_ds_super_batch seqs tgts
                     (set_ds_super_dataset sd' (set_ds_n (ds_n ds + 1) ds)))).
      assert (Hd : rows_in_place d).
      { unfold rows_in_place, loaded, d. fields. split; [lia |].
        intros s t Heq. injection Heq as <- <-. rewrite HS'.
        split; assumption. }
      destruct (take_batch d) as [b d' | d' | e d'] eqn:Htake.
      * destruct (take_batch_rows d b d' Hd) as (H1 & H2 & H3 & H4);
          unfold d; fields; try lia; try exact Htake.
        cbn [state_after]. split; [exact H3 |].
        split; [rewrite H4; fields; exact HS' |].
        intros b0 ds0 Heq. injection Heq as <- <-. split; assumption.
      * unfold take_batch, d in Htake. fields. discriminate.
      * unfold take_batch, d in Htake. fields. discriminate.
    + fields. split; [| split; [exact HS' | intros; discriminate]].
      unfold rows_in_place, loaded in *. fields. rewrite HS'.
      split; assumption.
    + fields. split; [| split; [exact HS' | intros; discriminate]].
      unfold rows_in_place, loaded in *. fields. rewrite HS'.
      split; assumption.
  - assert (Hfit : ds_offset ds + ds_batch_size ds <=
                   sd_batch_size (ds_super_dataset ds)).
    { destruct (Z.le_gt_cases (ds_offset ds + ds_batch_size ds)
                  (sd_batch_size (ds_super_dataset ds))) as [Hle | Hgt];
        [exact Hle |].
      assert (refill_needed (set_ds_n (ds_n ds + 1) ds) = true).
      { apply refill_needed_spec. right. right. fields. lia. }
      congruence. }
    set (d := set_ds_n (ds_n ds + 1) ds).
    assert (Hd : rows_in_place d) by exact Hrows.
    destruct (take_batch d) as [b d' | d' | e d'] eqn:Htake.
    + destruct (take_batch_rows d b d' Hd) as (H1 & H2 & H3 & H4);
        unfold d; fields; try lia; try exact Htake.
      cbn [state_after]. split; [exact H3 |].
      split; [exact H4 |].
      intros b0 ds0 Heq. injection Heq as <- <-. split; assumption.
    + unfold take_batch, d in Htake. fields.
      destruct (ds_super_batch_sequences ds), (ds_super_batch_targets ds);
        discriminate.
    + unfold take_batch, d in Htake. fields.
      destruct (ds_super_batch_sequences ds), (ds_super_batch_targets ds);
        try discriminate;
        injection Htake as _ <-; cbn [state_after];
        (split; [exact Hrows | split; [reflexivity | intros; discriminate]]).
Qed.

Lemma run_rows (fuel : nat) (ds : Dataset) :
  rows_in_place ds ->
  0 < ds_batch_size ds ->
  ds_batch_size ds <= sd_batch_size (ds_super_dataset ds) ->
  (forall b, In b (fst (fst (run fuel ds))) ->
     length (fst b) = Z.to_nat (ds_batch_size ds) /\
     length (snd b) = Z.to_nat (ds_batch_size ds)) /\
  rows_in_place (snd (run fuel ds)) /\
  ds_batch_size (snd (run fuel ds)) = ds_batch_size ds /\
  sd_batch_size (ds_super_dataset (snd (run fuel ds))) =
    sd_batch_size (ds_super_dataset ds).
Proof.
  revert ds. induction fuel as [| fuel IH]; intros ds Hrows HB HS.
  - cbn [drain fst snd].
    split; [intros b [] |]. split; [exact Hrows |]. split; reflexivity.
  - cbn [drain].
    destruct (next_rows ds Hrows HB HS) as (Hrows' & HS' & Hyield).
    destruct (next_counts ds) as (HB' & _ & _).
    destruct (next ds) as [b ds' | ds' | e ds'] eqn:Hnext;
      cbn [state_after] in *.
    + destruct (IH ds' Hrows' ltac:(lia) ltac:(lia)) as (Hin & Hr & Hb & Hs).
      destruct (run fuel ds') as [[bs e] ds''].
      cbn [fst snd] in *.
      split; [| split; [exact Hr | split; congruence]].
      intros b0 [<- | Hb0].
      * exact (Hyield b ds' eq_refl).
      * rewrite <- HB'. apply Hin. exact Hb0.
    + cbn [fst snd]. split; [intros b [] |]. split; [exact Hrows' |].
      split; assumption.
    + cbn [fst snd]. split; [intros b [] |]. split; [exact Hrows' |].
      split; assumption.
Qed.

Lemma iter_rows (ds : Dataset) :
  rows_in_place ds -> rows_in_place (BigWigDataset_iter ds).
Proof.
  intros [_ Hlen]. unfold rows_in_place, loaded in *. fields.
  split; [lia | exact Hlen].
Qed.

(** X3: Every batch yielded, in any of any number of consecutive epochs, has
    exactly [batch_size] rows of sequence and [batch_size] rows of signal. *)
Theorem every_batch_has_batch_size_rows (fuel epochs : nat) (ds : Dataset) :
  rows_in_place ds ->
  0 < ds_batch_size ds ->
  ds_batch_size ds <= sd_batch_size (ds_super_dataset ds) ->
  forall bs e b,
    In (bs, e)
       (fst (run_epochs genome_get_batch open_collection collection_len
               collection_get_batch smooth fuel epochs ds)) ->
    In b bs ->
    length (fst b) = Z.to_nat (ds_batch_size ds) /\
    length (snd b) = Z.to_nat (ds_batch_size ds).
Proof.
  revert ds. induction epochs as [| epochs IH]; intros ds Hrows HB HS bs e b.
  - cbn. contradiction.
  - cbn [run_epochs]. unfold epoch.
    destruct (run_rows fuel (BigWigDataset_iter ds) (iter_rows ds Hrows) HB HS)
      as (Hin & Hr & Hb & Hs).
    destruct (run fuel (BigWigDataset_iter ds)) as [[bs1 e1] ds1].
    cbn [fst snd] in *. fields.
    specialize (IH ds1 Hr ltac:(lia) ltac:(lia)).
    destruct (run_epochs genome_get_batch open_collection collection_len
                collection_get_batch smooth fuel epochs ds1) as [rest ds2].
    cbn [fst]. intros [Heq | Hrest] Hb0.
    + injection Heq as <- <-. apply Hin. exact Hb0.
    + rewrite <- Hb. exact (IH bs e b Hrest Hb0).
Qed.

(** A newly built dataset has nothing in place. *)
Lemma init_rows (cfg : @Config Chrom Handle PathSpec) (ds : Dataset) :
  BigWigDataset_init cfg = inr ds -> rows_in_place ds.
Proof.
  intros Hinit.
  destruct (init_inversion cfg ds Hinit) as (_ & _ & _ & _ & _ & Hload & _ & Hoff).
  unfold rows_in_place. rewrite Hoff, Hload.
  split; [lia |]. intros; discriminate.
Qed.

(** ** What [reset_gpu] and the lazy properties change *)

(** The collection is resolved once: the first access stores the handle,
    and an access that finds it stored returns it and changes nothing. *)
Lemma bigwig_collection_memo (sd sd1 : SuperDataset) (h : Handle) :
  bigwig_collection open_collection sd = inr (h, sd1) ->
  handle_of sd = Some h /\
  sd1 = memoized open_collection sd /\
  sd_bigwig_collection sd1 = Some h /\
  bigwig_collection open_collection sd1 = inr (h, sd1).
Proof.
  destruct sd as [regions coll path L C W S_ bpe n genome out mw].
  unfold bigwig_collection, memoized, resolved_handle. fields.
  destruct coll as [h0 |]; [| destruct path as [p |]];
    cbn [option_map]; intros Heq; try discriminate;
    injection Heq as <- <-; repeat split.
Qed.

(** The output buffer is allocated once, with the shape
    [(len(collection), batch_size, center_bin_to_predict // window_size)],
    and an access that finds it allocated returns it and changes nothing. *)
Lemma prepared_out_memo (sd sd1 : SuperDataset) (b : Z * Z * Z) :
  prepared_out open_collection collection_len sd = inr (b, sd1) ->
  sd_prepared_out sd1 = Some b /\
  prepared_out open_collection collection_len sd1 = inr (b, sd1) /\
  (sd_prepared_out sd = None ->
   exists h, handle_of sd = Some h /\
     b = (Z.of_nat (collection_len h), sd_batch_size sd,
          sd_center_bin_to_predict sd / sd_window_size sd)).
Proof.
  destruct sd as [regions coll path L C W S_ bpe n genome out mw].
  unfold prepared_out, bigwig_collection, resolved_handle. fields.
  destruct out as [b0 |].
  - intros Heq. injection Heq as <- <-. fields.
    split; [reflexivity |]. split; [reflexivity |]. intros; discriminate.
  - destruct coll as [h0 |]; [| destruct path as [p |]]; fields;
      try discriminate;
      (destruct (W =? 0); [discriminate |]);
      (destruct ((S_ <? 0) || (C / W <? 0)); [discriminate |]);
      intros Heq; injection Heq as <- <-; fields;
      (split; [reflexivity |]); (split; [reflexivity |]); intros _;
      eexists; split; reflexivity.
Qed.

(** ** The collection seen from outside *)

Local Abbreviation answers_as :=
  (answer_alike collection_len collection_get_batch).
Local Abbreviation like_sd :=
  (alike_sd open_collection collection_len collection_get_batch).
Local Abbreviation like :=
  (alike open_collection collection_len collection_get_batch).

Lemma like_sd_batch_size (sd sd' : SuperDataset) :
  like_sd sd sd' -> sd_batch_size sd = sd_batch_size sd'.
Proof.
  intros [Heq _]. exact (f_equal sd_batch_size Heq).
Qed.

(** A fetch does the same on two inner datasets whose collections answer
    alike: same outcome, same value, and states that are alike again. *)
Lemma super_next_alike (sd sd' : SuperDataset) :
  like_sd sd sd' ->
  outcome_alike like_sd (super_next sd) (super_next sd').
Proof.
  destruct sd as [regions coll path L C W S_ bpe n genome out mw].
  destruct sd' as [regions' coll' path' L' C' W' S_' bpe' n' genome' out' mw'].
  unfold alike_sd, without_collection, resolved_handle. fields.
  intros [Heq Hh]. injection Heq as <- <- <- <- <- <- <- <- <- <- <-.
  unfold BigWigSuperDataset_next, genome_next. fields.
  destruct (n <? bpe).
  2: { cbn [outcome_alike]. unfold alike_sd, without_collection, resolved_handle.
       fields. split; [reflexivity | exact Hh]. }
  destruct (genome_get_batch _ S_) as [positions sequences].
  destruct positions as [| q positions].
  { cbn [outcome_alike]. unfold alike_sd, without_collection, resolved_handle.
    fields. split; [reflexivity |]. split; [reflexivity | exact Hh]. }
  unfold bigwig_collection, prepared_out, bigwig_collection. fields.
  destruct coll as [h |], coll' as [h' |], path as [p |];
    cbn [option_map] in Hh; try contradiction; fields;
    destruct out as [b |]; fields;
    try (destruct (W =? 0));
    try (destruct ((S_ <? 0) || (C / W <? 0)));
    cbn [outcome_alike];
    unfold alike_sd, without_collection, resolved_handle, scoring_targets;
    fields; cbn [option_map];
    try (pose proof Hh as [Hlen Hget]; rewrite ?Hlen, ?Hget);
    repeat (split; try reflexivity);
    first [exact Hh | apply Hh | intros; apply Hh].
Qed.

(** The slicing part of a call does not look at the collection. *)
Lemma take_batch_alike (d d' : Dataset) :
  like d d' -> outcome_alike like (take_batch d) (take_batch d').
Proof.
  destruct d as [B bpe sd seqs tgts n o].
  destruct d' as [B' bpe' sd' seqs' tgts' n' o'].
  unfold alike. fields. intros (<- & <- & <- & <- & <- & <- & Hsd).
  unfold take_batch. fields.
  destruct seqs as [s |], tgts as [t |]; cbn [outcome_alike];
    unfold alike; fields; repeat (split; [reflexivity |]); exact Hsd.
Qed.

Lemma next_alike (ds ds' : Dataset) :
  like ds ds' -> outcome_alike like (next ds) (next ds').
Proof.
  intros Hrel. pose proof Hrel as (HB & Hbpe & Hs & Ht & Hn & Ho & Hsd).
  unfold BigWigDataset_next. rewrite <- Hn, <- Hbpe.
  destruct (ds_n ds <? ds_batches_per_epoch ds); [| exact Hrel].
  assert (Hrel1 : like (set_ds_n (ds_n ds + 1) ds) (set_ds_n (ds_n ds + 1) ds')).
  { unfold alike. fields. repeat split; assumption || apply Hsd. }
  replace (refill_needed (set_ds_n (ds_n ds + 1) ds'))
    with (refill_needed (set_ds_n (ds_n ds + 1) ds)).
  2: { unfold refill_needed. fields.
       rewrite Hs, Ht, Ho, HB, (like_sd_batch_size _ _ Hsd). reflexivity. }
  destruct (refill_needed (set_ds_n (ds_n ds + 1) ds)).
  - unfold refill. fields.
    pose proof (super_next_alike _ _ Hsd) as Hsuper.
    destruct (super_next (ds_super_dataset ds))
      as [[seqs1 tgts1] sd1 | sd1 | e1 sd1];
      destruct (super_next (ds_super_dataset ds'))
        as [[seqs2 tgts2] sd2 | sd2 | e2 sd2];
      cbn [outcome_alike] in Hsuper; try contradiction.
    + destruct Hsuper as [Hval Hsd1]. injection Hval as <- <-.
      apply take_batch_alike. unfold alike. fields.
      repeat split; assumption || apply Hsd1.
    + cbn [outcome_alike]. unfold alike. fields.
      repeat split; assumption || apply Hsuper.
    + destruct Hsuper as [<- Hsd1]. cbn [outcome_alike]. unfold alike. fields.
      split; [reflexivity |]. repeat split; assumption || apply Hsd1.
  - apply take_batch_alike. exact Hrel1.
Qed.

(** Two datasets whose collections answer alike yield the same batches and
    end the same way, and are alike again afterwards. *)
Lemma run_alike (fuel : nat) (ds ds' : Dataset) :
  like ds ds' ->
  fst (run fuel ds) = fst (run fuel ds') /\
  like (snd (run fuel ds)) (snd (run fuel ds')).
Proof.
  revert ds ds'. induction fuel as [| fuel IH]; intros ds ds' Hrel.
  - cbn. split; [reflexivity | exact Hrel].
  - cbn [drain].
    pose proof (next_alike ds ds' Hrel) as Hstep.
    destruct (next ds) as [b d | d | e d];
      destruct (next ds') as [b' d' | d' | e' d'];
      cbn [outcome_alike] in Hstep; try contradiction.
    + destruct Hstep as [<- Hd].
      destruct (IH d d' Hd) as [Hfst Hsnd].
      destruct (run fuel d) as [[bs e] d1].
      destruct (run fuel d') as [[bs' e'] d1'].
      cbn [fst snd] in *. injection Hfst as <- <-.
      split; [reflexivity | exact Hsnd].
    + cbn [fst snd]. split; [reflexivity | exact Hstep].
    + destruct Hstep as [<- Hd]. cbn [fst snd].
      split; [reflexivity | exact Hd].
Qed.

Lemma iter_alike (ds ds' : Dataset) :
  like ds ds' -> like (BigWigDataset_iter ds) (BigWigDataset_iter ds').
Proof.
  intros (HB & Hbpe & Hs & Ht & Hn & Ho & Heq & Hh).
  unfold alike. fields.
  split; [exact HB |]. split; [exact Hbpe |]. split; [exact Hs |].
  split; [exact Ht |]. split; [reflexivity |]. split; [reflexivity |].
  destruct (ds_super_dataset ds)
    as [regions coll path L C W S_ cap n genome out mw].
  destruct (ds_super_dataset ds')
    as [regions' coll' path' L' C' W' S_' cap' n' genome' out' mw'].
  unfold alike_sd, without_collection, resolved_handle in *. fields.
  injection Heq as <- <- <- <- <- <- <- <- <- <- <-.
  split; [reflexivity | exact Hh].
Qed.

Lemma run_epochs_alike (fuel epochs : nat) (ds ds' : Dataset) :
  like ds ds' ->
  fst (run_epochs genome_get_batch open_collection collection_len
         collection_get_batch smooth fuel epochs ds) =
  fst (run_epochs genome_get_batch open_collection collection_len
         collection_get_batch smooth fuel epochs ds') /\
  like
    (snd (run_epochs genome_get_batch open_collection collection_len
            collection_get_batch smooth fuel epochs ds))
    (snd (run_epochs genome_get_batch open_collection collection_len
            collection_get_batch smooth fuel epochs ds')).
Proof.
  revert ds ds'. induction epochs as [| epochs IH]; intros ds ds' Hrel.
  - cbn. split; [reflexivity | exact Hrel].
  - cbn [run_epochs]. unfold epoch.
    destruct (run_alike fuel _ _ (iter_alike ds ds' Hrel)) as [Hfst Hsnd].
    destruct (run fuel (BigWigDataset_iter ds)) as [[bs e] d].
    destruct (run fuel (BigWigDataset_iter ds')) as [[bs' e'] d'].
    cbn [fst snd] in Hfst, Hsnd. injection Hfst as <- <-.
    destruct (IH d d' Hsnd) as [Hfst' Hsnd'].
    destruct (run_epochs genome_get_batch open_collection collection_len
                collection_get_batch smooth fuel epochs d) as [rest d2].
    destruct (run_epochs genome_get_batch open_collection collection_len
                collection_get_batch smooth fuel epochs d') as [rest' d2'].
    cbn [fst snd] in *. subst rest'. split; [reflexivity | exact Hsnd'].
Qed.

(** What [reset_gpu] is for the dataset itself: it fails with
    [RuntimeError] when there is neither a collection nor a path, and
    otherwise resolves the collection, resets it, and touches nothing
    else. *)
Lemma reset_gpu_spec (ds : Dataset) :
  match handle_of (ds_super_dataset ds) with
  | None =>
      BigWigDataset_reset_gpu open_collection collection_reset_gpu ds =
      inl RuntimeError
  | Some h =>
      BigWigDataset_reset_gpu open_collection collection_reset_gpu ds =
      inr (set_ds_super_dataset
             (set_sd_bigwig_collection (collection_reset_gpu h)
                (ds_super_dataset ds)) ds)
  end.
Proof.
  destruct ds as [B bpe sd seqs tgts n o].
  destruct sd as [regions coll path L C W S_ cap m genome out mw].
  unfold BigWigDataset_reset_gpu, BigWigSuperDataset_reset_gpu,
    bigwig_collection, resolved_handle.
  fields.
  destruct coll as [h |]; [| destruct path as [p |]]; reflexivity.
Qed.

(** X4: [reset_gpu] may be called at any time, between epochs or within
    one. It resolves the collection and resets it; it leaves the cursor,
    the buffers and the fetch count as they are and can be called again.
    If resetting a collection does not change what the collection
    answers (its length, and the rows it returns for a request), the
    batches of the calls and epochs that follow, and the way they end, are
    what they would have been without the reset. *)
Theorem reset_gpu_changes_no_batch (ds ds1 : Dataset) (fuel epochs : nat) :
  (forall h, collection_len (collection_reset_gpu h) = collection_len h) ->
  (forall h cs st en w,
     collection_get_batch (collection_reset_gpu h) cs st en w =
     collection_get_batch h cs st en w) ->
  BigWigDataset_reset_gpu open_collection collection_reset_gpu ds = inr ds1 ->
  ds_n ds1 = ds_n ds /\
  ds_offset ds1 = ds_offset ds /\
  loaded ds1 = loaded ds /\
  fetches ds1 = fetches ds /\
  (exists h,
     handle_of (ds_super_dataset ds) = Some h /\
     sd_bigwig_collection (ds_super_dataset ds1) =
       Some (collection_reset_gpu h)) /\
  (exists ds2,
     BigWigDataset_reset_gpu open_collection collection_reset_gpu ds1 =
     inr ds2) /\
  fst (run fuel ds1) = fst (run fuel ds) /\
  fst (run_epochs genome_get_batch open_collection collection_len
         collection_get_batch smooth fuel epochs ds1) =
  fst (run_epochs genome_get_batch open_collection collection_len
         collection_get_batch smooth fuel epochs ds).
Proof.
  intros Hlen Hget Hreset.
  pose proof (reset_gpu_spec ds) as Hspec.
  destruct (handle_of (ds_super_dataset ds)) as [h |] eqn:Hh; [| congruence].
  rewrite Hspec in Hreset. injection Hreset as <-.
  assert (Hrel : like
            (set_ds_super_dataset
               (set_sd_bigwig_collection (collection_reset_gpu h)
                  (ds_super_dataset ds)) ds) ds).
  { unfold alike. fields. repeat split.
    unfold resolved_handle in *. fields. rewrite Hh.
    split; [apply Hlen | apply Hget]. }
  split; [reflexivity |]. split; [reflexivity |]. split; [reflexivity |].
  split; [reflexivity |].
  split; [exists h; split; reflexivity |].
  split.
  { pose proof (reset_gpu_spec
                  (set_ds_super_dataset
                     (set_sd_bigwig_collection (collection_reset_gpu h)
                        (ds_super_dataset ds)) ds)) as Hagain.
    unfold resolved_handle in Hagain. fields. eexists. exact Hagain. }
  split.
  - exact (proj1 (run_alike fuel _ _ Hrel)).
  - exact (proj1 (run_epochs_alike fuel epochs _ _ Hrel)).
Qed.

(** ** Epochs that deliver every planned batch *)

(** When the fetches allowed hold the planned batches, every one of any
    number of consecutive epochs delivers them all. *)
Lemma epochs_complete (fuel epochs : nat) (ds : Dataset) (h : Handle) :
  let B := ds_batch_size ds in
  let bpe := ds_batches_per_epoch ds in
  let sd := ds_super_dataset ds in
  0 < B -> B <= sd_batch_size sd ->
  sd_window_size sd <> 0 ->
  0 <= sd_center_bin_to_predict sd / sd_window_size sd ->
  handle_of sd = Some h ->
  bpe <= sd_batch_size sd / B * Z.max (sd_batches_per_epoch sd) 0 ->
  (Z.to_nat bpe < fuel)%nat ->
  Forall (fun r => length (fst r) = Z.to_nat bpe /\ snd r = Exhausted)
    (fst (run_epochs genome_get_batch open_collection collection_len
            collection_get_batch smooth fuel epochs ds)).
Proof.
  cbv zeta. revert ds.
  induction epochs as [| epochs IH]; intros ds HB HS HW HCW Hh Hroom Hfuel.
  - cbn. constructor.
  - cbn [run_epochs].
    pose proof (per_super_batch _ _ HB HS) as (Hk1 & _).
    pose proof (held_01 (loaded ds)) as Hheld.
    assert (Hm : delivered (ds_batch_size ds) (sd_batch_size (ds_super_dataset ds))
                   (ds_batches_per_epoch ds)
                   (sd_batches_per_epoch (ds_super_dataset ds))
                   (held_by (loaded ds)) = Z.to_nat (ds_batches_per_epoch ds)).
    { unfold delivered. f_equal.
      remember (Z.max (sd_batches_per_epoch (ds_super_dataset ds)) 0) as M.
      assert (0 <= M) by lia. nia. }
    destruct (epoch_spec fuel ds h HB HS HW HCW Hh
                ltac:(rewrite Hm; exact Hfuel))
      as (ds' & Hrun & HB' & Hbpe' & Hsame & _).
    rewrite Hm in Hrun. rewrite Hrun.
    destruct Hsame as (HsC & HsW & HsS & HsCap & _ & HsH).
    specialize (IH ds').
    rewrite HB', Hbpe', HsC, HsW, HsS, HsCap, HsH in IH.
    specialize (IH HB HS HW HCW Hh Hroom Hfuel).
    destruct (run_epochs genome_get_batch open_collection collection_len
                collection_get_batch smooth fuel epochs ds') as [rest ds2].
    cbn [fst] in *. constructor; [| exact IH].
    cbn [fst snd]. rewrite length_map, length_seq. split; reflexivity.
Qed.

(** X5: When the batch size divides the super-batch size in effect, a
    collection is given and the output buffer can be allocated (the window
    size is not 0 and [center_bin_to_predict // window_size] is not
    negative), every epoch of a new dataset, however many are run,
    delivers exactly [batches_per_epoch] batches and then ends by the
    end-of-sequence signal. *)
Theorem every_epoch_complete_when_divisible
    (cfg : @Config Chrom Handle PathSpec) (ds : Dataset) (h : Handle)
    (fuel epochs : nat) :
  BigWigDataset_init cfg = inr ds ->
  0 < batch_size cfg ->
  window_size cfg <> 0 ->
  0 <= plan_center_bin_to_predict cfg / window_size cfg ->
  collection_handle open_collection (collection cfg) = Some h ->
  plan_super_batch_size cfg mod batch_size cfg = 0 ->
  (Z.to_nat (plan_batches_per_epoch cfg) < fuel)%nat ->
  Forall (fun r =>
            length (fst r) = Z.to_nat (plan_batches_per_epoch cfg) /\
            snd r = Exhausted)
    (fst (run_epochs genome_get_batch open_collection collection_len
            collection_get_batch smooth fuel epochs ds)).
Proof.
  intros Hinit HB HW HCW Hh Hdiv Hfuel.
  destruct (init_inversion cfg ds Hinit) as (HS & H0 & HdB & Hbpe & Hsd & _).
  set (B := batch_size cfg) in *.
  set (S_ := plan_super_batch_size cfg) in *.
  set (bpe := plan_batches_per_epoch cfg) in *.
  set (c := plan_super_batches_per_epoch cfg) in *.
  assert (HsS : sd_batch_size (ds_super_dataset ds) = S_)
    by (rewrite Hsd; reflexivity).
  assert (HsW : sd_window_size (ds_super_dataset ds) = window_size cfg)
    by (rewrite Hsd; reflexivity).
  assert (HsC : sd_center_bin_to_predict (ds_super_dataset ds) =
                plan_center_bin_to_predict cfg)
    by (rewrite Hsd; reflexivity).
  assert (HsH : handle_of (ds_super_dataset ds) = Some h)
    by (rewrite Hsd, inner_handle; assumption).
  pose proof (Z.div_mod S_ B ltac:(lia)) as Hdm. rewrite Hdiv in Hdm.
  assert (Hk : 1 <= S_ / B) by (apply Z.div_le_lower_bound; lia).
  pose proof (proj1 (math_ceil_truediv_spec (B * bpe) S_ c ltac:(lia)) eq_refl)
    as Hceil.
  assert (Hroom : bpe <= S_ / B * Z.max (sd_batches_per_epoch (ds_super_dataset ds)) 0).
  { destruct (Z.eq_dec c 0) as [Hz | Hnz].
    - assert (bpe <= 0) by nia.
      remember (Z.max (sd_batches_per_epoch (ds_super_dataset ds)) 0) as M.
      assert (0 <= M) by lia. nia.
    - rewrite Hsd, inner_cap by exact Hnz. fold c.
      assert (bpe <= S_ / B * c) by nia.
      destruct (Z.le_gt_cases c 0); [| lia]. nia. }
  pose proof (epochs_complete fuel epochs ds h) as Hall. cbv zeta in Hall.
  rewrite HdB, Hbpe, HsS, HsW, HsC in Hall.
  exact (Hall HB HS HW HCW HsH Hroom Hfuel).
Qed.

(** ** The default super-batch size *)

Lemma py_slice_all (A : Type) (l : list A) (B : Z) :
  length l = Z.to_nat B -> 0 <= B -> py_slice l 0 (0 + B) = l.
Proof.
  intros Hlen HB. unfold py_slice, slice_index.
  destruct (Z.ltb_spec 0 0) as [? | _]; [lia |].
  destruct (Z.ltb_spec (0 + B) 0) as [? | _]; [lia |].
  rewrite !Z.min_l by lia.
  change (Z.to_nat 0) with 0%nat. cbn [skipn].
  apply firstn_all2. lia.
Qed.

(** X6: Without a [super_batch_size] (or with 0) the super-batch size is the
    batch size, and the scheduler is transparent: when a collection is
    given and the output buffer can be allocated (the window size is not 0
    and [center_bin_to_predict // window_size] is not negative), the first
    epoch of a new dataset with a positive batch size makes one fetch per
    batch, yields each fetched super-batch whole, in order, and delivers
    all the planned batches. *)
Theorem default_super_batch_is_passed_through
    (cfg : @Config Chrom Handle PathSpec) (ds : Dataset) (h : Handle)
    (fuel : nat) :
  super_batch_size cfg = None \/ super_batch_size cfg = Some 0 ->
  BigWigDataset_init cfg = inr ds ->
  0 < batch_size cfg ->
  window_size cfg <> 0 ->
  0 <= plan_center_bin_to_predict cfg / window_size cfg ->
  collection_handle open_collection (collection cfg) = Some h ->
  (Z.to_nat (plan_batches_per_epoch cfg) < fuel)%nat ->
  sd_batch_size (ds_super_dataset ds) = batch_size cfg /\
  exists ds',
    run_epoch fuel ds =
    (map (super_batch (ds_super_dataset ds) h)
         (seq 0 (Z.to_nat (plan_batches_per_epoch cfg))),
     Exhausted, ds') /\
    fetches ds' = Z.to_nat (plan_batches_per_epoch cfg).
Proof.
  intros Hnone Hinit HB HW HCW Hh Hfuel.
  assert (HS : plan_super_batch_size cfg = batch_size cfg).
  { unfold plan_super_batch_size. destruct Hnone as [-> | ->]; reflexivity. }
  destruct (init_inversion cfg ds Hinit) as (_ & _ & _ & _ & Hsd & _).
  assert (HsS : sd_batch_size (ds_super_dataset ds) = batch_size cfg).
  { rewrite Hsd. cbn. exact HS. }
  split; [exact HsS |].
  set (B := batch_size cfg) in *.
  set (bpe := plan_batches_per_epoch cfg) in *.
  assert (Hc : plan_super_batches_per_epoch cfg = bpe).
  { unfold plan_super_batches_per_epoch. fold B bpe. rewrite HS.
    apply math_ceil_truediv_spec; lia. }
  assert (Hk : B / B = 1) by (apply Z.div_same; lia).
  assert (Hm : Z.to_nat (Z.min bpe (B / B * Z.max bpe 0)) = Z.to_nat bpe).
  { rewrite Hk. lia. }
  destruct (first_epoch cfg ds h fuel Hinit HB HW HCW Hh)
    as (ds' & Hrun & _ & Hf & _).
  { fold B bpe. rewrite HS, Hc, Hm. exact Hfuel. }
  fold B bpe in Hrun, Hf. rewrite HS, Hc, Hm in Hrun, Hf.
  exists ds'. split.
  - rewrite Hrun. f_equal. f_equal.
    apply map_ext_in. intros i _.
    unfold nth_batch. rewrite Hk, Z.mod_1_r, Z.div_1_r, Nat2Z.id.
    cbn [nth_super_batch]. change (0 + i)%nat with i.
    destruct (super_batch_rows (ds_super_dataset ds) h i) as [Hl1 Hl2].
    rewrite HsS in Hl1, Hl2.
    destruct (super_batch (ds_super_dataset ds) h i) as [seqs tgts].
    cbn [fst snd] in *. change (0 * B) with 0.
    rewrite !py_slice_all by (assumption || lia). reflexivity.
  - destruct (Nat.eqb_spec (Z.to_nat bpe) 0) as [Hz | Hnz].
    + lia.
    + rewrite Hk, Z.div_1_r in Hf. lia.
Qed.

(** ** Rows fetched and rows yielded *)

(** X7: When the batch size divides the super-batch size and the number of
    batches per super-batch divides the planned number of batches, the
    first epoch of a new dataset (with a collection given and an output
    buffer that can be allocated: the window size is not 0 and
    [center_bin_to_predict // window_size] is not negative) wastes
    nothing: it yields as many rows as it fetches, and every row of every
    super-batch it fetches is in exactly one batch. *)
Theorem no_row_wasted (cfg : @Config Chrom Handle PathSpec) (ds : Dataset)
    (h : Handle) (fuel : nat) :
  let B := batch_size cfg in
  let S_ := plan_super_batch_size cfg in
  let bpe := plan_batches_per_epoch cfg in
  BigWigDataset_init cfg = inr ds ->
  0 < B ->
  window_size cfg <> 0 ->
  0 <= plan_center_bin_to_predict cfg / window_size cfg ->
  collection_handle open_collection (collection cfg) = Some h ->
  S_ mod B = 0 ->
  0 <= bpe ->
  bpe mod (S_ / B) = 0 ->
  (Z.to_nat bpe < fuel)%nat ->
  exists ds',
    run_epoch fuel ds =
    (map (batch_from B None (ds_super_dataset ds) h 0)
         (slices B S_ (Z.to_nat bpe)),
     Exhausted, ds') /\
    Z.of_nat (fetches ds') * S_ = bpe * B /\
    forall (j : nat) (r : Z),
      (j < fetches ds')%nat -> 0 <= r < S_ ->
      length (filter (covers B j r) (slices B S_ (Z.to_nat bpe))) = 1%nat.
Proof.
  intros B S_ bpe Hinit HB HW HCW Hh Hdiv Hbpe Hwhole Hfuel.
  destruct (init_inversion cfg ds Hinit) as (HS & H0 & _).
  fold B S_ in HS, H0.
  pose proof (Z.div_mod S_ B ltac:(lia)) as Hdm. rewrite Hdiv in Hdm.
  assert (Hk : 1 <= S_ / B) by (apply Z.div_le_lower_bound; lia).
  set (k := S_ / B) in *.
  pose proof (Z.div_mod bpe k ltac:(lia)) as Hbdm. rewrite Hwhole in Hbdm.
  assert (Hq : 0 <= bpe / k) by (apply Z.div_pos; lia).
  pose proof (proj1 (math_ceil_truediv_spec (B * bpe) S_
                       (plan_super_batches_per_epoch cfg) ltac:(lia))
                eq_refl) as Hceil.
  fold B S_ bpe in Hceil.
  set (c := plan_super_batches_per_epoch cfg) in *.
  assert (Hm : Z.to_nat (Z.min bpe (k * Z.max c 0)) = Z.to_nat bpe).
  { assert (bpe <= k * c) by nia. f_equal. nia. }
  destruct (first_epoch cfg ds h fuel Hinit HB HW HCW Hh)
    as (ds' & Hrun & _ & Hf & _).
  { fold B S_ bpe c k. rewrite Hm. exact Hfuel. }
  fold B S_ bpe c k in Hrun, Hf. rewrite Hm in Hrun, Hf.
  assert (Hfetch : Z.of_nat (fetches ds') = bpe / k).
  { rewrite Hf. destruct (Nat.eqb_spec (Z.to_nat bpe) 0) as [Hz | Hnz].
    - assert (bpe = 0) by lia. nia.
    - rewrite Z2Nat.id by lia.
      assert (Hx : bpe / k - 1 = (bpe - 1) / k)
        by (apply (Z.div_unique (bpe - 1) k (bpe / k - 1) (k - 1)); lia).
      lia. }
  exists ds'. split; [| split].
  - rewrite Hrun. unfold slices. rewrite map_map. reflexivity.
  - rewrite Hfetch. nia.
  - intros j r Hj Hr.
    rewrite rows_covered; try assumption.
    + destruct (Z.ltb_spec r (S_ - S_ mod B)); [reflexivity | lia].
    + fold k. rewrite Z2Nat.id by lia. nia.
Qed.

(** ** The epoch arithmetic of the constructors *)

(** X8: The default number of batches per epoch is the largest number of
    batches of [batch_size] windows of [sequence_length] bases that the
    regions can hold; flooring at each step or once makes no difference. *)
Theorem default_batches_fit_the_regions (cfg : @Config Chrom Handle PathSpec) :
  let B := batch_size cfg in
  let L := sequence_length cfg in
  let R := total_bases (regions_of_interest cfg) in
  let bpe := plan_batches_per_epoch cfg in
  batches_per_epoch cfg = None \/ batches_per_epoch cfg = Some 0 ->
  0 < B -> 0 < L ->
  bpe = R / (L * B) /\
  bpe * (L * B) <= R < (bpe + 1) * (L * B) /\
  sd_batches_per_epoch (BigWigSuperDataset_init cfg) = bpe.
Proof.
  intros B L R bpe Hnone HB HL.
  assert (Hbpe : bpe = R / L / B).
  { unfold bpe, plan_batches_per_epoch, default_batches_per_epoch.
    destruct Hnone as [-> | ->]; reflexivity. }
  assert (Hone : R / L / B = R / (L * B)) by (apply Z.div_div; lia).
  split; [congruence |]. split.
  - rewrite Hbpe, Hone.
    pose proof (Z.div_mod R (L * B) ltac:(nia)) as Hdm.
    pose proof (Z.mod_pos_bound R (L * B) ltac:(nia)) as Hr.
    nia.
  - reflexivity.
Qed.

(** X9: For a valid configuration with a non-negative plan, the number of
    super-batches per epoch is between 0 and the number of batches, is 0
    only for an empty plan, holds at least the rows of the planned
    batches, and equals the number of batches when the super-batch size is
    the batch size. *)
Theorem super_batches_bounded (cfg : @Config Chrom Handle PathSpec) :
  let B := batch_size cfg in
  let S_ := plan_super_batch_size cfg in
  let bpe := plan_batches_per_epoch cfg in
  let c := plan_super_batches_per_epoch cfg in
  0 < B -> B <= S_ -> 0 <= bpe ->
  0 <= c <= bpe /\
  (c = 0 <-> bpe = 0) /\
  B * bpe <= c * S_ /\
  (S_ = B -> c = bpe).
Proof.
  intros B S_ bpe c HB HS Hbpe.
  pose proof (proj1 (math_ceil_truediv_spec (B * bpe) S_ c ltac:(lia)) eq_refl)
    as Hceil.
  split; [nia |]. split; [split; nia |]. split; [nia |].
  intros HSB. rewrite HSB in Hceil. nia.
Qed.

(** ** A window size of 0 *)

Lemma super_next_zero_window (sd : SuperDataset) (h : Handle) :
  sd_n sd < sd_batches_per_epoch sd ->
  0 < sd_batch_size sd ->
  sd_window_size sd = 0 ->
  sd_prepared_out sd = None ->
  handle_of sd = Some h ->
  exists sd',
    super_next sd = Raise ZeroDivisionError sd' /\
    calls sd' = S (calls sd) /\
    sd_bigwig_collection sd' = Some h /\
    sd_prepared_out sd' = None.
Proof.
  destruct sd as [regions coll path L C W S_ bpe n genome out mw].
  unfold resolved_handle, calls. fields.
  intros Hn HS -> -> Hh.
  unfold BigWigSuperDataset_next, genome_next. fields.
  destruct (Z.ltb_spec n bpe) as [_ | ?]; [| lia].
  pose proof (genome_positions (match genome with Some c => c | None => O end) S_)
    as Hlen.
  destruct (genome_get_batch _ S_) as [positions sequences].
  cbn [fst] in Hlen.
  destruct positions as [| p positions]; [cbn in Hlen; lia |].
  unfold bigwig_collection, prepared_out, bigwig_collection. fields.
  destruct coll as [h0 |]; [| destruct path as [pth |]];
    cbn [option_map] in Hh; try discriminate;
    injection Hh as <-; fields; cbn [Z.eqb];
    eexists; repeat split.
Qed.

(** X10: With [window_size = 0] the constructor succeeds; the first fetch
    raises [ZeroDivisionError] when it sizes the output buffer, after the
    genome has served its batch and the collection has been resolved, and
    no batch is yielded. *)
Theorem zero_window_size_fails_at_first_fetch
    (cfg : @Config Chrom Handle PathSpec) (ds : Dataset) (h : Handle)
    (fuel : nat) :
  BigWigDataset_init cfg = inr ds ->
  window_size cfg = 0 ->
  0 < batch_size cfg ->
  0 < plan_batches_per_epoch cfg ->
  collection_handle open_collection (collection cfg) = Some h ->
  exists ds',
    run_epoch (S fuel) ds = ([], Failed ZeroDivisionError, ds') /\
    fetches ds' = 1%nat /\
    sd_bigwig_collection (ds_super_dataset ds') = Some h /\
    sd_prepared_out (ds_super_dataset ds') = None /\
    loaded ds' = None.
Proof.
  intros Hinit HW HB Hbpe Hh.
  destruct (init_inversion cfg ds Hinit)
    as (HS & H0 & HdB & Hdbpe & Hsd & Hload & Hn & Hoff).
  assert (Hcap : 0 < plan_super_batches_per_epoch cfg).
  { apply math_ceil_truediv_pos; nia. }
  destruct (super_next_zero_window
              (BigWigSuperDataset_iter (ds_super_dataset ds)) h)
    as (sd' & Hraise & Hcalls & Hcoll & Hout).
  { fields. rewrite Hsd, inner_cap; lia. }
  { fields. rewrite Hsd. cbn. lia. }
  { fields. rewrite Hsd. exact HW. }
  { fields. rewrite Hsd. reflexivity. }
  { unfold resolved_handle. fields. fold (handle_of (ds_super_dataset ds)).
    rewrite Hsd, inner_handle. exact Hh. }
  assert (Hnext : next (BigWigDataset_iter ds) =
                  Raise ZeroDivisionError
                    (set_ds_super_dataset sd'
                       (set_ds_n (0 + 1) (BigWigDataset_iter ds)))).
  { unfold BigWigDataset_next. fields. rewrite Hdbpe.
    destruct (Z.ltb_spec 0 (plan_batches_per_epoch cfg)) as [_ | ?]; [| lia].
    assert (Hre : refill_needed
                    (set_ds_n (0 + 1) (BigWigDataset_iter ds)) = true).
    { apply loaded_none_refill. exact Hload. }
    fields. rewrite Hre. unfold refill. fields. rewrite Hraise. reflexivity. }
  eexists. split.
  { unfold epoch. cbn [drain]. rewrite Hnext. reflexivity. }
  unfold fetches, loaded in *. fields.
  split.
  { rewrite Hcalls. unfold calls. fields. rewrite Hsd. reflexivity. }
  split; [exact Hcoll |]. split; [exact Hout | exact Hload].
Qed.

(** X11: The two lazy properties resolve once. The first access of
    [bigwig_collection] stores the handle (a collection given to the
    constructor is kept, a path is opened), the first access of [_out]
    allocates a buffer of shape
    [(len(collection), batch_size, center_bin_to_predict // window_size)];
    every later access returns the same handle, the same buffer, and
    changes nothing. *)
Theorem lazy_properties_resolve_once (sd : SuperDataset) :
  (forall h sd1,
     bigwig_collection open_collection sd = inr (h, sd1) ->
     sd_bigwig_collection sd1 = Some h /\
     bigwig_collection open_collection sd1 = inr (h, sd1)) /\
  (forall h, sd_bigwig_collection sd = Some h ->
     bigwig_collection open_collection sd = inr (h, sd)) /\
  (forall b sd1,
     prepared_out open_collection collection_len sd = inr (b, sd1) ->
     sd_prepared_out sd1 = Some b /\
     prepared_out open_collection collection_len sd1 = inr (b, sd1) /\
     (sd_prepared_out sd = None ->
      exists h, handle_of sd = Some h /\
        b = (Z.of_nat (collection_len h), sd_batch_size sd,
             sd_center_bin_to_predict sd / sd_window_size sd))).
Proof.
  split; [| split].
  - intros h sd1 Heq.
    destruct (bigwig_collection_memo sd sd1 h Heq) as (_ & _ & H1 & H2).
    split; assumption.
  - intros h Hh. unfold bigwig_collection. rewrite Hh. reflexivity.
  - intros b sd1 Heq. exact (prepared_out_memo sd sd1 b Heq).
Qed.

(** X12: The first epoch of a newly built dataset with a collection given
    and an output buffer that can be allocated (the window size is not 0
    and [center_bin_to_predict // window_size] is not negative), for any
    sizes. With
    [k = super_batch_size // batch_size] batches cut from each super-batch
    and [c = ceil(batch_size * batches_per_epoch / super_batch_size)]
    super-batches allowed, the loop yields
    [m = min(batches_per_epoch, k * max(c, 0))] batches, the [i]-th being
    rows [(i mod k) * batch_size] onwards of super-batch [i / k]; it ends
    by the end-of-sequence signal, never by an exception; the genome has
    been asked [(m - 1) / k + 1] times (not at all when [m = 0]); and each
    batch has [batch_size] rows. *)
Theorem first_epoch_in_closed_form (cfg : @Config Chrom Handle PathSpec)
    (ds : Dataset) (h : Handle) (fuel : nat) :
  let B := batch_size cfg in
  let S_ := plan_super_batch_size cfg in
  let bpe := plan_batches_per_epoch cfg in
  let c := plan_super_batches_per_epoch cfg in
  let m := Z.to_nat (Z.min bpe (S_ / B * Z.max c 0)) in
  BigWigDataset_init cfg = inr ds ->
  0 < B ->
  window_size cfg <> 0 ->
  0 <= plan_center_bin_to_predict cfg / window_size cfg ->
  collection_handle open_collection (collection cfg) = Some h ->
  (m < fuel)%nat ->
  exists ds',
    run_epoch fuel ds =
    (map (batch B S_ None (ds_super_dataset ds) h 0) (seq 0 m), Exhausted, ds') /\
    ds_n ds' = (if bpe <=? Z.of_nat m then Z.of_nat m else Z.of_nat m + 1) /\
    Z.of_nat (fetches ds') =
      (if Nat.eqb m 0 then 0 else (Z.of_nat m - 1) / (S_ / B) + 1) /\
    (forall b, In b (map (batch B S_ None (ds_super_dataset ds) h 0) (seq 0 m)) ->
       length (fst b) = Z.to_nat B /\ length (snd b) = Z.to_nat B).
Proof.
  exact (first_epoch cfg ds h fuel).
Qed.

End Scheduler.

(** * The PyTorch adapter *)

Section AdapterProperties.

Context {Chrom Seq Row Handle PathSpec SeqTensor TargetTensor : Type}.
Variable genome_get_batch : nat -> Z -> list (Chrom * Z) * list Seq.
Variable open_collection : PathSpec -> Handle.
Variable collection_len : Handle -> nat.
Variable collection_get_batch :
  Handle -> list Chrom -> list Z -> list Z -> Z -> list Row.
Variable smooth : list Row -> Z -> list Row.
Variable float_tensor : list Seq -> SeqTensor.
Variable as_tensor_cuda : list Row -> TargetTensor.

Local Abbreviation wrap :=
  (@Build_PytorchBigWigDataset Chrom Seq Row Handle PathSpec).
Local Abbreviation cast := (to_tensors float_tensor as_tensor_cuda).

(** The adapter adds nothing to the iteration but the two casts: a loop
    over it yields the batches of the wrapped dataset, each cast, in the
    same order; it ends as the loop over the wrapped dataset ends, end of
    sequence or exception alike, and leaves the wrapped dataset in the
    same state. *)
Theorem pytorch_loop_is_cast_loop (fuel : nat)
    (ds : @BigWigDataset Chrom Seq Row Handle PathSpec) :
  pytorch_drain genome_get_batch open_collection collection_len
    collection_get_batch smooth float_tensor as_tensor_cuda fuel (wrap ds) =
  (map cast
     (fst (fst (drain genome_get_batch open_collection collection_len
                  collection_get_batch smooth fuel ds))),
   snd (fst (drain genome_get_batch open_collection collection_len
               collection_get_batch smooth fuel ds)),
   wrap (snd (drain genome_get_batch open_collection collection_len
                collection_get_batch smooth fuel ds))).
Proof.
  revert ds. induction fuel as [| fuel IH]; intros ds; [reflexivity |].
  cbn [pytorch_drain drain]. unfold PytorchBigWigDataset_next.
  cbn [pt_dataset].
  destruct (BigWigDataset_next genome_get_batch open_collection collection_len
              collection_get_batch smooth ds) as [b ds' | ds' | e ds'];
    [| reflexivity | reflexivity].
  rewrite (IH ds').
  destruct (drain genome_get_batch open_collection collection_len
              collection_get_batch smooth fuel ds') as [[bs e] ds''].
  reflexivity.
Qed.

(** X13: An epoch over the adapter, [iter] included, yields the batches
    of the epoch of the wrapped dataset, each cast by the two tensor
    casts, in the same order; it ends the same way and leaves the wrapped
    dataset in the same state. *)
Corollary pytorch_epoch_is_cast_epoch (fuel : nat)
    (ds : @BigWigDataset Chrom Seq Row Handle PathSpec) :
  pytorch_epoch genome_get_batch open_collection collection_len
    collection_get_batch smooth float_tensor as_tensor_cuda fuel (wrap ds) =
  (map cast
     (fst (fst (epoch genome_get_batch open_collection collection_len
                  collection_get_batch smooth fuel ds))),
   snd (fst (epoch genome_get_batch open_collection collection_len
               collection_get_batch smooth fuel ds)),
   wrap (snd (epoch genome_get_batch open_collection collection_len
                collection_get_batch smooth fuel ds))).
Proof.
  unfold pytorch_epoch, epoch, PytorchBigWigDataset_iter. cbn [pt_dataset].
  apply pytorch_loop_is_cast_loop.
Qed.

End AdapterProperties.

(** * The claims on concrete inputs *)

Lemma demo_genome_positions (c : nat) (s : Z) :
  length (fst (demo_genome_get_batch c s)) = Z.to_nat s.
Proof.
  unfold demo_genome_get_batch. cbn [fst].
  rewrite length_map, length_seq. reflexivity.
Qed.

(** C1, on the code. With [batch_size = 2], [super_batch_size = 3] and
    [batches_per_epoch = 3] the configuration is valid and the dataset is
    built with three batches planned, yet the first epoch yields two
    batches and then ends: two fetches are allowed, each holds one batch,
    and the third call finds the inner iterator at its cap. *)
Theorem C1_epoch_falls_short :
  let cfg := demo_config (Collection 7%nat) 2 (Some 3) (Some 3) in
  demo_init cfg = inr (demo_built cfg) /\
  ds_batches_per_epoch (demo_built cfg) = 3 /\
  sd_batches_per_epoch (ds_super_dataset (demo_built cfg)) = 2 /\
  fst (demo_epoch 20 (demo_built cfg)) =
    ([ ([(0, 0); (0, 1)]%nat, [(-500, 500); (-499, 501)]);
       ([(1, 0); (1, 1)]%nat, [(500, 1500); (501, 1501)]) ],
     Exhausted) /\
  ds_n (demo_after_epoch cfg) = 3.
Proof. vm_compute. repeat split. Qed.

(** C6, on the code. With [batch_size = 2], [super_batch_size = 3] and
    [batches_per_epoch = 6], after a first epoch and [reset_gpu], starting
    a new epoch puts the cursor back at (0, 0) and keeps the super-batch in
    place, but the epoch yields five batches, not six, before it ends. *)
Theorem C6_second_epoch_falls_short :
  let cfg := demo_config (Collection 7%nat) 2 (Some 3) (Some 6) in
  let ds1 := demo_after_reset cfg in
  demo_init cfg = inr (demo_built cfg) /\
  ds_batches_per_epoch (demo_built cfg) = 6 /\
  demo_reset_gpu (demo_after_epoch cfg) = inr ds1 /\
  ds_n (BigWigDataset_iter ds1) = 0 /\
  ds_offset (BigWigDataset_iter ds1) = 0 /\
  loaded (BigWigDataset_iter ds1) = loaded (demo_after_epoch cfg) /\
  loaded (demo_after_epoch cfg) <> None /\
  length (fst (fst (demo_epoch 20 ds1))) = 5%nat /\
  snd (fst (demo_epoch 20 ds1)) = Exhausted.
Proof. vm_compute. repeat split. discriminate. Qed.

(** C2 fails as stated. With [batch_size = 1], [super_batch_size = 2]
    (so [S mod B = 0]) and [batches_per_epoch = 1], the one super-batch
    fetched has two rows; the two first epochs each yield its row 0 and
    never its row 1, and no further fetch is made. *)
Lemma C2_rows_lost_and_repeated :
  let cfg := demo_config (Collection 7%nat) 1 (Some 2) (Some 1) in
  plan_super_batch_size cfg mod batch_size cfg = 0 /\
  fst (fetched demo_genome_get_batch demo_collection_get_batch demo_smooth
         (ds_super_dataset (demo_built cfg)) 7%nat 0) = [(0, 0); (0, 1)]%nat /\
  demo_run 20 2 cfg =
    inr [ ([ ([(0, 0)]%nat, [(-500, 500)]) ], Exhausted, 1%nat);
          ([ ([(0, 0)]%nat, [(-500, 500)]) ], Exhausted, 1%nat) ] /\
  flat_map fst (flat_map (fun e => fst (fst e)) (demo_epochs 20 2 (demo_built cfg)))
    = [(0, 0); (0, 0)]%nat.
Proof. vm_compute. repeat split. Qed.

(** C3 fails as stated. An explicit [batches_per_epoch = 0] is not kept:
    over 10000 bases with [sequence_length = 1000] and [batch_size = 4]
    the dataset plans 2 batches. *)
Lemma C3_explicit_zero_is_replaced :
  let cfg := demo_config (Collection 7%nat) 4 (Some 8) (Some 0) in
  batches_per_epoch cfg = Some 0 /\
  demo_init cfg = inr (demo_built cfg) /\
  ds_batches_per_epoch (demo_built cfg) = 2 /\
  Some (ds_batches_per_epoch (demo_built cfg)) <> batches_per_epoch cfg.
Proof. vm_compute. repeat split. discriminate. Qed.

(** C4 fails as stated. [super_batch_size = 0] is below [batch_size = 4],
    yet the constructor raises nothing and the dataset yields batches. *)
Lemma C4_zero_super_batch_size_accepted :
  let cfg := demo_config (Collection 7%nat) 4 (Some 0) None in
  super_batch_size cfg = Some 0 /\
  batch_size cfg = 4 /\
  demo_init cfg = inr (demo_built cfg) /\
  demo_init cfg <> inl AttributeError /\
  length (fst (fst (demo_epoch 20 (demo_built cfg)))) = 2%nat.
Proof. vm_compute. repeat split. discriminate. Qed.

(** C7 fails as stated. With [batch_size = 2], [super_batch_size = 4] and
    [batches_per_epoch = 1], the first batch of the second epoch is the
    batch the first epoch yielded, and no fetch is made for it. *)
Lemma C7_new_epoch_reuses_old_rows :
  let cfg := demo_config (Collection 7%nat) 2 (Some 4) (Some 1) in
  let ds1 := demo_after_epoch cfg in
  fst (demo_epoch 20 (demo_built cfg)) =
    ([ ([(0, 0); (0, 1)]%nat, [(-500, 500); (-499, 501)]) ], Exhausted) /\
  fetches ds1 = 1%nat /\
  demo_next (BigWigDataset_iter ds1) =
    Yield ([(0, 0); (0, 1)]%nat, [(-500, 500); (-499, 501)])
          (state_after (demo_next (BigWigDataset_iter ds1))) /\
  fetches (state_after (demo_next (BigWigDataset_iter ds1))) = 1%nat.
Proof. vm_compute. repeat split. Qed.

(** C8 fails as stated. Without a collection and without a path the
    constructor returns a dataset; the error comes with the first call of
    [__next__]. *)
Lemma C8_construction_succeeds :
  let cfg := demo_config NoCollection 1 (Some 2) (Some 1) in
  collection cfg = NoCollection /\
  demo_init cfg = inr (demo_built cfg) /\
  (forall e, demo_init cfg <> inl e) /\
  fst (demo_epoch 20 (demo_built cfg)) = ([], Failed RuntimeError).
Proof. vm_compute. repeat split. discriminate. Qed.

(** C9, on the code. [PytorchBigWigDataset] declares
    [center_bin_to_predict = 200] in its signature, so a call that omits
    the argument scores windows of 200 bases whatever the sequence length,
    where its docstring and the claim say the sequence length:
    with [sequence_length = 1000] and [batch_size = 2], the first batch
    holds the windows [-100, 100) and [-99, 101) around positions 0 and 1.
    [BigWigDataset], called with the same arguments, uses 1000 and scores
    [-500, 500) and [-499, 501). *)
Theorem C9_pytorch_default_is_200 :
  let call := demo_call_with_batch_size 2 in
  call_center_bin_to_predict call = Omitted /\
  sequence_length (pytorch_signature call) = 1000 /\
  (forall (c : @Call nat nat nat)
          (ds : @BigWigDataset nat (nat * nat) (Z * Z) nat nat),
     call_center_bin_to_predict c = Omitted ->
     PytorchBigWigDataset_init c = inr ds ->
     sd_center_bin_to_predict (ds_super_dataset ds) = 200) /\
  (exists ds : @BigWigDataset nat (nat * nat) (Z * Z) nat nat,
     PytorchBigWigDataset_init call = inr ds /\
     sd_sequence_length (ds_super_dataset ds) = 1000 /\
     sd_center_bin_to_predict (ds_super_dataset ds) = 200 /\
     hd_error (fst (fst (demo_epoch 20 ds))) =
       Some ([(0, 0); (0, 1)]%nat, [(-100, 100); (-99, 101)])) /\
  (exists ds : @BigWigDataset nat (nat * nat) (Z * Z) nat nat,
     BigWigDataset_init (dataset_signature call) = inr ds /\
     sd_center_bin_to_predict (ds_super_dataset ds) = 1000 /\
     hd_error (fst (fst (demo_epoch 20 ds))) =
       Some ([(0, 0); (0, 1)]%nat, [(-500, 500); (-499, 501)])).
Proof.
  intros call.
  split; [reflexivity |]. split; [reflexivity |]. split; [| split].
  - intros c ds Hc.
    unfold PytorchBigWigDataset_init, BigWigDataset_init.
    destruct (_ <? _); [discriminate |].
    destruct (_ =? 0); [discriminate |].
    intros Heq. injection Heq as <-.
    cbn [ds_super_dataset BigWigSuperDataset_init sd_center_bin_to_predict
         super_config center_bin_to_predict sequence_length
         pytorch_signature].
    rewrite Hc. reflexivity.
  - eexists. split; [vm_compute; reflexivity |]. vm_compute. repeat split.
  - eexists. split; [vm_compute; reflexivity |]. vm_compute. repeat split.
Qed.

(** * The theorems at concrete inputs *)

(** Closed side conditions, by evaluation. *)
Ltac by_eval :=
  vm_compute; repeat split; first [reflexivity | discriminate | lia].

(** C2 at [batch_size = 2], [super_batch_size = 5], [batches_per_epoch = 4]:
    row 3 of the first super-batch is in one batch, row 4 in none. *)
Lemma C2_refill_policy_witness :
  let ds := demo_built (demo_config (Collection 7%nat) 2 (Some 5) (Some 4)) in
  0 < ds_batch_size ds /\
  ds_batch_size ds <= sd_batch_size (ds_super_dataset ds) /\
  sd_window_size (ds_super_dataset ds) <> 0 /\
  0 <= sd_center_bin_to_predict (ds_super_dataset ds) /
       sd_window_size (ds_super_dataset ds) /\
  resolved_handle demo_open_collection (ds_super_dataset ds) = Some 7%nat /\
  (exists ds',
     demo_epoch 20 ds =
     (map (batch_at demo_genome_get_batch demo_collection_get_batch demo_smooth
             2 None (ds_super_dataset ds) 7%nat 0)
          (slices 2 5 4),
      Exhausted, ds')) /\
  length (filter (covers 2 0 3) (slices 2 5 4)) = 1%nat /\
  length (filter (covers 2 0 4) (slices 2 5 4)) = 0%nat.
Proof.
  intros ds.
  assert (H1 : 0 < ds_batch_size ds) by by_eval.
  assert (H2 : ds_batch_size ds <= sd_batch_size (ds_super_dataset ds))
    by by_eval.
  assert (H3 : sd_window_size (ds_super_dataset ds) <> 0) by by_eval.
  assert (Hw : 0 <= sd_center_bin_to_predict (ds_super_dataset ds) /
                    sd_window_size (ds_super_dataset ds)) by by_eval.
  assert (H4 : resolved_handle demo_open_collection (ds_super_dataset ds) =
               Some 7%nat) by by_eval.
  destruct (C2_refill_policy demo_genome_get_batch demo_open_collection
              demo_collection_len demo_collection_get_batch demo_smooth
              demo_genome_positions ds 7%nat 20%nat H1 H2 H3 Hw H4
              ltac:(by_eval)) as (_ & Hrun & Hcov).
  split; [exact H1 |]. split; [exact H2 |]. split; [exact H3 |].
  split; [exact Hw |].
  split; [exact H4 |]. split; [exact Hrun |]. split.
  - exact (Hcov 0%nat 3 ltac:(by_eval) ltac:(by_eval)).
  - exact (Hcov 0%nat 4 ltac:(by_eval) ltac:(by_eval)).
Defined.

(** C3 on 10000 bases with [sequence_length = 1000] and [batch_size = 4]. *)
Lemma C3_batches_per_epoch_witness :
  let cfg := demo_config (Collection 7%nat) 4 (Some 8) None in
  0 < batch_size cfg /\
  0 < sequence_length cfg /\
  batch_size cfg <= plan_super_batch_size cfg /\
  exists ds : @BigWigDataset nat (nat * nat) (Z * Z) nat nat,
    BigWigDataset_init cfg = inr ds /\
    ds_batches_per_epoch ds = 10000 / 1000 / 4.
Proof.
  intros cfg.
  assert (H1 : 0 < batch_size cfg) by by_eval.
  assert (H2 : 0 < sequence_length cfg) by by_eval.
  assert (H3 : batch_size cfg <= plan_super_batch_size cfg) by by_eval.
  destruct (C3_batches_per_epoch demo_genome_get_batch demo_open_collection
              demo_collection_len demo_collection_get_batch demo_smooth
              cfg H1 H2 H3) as (ds & Hinit & _ & Hdefault).
  split; [exact H1 |]. split; [exact H2 |]. split; [exact H3 |].
  exists ds. split; [exact Hinit |].
  exact (proj1 (Hdefault (or_introl eq_refl))).
Defined.

(** C4 at [super_batch_size = 3] and [batch_size = 4]. *)
Lemma C4_super_batch_size_witness :
  let cfg := demo_config (Collection 7%nat) 4 (Some 3) None in
  super_batch_size cfg = Some 3 /\
  3 <> 0 /\
  3 < batch_size cfg /\
  demo_init cfg = inl AttributeError.
Proof.
  intros cfg.
  assert (H1 : super_batch_size cfg = Some 3) by reflexivity.
  assert (H2 : 3 <> 0) by discriminate.
  assert (H3 : 3 < batch_size cfg) by by_eval.
  split; [exact H1 |]. split; [exact H2 |]. split; [exact H3 |].
  exact (proj1 (proj1 (C4_super_batch_size demo_genome_get_batch
                         demo_open_collection demo_collection_len
                         demo_collection_get_batch demo_smooth cfg)
                  3 H1 H2 H3)).
Defined.

(** C7 on a dataset that has run one epoch. *)
Lemma C7_epoch_boundary_witness :
  let ds := demo_after_epoch (demo_config (Collection 7%nat) 2 (Some 4) (Some 1)) in
  0 < ds_batch_size ds /\
  ds_batch_size ds <= sd_batch_size (ds_super_dataset ds) /\
  0 < ds_batches_per_epoch ds /\
  0 < sd_batches_per_epoch (ds_super_dataset ds) /\
  sd_window_size (ds_super_dataset ds) <> 0 /\
  0 <= sd_center_bin_to_predict (ds_super_dataset ds) /
       sd_window_size (ds_super_dataset ds) /\
  resolved_handle demo_open_collection (ds_super_dataset ds) = Some 7%nat /\
  ds_n (BigWigDataset_iter ds) = 0 /\
  ds_offset (BigWigDataset_iter ds) = 0 /\
  loaded (BigWigDataset_iter ds) = loaded ds /\
  sd_prepared_out (ds_super_dataset (BigWigDataset_iter ds)) =
  sd_prepared_out (ds_super_dataset ds).
Proof.
  intros ds.
  assert (H1 : 0 < ds_batch_size ds) by by_eval.
  assert (H2 : ds_batch_size ds <= sd_batch_size (ds_super_dataset ds))
    by by_eval.
  assert (H3 : 0 < ds_batches_per_epoch ds) by by_eval.
  assert (H4 : 0 < sd_batches_per_epoch (ds_super_dataset ds)) by by_eval.
  assert (H5 : sd_window_size (ds_super_dataset ds) <> 0) by by_eval.
  assert (Hw : 0 <= sd_center_bin_to_predict (ds_super_dataset ds) /
                    sd_window_size (ds_super_dataset ds)) by by_eval.
  assert (H6 : resolved_handle demo_open_collection (ds_super_dataset ds) =
               Some 7%nat) by by_eval.
  destruct (C7_epoch_boundary demo_genome_get_batch demo_open_collection
              demo_collection_len demo_collection_get_batch demo_smooth
              demo_genome_positions ds 7%nat H1 H2 H3 H4 H5 Hw H6)
    as ((Hn & Hoff & Hload & Hout) & _).
  split; [exact H1 |]. split; [exact H2 |]. split; [exact H3 |].
  split; [exact H4 |]. split; [exact H5 |]. split; [exact Hw |].
  split; [exact H6 |].
  split; [exact Hn |]. split; [exact Hoff |]. split; [exact Hload | exact Hout].
Defined.

(** C8 on a configuration without collection. *)
Lemma C8_missing_collection_witness :
  let cfg := demo_config NoCollection 1 (Some 2) (Some 1) in
  collection cfg = NoCollection /\
  0 < batch_size cfg /\
  batch_size cfg <= plan_super_batch_size cfg /\
  exists ds : @BigWigDataset nat (nat * nat) (Z * Z) nat nat,
    BigWigDataset_init cfg = inr ds /\
    BigWigDataset_reset_gpu demo_open_collection demo_collection_reset_gpu ds =
    inl RuntimeError.
Proof.
  intros cfg.
  assert (H1 : collection cfg = NoCollection) by reflexivity.
  assert (H2 : 0 < batch_size cfg) by by_eval.
  assert (H3 : batch_size cfg <= plan_super_batch_size cfg) by by_eval.
  destruct (C8_missing_collection demo_genome_get_batch demo_open_collection
              demo_collection_len demo_collection_get_batch
              demo_collection_reset_gpu demo_smooth
              demo_genome_positions cfg H1 H2 H3)
    as (ds & Hinit & Hreset & _).
  split; [exact H1 |]. split; [exact H2 |]. split; [exact H3 |].
  exists ds. split; [exact Hinit | exact Hreset].
Defined.

(** C10 at [batch_size = 2], [super_batch_size = 3], [batches_per_epoch = 3]:
    two fetches, two batches, and the counter at 3. *)
Lemma C10_inner_cap_ends_epoch_witness :
  let ds := demo_built (demo_config (Collection 7%nat) 2 (Some 3) (Some 3)) in
  0 < ds_batch_size ds /\
  ds_batch_size ds <= sd_batch_size (ds_super_dataset ds) /\
  sd_window_size (ds_super_dataset ds) <> 0 /\
  0 <= sd_center_bin_to_predict (ds_super_dataset ds) /
       sd_window_size (ds_super_dataset ds) /\
  resolved_handle demo_open_collection (ds_super_dataset ds) = Some 7%nat /\
  exists bs ds',
    demo_epoch 20 ds = (bs, Exhausted, ds') /\
    length bs = 2%nat /\
    Z.of_nat (length bs) < ds_batches_per_epoch ds /\
    ds_n ds' = Z.of_nat (length bs) + 1.
Proof.
  intros ds.
  assert (H1 : 0 < ds_batch_size ds) by by_eval.
  assert (H2 : ds_batch_size ds <= sd_batch_size (ds_super_dataset ds))
    by by_eval.
  assert (H3 : sd_window_size (ds_super_dataset ds) <> 0) by by_eval.
  assert (Hw : 0 <= sd_center_bin_to_predict (ds_super_dataset ds) /
                    sd_window_size (ds_super_dataset ds)) by by_eval.
  assert (H4 : resolved_handle demo_open_collection (ds_super_dataset ds) =
               Some 7%nat) by by_eval.
  destruct (C10_inner_cap_ends_epoch demo_genome_get_batch demo_open_collection
              demo_collection_len demo_collection_get_batch demo_smooth
              demo_genome_positions ds 7%nat 20%nat H1 H2 H3 Hw H4
              ltac:(by_eval))
    as (_ & _ & _ & bs & ds' & Hrun & Hlen & _ & _ & Hshort).
  split; [exact H1 |]. split; [exact H2 |]. split; [exact H3 |].
  split; [exact Hw |].
  split; [exact H4 |].
  exists bs, ds'. split; [exact Hrun |]. split; [exact Hlen |].
  exact (Hshort ltac:(by_eval)).
Defined.

(** * The further properties at concrete inputs *)

Lemma demo_genome_sequences (c : nat) (s : Z) :
  length (snd (demo_genome_get_batch c s)) = Z.to_nat s.
Proof.
  unfold demo_genome_get_batch. cbn [snd].
  rewrite length_map, length_seq. reflexivity.
Qed.

Lemma demo_collection_rows (h : nat) (cs : list nat) (st en : list Z) (w : Z) :
  length (demo_collection_get_batch h cs st en w) = length st.
Proof.
  unfold demo_collection_get_batch.
  rewrite length_map, length_seq. reflexivity.
Qed.

Lemma demo_smooth_rows (l : list (Z * Z)) (n : Z) :
  length (demo_smooth l n) = length l.
Proof. reflexivity. Qed.

(** The first epoch at [batch_size = 2], [super_batch_size = 5],
    [batches_per_epoch = 4]: four batches out of two fetches. *)
Lemma first_epoch_in_closed_form_witness :
  let cfg := demo_config (Collection 7%nat) 2 (Some 5) (Some 4) in
  let ds := demo_built cfg in
  BigWigDataset_init cfg = inr ds /\
  0 < batch_size cfg /\
  window_size cfg <> 0 /\
  0 <= plan_center_bin_to_predict cfg / window_size cfg /\
  exists ds',
    demo_epoch 20 ds =
    (map (nth_batch demo_genome_get_batch demo_collection_get_batch demo_smooth
            2 5 None (ds_super_dataset ds) 7%nat 0)
         (seq 0 4),
     Exhausted, ds') /\
    ds_n ds' = 4 /\
    Z.of_nat (fetches ds') = 2.
Proof.
  intros cfg ds.
  assert (H1 : BigWigDataset_init cfg = inr ds) by by_eval.
  assert (H2 : 0 < batch_size cfg) by by_eval.
  assert (H3 : window_size cfg <> 0) by by_eval.
  assert (Hw : 0 <= plan_center_bin_to_predict cfg / window_size cfg)
    by by_eval.
  destruct (first_epoch_in_closed_form demo_genome_get_batch
              demo_open_collection
              demo_collection_len demo_collection_get_batch demo_smooth
              demo_genome_positions demo_genome_sequences demo_collection_rows
              demo_smooth_rows cfg ds 7%nat 20%nat H1 H2 H3 Hw
              ltac:(by_eval) ltac:(by_eval))
    as (ds' & Hrun & Hn & Hf & _).
  split; [exact H1 |]. split; [exact H2 |]. split; [exact H3 |].
  split; [exact Hw |].
  exists ds'. split; [exact Hrun |]. split; [exact Hn | exact Hf].
Defined.

(** An epoch planned for 3 batches, run with fuel 20, is over. *)
Lemma epoch_bounded_witness :
  let ds := demo_built (demo_config (Collection 7%nat) 2 (Some 3) (Some 3)) in
  (Z.to_nat (ds_batches_per_epoch ds) < 20)%nat /\
  snd (fst (demo_epoch 20 ds)) <> Running.
Proof.
  intros ds.
  assert (H1 : (Z.to_nat (ds_batches_per_epoch ds) < 20)%nat) by by_eval.
  split; [exact H1 |].
  exact (proj2 (epoch_bounded demo_genome_get_batch demo_open_collection
                  demo_collection_len demo_collection_get_batch demo_smooth
                  20%nat ds) H1).
Defined.

(** After an epoch has ended, three further calls and one more still
    signal the end. *)
Lemma exhausted_stays_exhausted_witness :
  let next := BigWigDataset_next demo_genome_get_batch demo_open_collection
                demo_collection_len demo_collection_get_batch demo_smooth in
  let ds := demo_after_epoch (demo_config (Collection 7%nat) 2 (Some 3) (Some 6)) in
  let ds' := state_after (next ds) in
  next ds = StopIteration ds' /\
  exists ds'',
    next (after_calls demo_genome_get_batch demo_open_collection
            demo_collection_len demo_collection_get_batch demo_smooth
            3 ds') = StopIteration ds''.
Proof.
  intros next ds ds'.
  assert (H1 : next ds = StopIteration ds') by by_eval.
  split; [exact H1 |].
  exact (exhausted_stays_exhausted demo_genome_get_batch demo_open_collection
           demo_collection_len demo_collection_get_batch demo_smooth
           ds ds' 3%nat H1).
Defined.

(** Two epochs at [batch_size = 2], [super_batch_size = 5]: every batch
    has two rows of each kind. *)
Lemma every_batch_has_batch_size_rows_witness :
  let ds := demo_built (demo_config (Collection 7%nat) 2 (Some 5) (Some 4)) in
  rows_in_place ds /\
  0 < ds_batch_size ds /\
  ds_batch_size ds <= sd_batch_size (ds_super_dataset ds) /\
  forall bs e b,
    In (bs, e) (fst (demo_run_epochs 20 2 ds)) ->
    In b bs ->
    length (fst b) = Z.to_nat (ds_batch_size ds) /\
    length (snd b) = Z.to_nat (ds_batch_size ds).
Proof.
  intros ds.
  assert (H1 : rows_in_place ds).
  { split; [by_eval |]. intros seqs tgts Hl. vm_compute in Hl. discriminate. }
  assert (H2 : 0 < ds_batch_size ds) by by_eval.
  assert (H3 : ds_batch_size ds <= sd_batch_size (ds_super_dataset ds))
    by by_eval.
  split; [exact H1 |]. split; [exact H2 |]. split; [exact H3 |].
  exact (every_batch_has_batch_size_rows demo_genome_get_batch
           demo_open_collection demo_collection_len demo_collection_get_batch
           demo_smooth demo_genome_positions demo_genome_sequences
           demo_collection_rows demo_smooth_rows 20%nat 2%nat ds H1 H2 H3).
Defined.

(** [reset_gpu] on a dataset built from a path, before its first epoch:
    the path is opened as collection 7, which the reset turns into
    collection 8; the two epochs that follow are the same. *)
Lemma reset_gpu_changes_no_batch_witness :
  let ds := demo_built (demo_config (Paths 7%nat) 2 (Some 4) (Some 3)) in
  let ds1 := state_after (Yield tt
               match demo_reset_gpu ds with inr d => d | inl _ => ds end) in
  (forall h, demo_collection_len (demo_collection_reset_gpu h) =
             demo_collection_len h) /\
  (forall h cs st en w,
     demo_collection_get_batch (demo_collection_reset_gpu h) cs st en w =
     demo_collection_get_batch h cs st en w) /\
  demo_reset_gpu ds = inr ds1 /\
  sd_bigwig_collection (ds_super_dataset ds1) = Some 8%nat /\
  fst (demo_run_epochs 20 2 ds1) = fst (demo_run_epochs 20 2 ds).
Proof.
  intros ds ds1.
  assert (Hlen : forall h, demo_collection_len (demo_collection_reset_gpu h) =
                           demo_collection_len h) by reflexivity.
  assert (Hget : forall h cs st en w,
             demo_collection_get_batch (demo_collection_reset_gpu h) cs st en w =
             demo_collection_get_batch h cs st en w) by reflexivity.
  assert (H1 : demo_reset_gpu ds = inr ds1) by by_eval.
  assert (H2 : sd_bigwig_collection (ds_super_dataset ds1) = Some 8%nat)
    by by_eval.
  destruct (reset_gpu_changes_no_batch demo_genome_get_batch
              demo_open_collection demo_collection_len
              demo_collection_get_batch demo_collection_reset_gpu demo_smooth
              ds ds1 20%nat 2%nat Hlen Hget H1)
    as (_ & _ & _ & _ & _ & _ & _ & Hepochs).
  split; [exact Hlen |]. split; [exact Hget |]. split; [exact H1 |].
  split; [exact H2 | exact Hepochs].
Defined.

(** The collection of a dataset built from a path, accessed twice. *)
Lemma lazy_properties_resolve_once_witness :
  let sd := ds_super_dataset
              (demo_built (demo_config (Paths 7%nat) 2 (Some 4) (Some 3))) in
  let sd1 := memoized demo_open_collection sd in
  bigwig_collection demo_open_collection sd = inr (7%nat, sd1) /\
  sd_bigwig_collection sd1 = Some 7%nat /\
  bigwig_collection demo_open_collection sd1 = inr (7%nat, sd1).
Proof.
  intros sd sd1.
  assert (H1 : bigwig_collection demo_open_collection sd = inr (7%nat, sd1))
    by by_eval.
  split; [exact H1 |].
  exact (proj1 (lazy_properties_resolve_once demo_open_collection
                  demo_collection_len sd) 7%nat sd1 H1).
Defined.

(** No [super_batch_size]: two batches, two fetches, each batch a whole
    super-batch. *)
Lemma default_super_batch_is_passed_through_witness :
  let cfg := demo_config (Collection 7%nat) 4 None None in
  let ds := demo_built cfg in
  super_batch_size cfg = None /\
  BigWigDataset_init cfg = inr ds /\
  0 < batch_size cfg /\
  window_size cfg <> 0 /\
  0 <= plan_center_bin_to_predict cfg / window_size cfg /\
  exists ds',
    demo_epoch 20 ds =
    (map (fetched demo_genome_get_batch demo_collection_get_batch demo_smooth
            (ds_super_dataset ds) 7%nat)
         (seq 0 (Z.to_nat (plan_batches_per_epoch cfg))),
     Exhausted, ds') /\
    fetches ds' = Z.to_nat (plan_batches_per_epoch cfg).
Proof.
  intros cfg ds.
  assert (H0 : super_batch_size cfg = None) by reflexivity.
  assert (H1 : BigWigDataset_init cfg = inr ds) by by_eval.
  assert (H2 : 0 < batch_size cfg) by by_eval.
  assert (H3 : window_size cfg <> 0) by by_eval.
  assert (Hw : 0 <= plan_center_bin_to_predict cfg / window_size cfg)
    by by_eval.
  destruct (default_super_batch_is_passed_through demo_genome_get_batch
              demo_open_collection demo_collection_len
              demo_collection_get_batch demo_smooth
              demo_genome_positions demo_genome_sequences demo_collection_rows
              demo_smooth_rows cfg ds 7%nat 20%nat (or_introl H0) H1 H2 H3 Hw
              ltac:(by_eval) ltac:(by_eval))
    as (_ & ds' & Hrun & Hf).
  split; [exact H0 |]. split; [exact H1 |]. split; [exact H2 |].
  split; [exact H3 |]. split; [exact Hw |].
  exists ds'. split; [exact Hrun | exact Hf].
Defined.

(** [batch_size = 2], [super_batch_size = 4], [batches_per_epoch = 4]: two
    fetches of four rows, four batches of two rows. *)
Lemma no_row_wasted_witness :
  let cfg := demo_config (Collection 7%nat) 2 (Some 4) (Some 4) in
  let ds := demo_built cfg in
  BigWigDataset_init cfg = inr ds /\
  0 <= plan_center_bin_to_predict cfg / window_size cfg /\
  plan_super_batch_size cfg mod batch_size cfg = 0 /\
  plan_batches_per_epoch cfg mod (plan_super_batch_size cfg / batch_size cfg) = 0 /\
  fst (demo_epoch 20 ds) =
  (map (batch_at demo_genome_get_batch demo_collection_get_batch demo_smooth
          2 None (ds_super_dataset ds) 7%nat 0)
       (slices 2 4 4),
   Exhausted) /\
  Z.of_nat (fetches (snd (demo_epoch 20 ds))) * 4 = 4 * 2.
Proof.
  intros cfg ds.
  assert (H1 : BigWigDataset_init cfg = inr ds) by by_eval.
  assert (H2 : plan_super_batch_size cfg mod batch_size cfg = 0) by by_eval.
  assert (H3 : plan_batches_per_epoch cfg mod
               (plan_super_batch_size cfg / batch_size cfg) = 0) by by_eval.
  assert (Hw : 0 <= plan_center_bin_to_predict cfg / window_size cfg)
    by by_eval.
  destruct (no_row_wasted demo_genome_get_batch demo_open_collection
              demo_collection_len demo_collection_get_batch demo_smooth
              demo_genome_positions demo_genome_sequences demo_collection_rows
              demo_smooth_rows cfg ds 7%nat 20%nat H1
              ltac:(by_eval) ltac:(by_eval) Hw ltac:(by_eval) H2
              ltac:(by_eval) H3 ltac:(by_eval))
    as (ds' & Hrun & Hrows & _).
  split; [exact H1 |]. split; [exact Hw |].
  split; [exact H2 |]. split; [exact H3 |].
  unfold demo_epoch. rewrite Hrun. cbn [fst snd].
  split; [reflexivity | exact Hrows].
Defined.

(** 10000 bases, windows of 1000, batches of 4: two batches fit. *)
Lemma default_batches_fit_the_regions_witness :
  let cfg := demo_config (Collection 7%nat) 4 (Some 8) None in
  batches_per_epoch cfg = None /\
  0 < batch_size cfg /\
  0 < sequence_length cfg /\
  plan_batches_per_epoch cfg = 10000 / (1000 * 4) /\
  plan_batches_per_epoch cfg * (1000 * 4) <= 10000
    < (plan_batches_per_epoch cfg + 1) * (1000 * 4).
Proof.
  intros cfg.
  assert (H1 : batches_per_epoch cfg = None) by reflexivity.
  assert (H2 : 0 < batch_size cfg) by by_eval.
  assert (H3 : 0 < sequence_length cfg) by by_eval.
  destruct (@default_batches_fit_the_regions nat nat nat cfg
              (or_introl H1) H2 H3) as (Hq & Hbounds & _).
  split; [exact H1 |]. split; [exact H2 |]. split; [exact H3 |].
  split; [exact Hq | exact Hbounds].
Defined.

(** Two batches of 4 rows out of super-batches of 8: one super-batch. *)
Lemma super_batches_bounded_witness :
  let cfg := demo_config (Collection 7%nat) 4 (Some 8) None in
  0 < batch_size cfg /\
  batch_size cfg <= plan_super_batch_size cfg /\
  0 <= plan_batches_per_epoch cfg /\
  0 <= plan_super_batches_per_epoch cfg <= plan_batches_per_epoch cfg.
Proof.
  intros cfg.
  assert (H1 : 0 < batch_size cfg) by by_eval.
  assert (H2 : batch_size cfg <= plan_super_batch_size cfg) by by_eval.
  assert (H3 : 0 <= plan_batches_per_epoch cfg) by by_eval.
  split; [exact H1 |]. split; [exact H2 |]. split; [exact H3 |].
  exact (proj1 (@super_batches_bounded nat nat nat cfg H1 H2 H3)).
Defined.

(** A window size of 0 with a collection in hand. *)
Lemma zero_window_size_fails_at_first_fetch_witness :
  let cfg := demo_config_window 0 (Collection 7%nat) 2 (Some 4) (Some 3) in
  let ds := demo_built cfg in
  BigWigDataset_init cfg = inr ds /\
  window_size cfg = 0 /\
  exists ds',
    demo_epoch 1 ds = ([], Failed ZeroDivisionError, ds') /\
    fetches ds' = 1%nat.
Proof.
  intros cfg ds.
  assert (H1 : BigWigDataset_init cfg = inr ds) by by_eval.
  assert (H2 : window_size cfg = 0) by reflexivity.
  destruct (zero_window_size_fails_at_first_fetch demo_genome_get_batch
              demo_open_collection demo_collection_len
              demo_collection_get_batch demo_smooth demo_genome_positions
              cfg ds 7%nat 0%nat H1 H2 ltac:(by_eval) ltac:(by_eval)
              ltac:(by_eval))
    as (ds' & Hrun & Hf & _).
  split; [exact H1 |]. split; [exact H2 |].
  exists ds'. split; [exact Hrun | exact Hf].
Defined.

(** Three epochs at [batch_size = 2], [super_batch_size = 4],
    [batches_per_epoch = 3]. *)
Lemma every_epoch_complete_when_divisible_witness :
  let cfg := demo_config (Collection 7%nat) 2 (Some 4) (Some 3) in
  let ds := demo_built cfg in
  BigWigDataset_init cfg = inr ds /\
  0 <= plan_center_bin_to_predict cfg / window_size cfg /\
  plan_super_batch_size cfg mod batch_size cfg = 0 /\
  Forall (fun r =>
            length (fst r) = Z.to_nat (plan_batches_per_epoch cfg) /\
            snd r = Exhausted)
    (fst (demo_run_epochs 20 3 ds)).
Proof.
  intros cfg ds.
  assert (H1 : BigWigDataset_init cfg = inr ds) by by_eval.
  assert (H2 : plan_super_batch_size cfg mod batch_size cfg = 0) by by_eval.
  assert (Hw : 0 <= plan_center_bin_to_predict cfg / window_size cfg)
    by by_eval.
  split; [exact H1 |]. split; [exact Hw |]. split; [exact H2 |].
  exact (every_epoch_complete_when_divisible demo_genome_get_batch
           demo_open_collection demo_collection_len demo_collection_get_batch
           demo_smooth demo_genome_positions cfg ds 7%nat 20%nat 3%nat H1
           ltac:(by_eval) ltac:(by_eval) Hw ltac:(by_eval) H2 ltac:(by_eval)).
Defined.
